(** * todo-gokit: the operation core, the endpoint layer and the HTTP transport

    A shallow embedding of the Go packages [models], [store], [addservice],
    [addendpoint] and [addtransport], followed by the properties proved
    about them.

    Conventions of the embedding:
    - a Go [int] is a [Z] kept inside the two's-complement range of the
      platform's word size [bits] (32 or 64); arithmetic on it is followed
      by [Go.wrap bits];
    - a Go [string] is a [string] (a sequence of bytes), [len] is its
      length in bytes;
    - a Go [error] is [option error_value], [None] being [nil];
    - an [interface{}] value is a value of [addendpoint.any], one
      constructor per dynamic type that travels through the endpoints;
    - effects (the store, the logger, the metrics, the clock, the response
      writer) are state passing over a world [W], in the state monad [M W];
      a type assertion that fails is the outcome [Panic]. *)

From Stdlib Require Import ZArith List String Bool Lia.
Import ListNotations.
Open Scope string_scope.
Open Scope list_scope.
Open Scope Z_scope.

Set Implicit Arguments.
Set Warnings "-register-all".

(** ** Go basics *)

Module Go.

(** Two's-complement wrap-around of an integer to [bits] bits. *)
Definition wrap (bits x : Z) : Z :=
  (x + 2 ^ (bits - 1)) mod 2 ^ bits - 2 ^ (bits - 1).

Definition minInt (bits : Z) : Z := - 2 ^ (bits - 1).
Definition maxInt (bits : Z) : Z := 2 ^ (bits - 1) - 1.

(** The sizes [int] can have. *)
Definition int_size (bits : Z) : Prop := bits = 32 \/ bits = 64.

(** [x] is a value of the [bits]-bit type [int]. *)
Definition is_int (bits x : Z) : Prop := minInt bits <= x <= maxInt bits.

(** [len(s)] for a string. *)
Definition len (s : string) : Z := Z.of_nat (String.length s).

(** Values of type [error] that are not [nil].  The first three are the
    package-level variables of [addservice]; [ErrLimited] is go-kit's
    [ratelimit.ErrLimited]; [ErrOpenState] and [ErrTooManyRequests] are
    gobreaker's.  Every other error value is an [ErrorString]: a distinct
    allocation [addr] that carries its message, as [errors.New] and the
    libraries build them; it is never identical to one of the variables
    above, whatever its message. *)
Inductive error_value : Type :=
| ErrTwoZeroes
| ErrIntOverflow
| ErrMaxSizeExceeded
| ErrLimited
| ErrOpenState
| ErrTooManyRequests
| ErrorString (addr : positive) (s : string).

Definition error : Type := option error_value.

(** The [Error()] method. *)
Definition Error (e : error_value) : string :=
  match e with
  | ErrTwoZeroes => "can't sum two zeroes"
  | ErrIntOverflow => "integer overflow"
  | ErrMaxSizeExceeded => "result exceeds maximum size"
  | ErrLimited => "rate limit exceeded"
  | ErrOpenState => "circuit breaker is open"
  | ErrTooManyRequests => "too many requests"
  | ErrorString _ s => s
  end.

(** [==] on error values: identity. *)
Definition error_value_eqb (x y : error_value) : bool :=
  match x, y with
  | ErrTwoZeroes, ErrTwoZeroes => true
  | ErrIntOverflow, ErrIntOverflow => true
  | ErrMaxSizeExceeded, ErrMaxSizeExceeded => true
  | ErrLimited, ErrLimited => true
  | ErrOpenState, ErrOpenState => true
  | ErrTooManyRequests, ErrTooManyRequests => true
  | ErrorString a _, ErrorString b _ => Pos.eqb a b
  | _, _ => false
  end.

Definition error_eqb (x y : error) : bool :=
  match x, y with
  | None, None => true
  | Some a, Some b => error_value_eqb a b
  | _, _ => false
  end.

(** What a call evaluates to: it returns, or it panics. *)
Inductive outcome (A : Type) : Type :=
| Ret (a : A)
| Panic (msg : string).
Arguments Panic {A} msg.

(** State passing over the world [W]. *)
Definition M (W A : Type) : Type := W -> A * W.

Definition ret {W A : Type} (a : A) : M W A := fun w => (a, w).

Definition bind {W A B : Type} (m : M W A) (k : A -> M W B) : M W B :=
  fun w => let (a, w') := m w in k a w'.

(** Reading the world without changing it. *)
Definition gets {W A : Type} (f : W -> A) : M W A := fun w => (f w, w).

(** A function with named results and one deferred call: the body runs
    and assigns the results, then the deferred closure runs, reading the
    results, and the function returns them. *)
Definition with_defer {W R : Type} (body : M W R) (deferred : R -> M W unit)
  : M W R :=
  bind body (fun r => bind (deferred r) (fun _ => ret r)).

(** [errors.New(text)]: a new error value, at the next free address. *)
Definition errors_New (text : string) : M positive error_value :=
  fun next => (ErrorString next text, Pos.succ next).

End Go.

Notation "x <- m ;; k" := (Go.bind m (fun x => k))
  (at level 61, m at next level, right associativity).
Notation "m ;;; k" := (Go.bind m (fun _ => k))
  (at level 61, right associativity).

(** ** package models *)

Module models.

(** [ID] is the ObjectID, kept as its hexadecimal rendering. *)
Record ToDoItem : Type := mkToDoItem {
  ID : string;
  Task : string;
  Status : bool
}.

End models.

(** ** package store *)

Module store.

Section Store.
Variable W : Type.

(** The persistence port.  A nil slice is [None]. *)
Record Store : Type := mkStore {
  Ping : Go.M W Go.error;
  InsertToDo : models.ToDoItem -> Go.M W (string * Go.error);
  CompleteToDo : string -> Go.M W (string * Go.error);
  UnDoToDo : string -> Go.M W (string * Go.error);
  DeleteToDo : string -> Go.M W (string * Go.error);
  GetAllToDo : Go.M W (option (list models.ToDoItem) * Go.error)
}.
End Store.

(** *** The store over a document collection *)

(** The values the driver exchanges with the code.  A filter is
    [bson.M{"_id": id}]; an update is [bson.M{"$set": bson.M{"status": b}}];
    [InsertedID] is [Some] of the identifier, in hexadecimal, when its
    dynamic type is [primitive.ObjectID], and [None] when it is another
    type. *)
Inductive Filter : Type :=
| by_id (id : string).

Inductive Update : Type :=
| set_status (b : bool).

Record InsertOneResult : Type := mkInsertOneResult {
  InsertedID : option string
}.

Record UpdateResult : Type := mkUpdateResult {
  MatchedCount : Z;
  ModifiedCount : Z
}.

Record DeleteResult : Type := mkDeleteResult {
  DeletedCount : Z
}.

(** [append(results, result)] on a slice that may be nil. *)
Definition append_item (results : option (list models.ToDoItem))
  (result : models.ToDoItem) : option (list models.ToDoItem) :=
  match results with
  | None => Some [result]
  | Some l => Some (l ++ [result])
  end.

(** The loop of [GetAllToDo] over the documents the cursor advances to,
    each with what [Decode] makes of it: the first decoding error ends the
    function with a nil slice; at the end of the documents the loop is
    left with the items appended so far. *)
Fixpoint scan (documents : list (models.ToDoItem * Go.error))
  (results : option (list models.ToDoItem))
  : option (list models.ToDoItem) * Go.error :=
  match documents with
  | [] => (results, None)
  | (_, Some err) :: _ => (None, Some err)
  | (result, None) :: rest => scan rest (append_item results result)
  end.

Section mongoStore.
Variable W : Type.

(** A [mongo.Cursor]: the documents [Next] advances to before it returns
    false, each with the result of [Decode]; the error [Err] reports once
    [Next] has returned false; and what [Close] does. *)
Record Cursor : Type := mkCursor {
  documents : list (models.ToDoItem * Go.error);
  Err : Go.error;
  Close : Go.M W Go.error
}.

Record Collection : Type := mkCollection {
  InsertOne : models.ToDoItem -> Go.M W (InsertOneResult * Go.error);
  UpdateOne : Filter -> Update -> Go.M W (UpdateResult * Go.error);
  DeleteOne : Filter -> Go.M W (DeleteResult * Go.error);
  Find : Go.M W (Cursor * Go.error)
}.

(** A [mongo.Client]: its [Ping], and the collection
    [client.Database(dbName).Collection(collectionName)]. *)
Record Client : Type := mkClient {
  client_Ping : Go.M W Go.error;
  Database_Collection : string -> string -> Collection
}.

Record mongoStore : Type := mkMongoStore {
  client : Client;
  collection : Collection
}.

(** [mongo.Connect] with the options of a connection string,
    [primitive.ObjectIDFromHex], and [errors.New] in the world [W]. *)
Variable mongo_Connect : string -> Go.M W (Client * Go.error).
Variable ObjectIDFromHex : string -> string * Go.error.
Variable errors_New : string -> Go.M W Go.error_value.

(** NewMongoStore return a pointer to newly create instance of
    mongoStore; the pointer is [None] when it is nil. *)
Definition NewMongoStore (connetionString dbName collectionName : string)
  : Go.M W (option mongoStore * Go.error) :=
  r <- mongo_Connect connetionString ;;
  match snd r with
  | Some err => Go.ret (None, Some err)
  | None =>
      let client := fst r in
      err <- client_Ping client ;;
      match err with
      | Some err => Go.ret (None, Some err)
      | None =>
          let collection := Database_Collection client dbName collectionName in
          Go.ret (Some {| client := client; collection := collection |}, None)
      end
  end.

Definition mongoStore_Ping (m : mongoStore) : Go.M W Go.error :=
  client_Ping (client m).

Definition mongoStore_InsertToDo (m : mongoStore) (task : models.ToDoItem)
  : Go.M W (string * Go.error) :=
  r <- InsertOne (collection m) task ;;
  match snd r with
  | Some err => Go.ret ("", Some err)
  | None =>
      match InsertedID (fst r) with
      | None => e <- errors_New "Malform InsertID" ;; Go.ret ("", Some e)
      | Some objID => Go.ret (objID, None)
      end
  end.

Definition mongoStore_CompleteToDo (m : mongoStore) (taskId : string)
  : Go.M W (string * Go.error) :=
  let (id, err) := ObjectIDFromHex taskId in
  match err with
  | Some err => Go.ret ("", Some err)
  | None =>
      let filter := by_id id in
      let update := set_status true in
      r <- UpdateOne (collection m) filter update ;;
      match snd r with
      | Some err => Go.ret ("", Some err)
      | None => Go.ret (taskId, None)
      end
  end.

Definition mongoStore_UnDoToDo (m : mongoStore) (taskId : string)
  : Go.M W (string * Go.error) :=
  let (id, err) := ObjectIDFromHex taskId in
  match err with
  | Some err => Go.ret ("", Some err)
  | None =>
      let filter := by_id id in
      let update := set_status false in
      r <- UpdateOne (collection m) filter update ;;
      match snd r with
      | Some err => Go.ret ("", Some err)
      | None => Go.ret (taskId, None)
      end
  end.

Definition mongoStore_DeleteToDo (m : mongoStore) (taskId : string)
  : Go.M W (string * Go.error) :=
  let (id, err) := ObjectIDFromHex taskId in
  match err with
  | Some err => Go.ret ("", Some err)
  | None =>
      let filter := by_id id in
      r <- DeleteOne (collection m) filter ;;
      match snd r with
      | Some err => Go.ret ("", Some err)
      | None => Go.ret (taskId, None)
      end
  end.

Definition mongoStore_GetAllToDo (m : mongoStore)
  : Go.M W (option (list models.ToDoItem) * Go.error) :=
  r <- Find (collection m) ;;
  match snd r with
  | Some err => Go.ret (None, Some err)
  | None =>
      let cur := fst r in
      Go.with_defer
        (Go.ret
           match scan (documents cur) None with
           | (_, Some err) => (None, Some err)
           | (results, None) =>
               match Err cur with
               | Some err => (None, Some err)
               | None => (results, None)
               end
           end)
        (fun _ => Close cur ;;; Go.ret tt)
  end.

(** A [mongoStore] as the [Store] it implements. *)
Definition Store_of (m : mongoStore) : Store W :=
  {| Ping := mongoStore_Ping m;
     InsertToDo := mongoStore_InsertToDo m;
     CompleteToDo := mongoStore_CompleteToDo m;
     UnDoToDo := mongoStore_UnDoToDo m;
     DeleteToDo := mongoStore_DeleteToDo m;
     GetAllToDo := mongoStore_GetAllToDo m |}.
End mongoStore.

End store.

(** ** package addservice *)

Module addservice.

(** Values handed to [logger.Log] and the dependencies a service is wired
    with.  A [Counter]'s [Add] receives the integer the code converts with
    [float64(...)]; a [Histogram] keeps the label values given to [With]
    and [Observe] receives a duration in nanoseconds. *)
Inductive logval : Type :=
| LString (s : string)
| LInt (z : Z)
| LError (e : Go.error)
| LToDoItem (t : models.ToDoItem)
| LToDoItems (l : option (list models.ToDoItem)).

Section Service.
Variable W : Type.

Record Logger : Type := mkLogger {
  Log : list logval -> Go.M W Go.error
}.

Record Counter : Type := mkCounter {
  Add : Z -> Go.M W unit
}.

Record Histogram : Type := mkHistogram {
  lvs : list string;
  observe : list string -> Z -> Go.M W unit
}.

Definition With (h : Histogram) (labelValues : list string) : Histogram :=
  {| lvs := lvs h ++ labelValues; observe := observe h |}.

Definition Observe (h : Histogram) (d : Z) : Go.M W unit :=
  observe h (lvs h) d.

(** Service describes a service that adds things together.  The
    [context.Context] argument, which every method only passes along,
    is left out. *)
Record Service : Type := mkService {
  Sum : Z -> Z -> Go.M W (Z * Go.error);
  Concat : string -> string -> Go.M W (string * Go.error);
  Ping : Go.M W (string * Go.error);
  AddToDo : models.ToDoItem -> Go.M W (string * Go.error);
  CompleteToDo : string -> Go.M W (string * Go.error);
  UnDoToDo : string -> Go.M W (string * Go.error);
  DeleteToDo : string -> Go.M W (string * Go.error);
  GetAllToDo : Go.M W (option (list models.ToDoItem) * Go.error)
}.

Definition Middleware : Type := Service -> Service.
End Service.

Definition intMax : Z := Z.shiftl 1 31 - 1.
Definition intMin : Z := - (intMax + 1).
Definition maxLen : Z := 10.

Module basicService.
Section basicService.
(** [bits] is the size of [int] on the platform; [dbStore] is the
    field of the struct. *)
Variable bits : Z.
Variable W : Type.
Variable dbStore : store.Store W.

(** Sum implements Sum. *)
Definition Sum (a b : Z) : Z * Go.error :=
  if (a =? 0) && (b =? 0) then (0, Some Go.ErrTwoZeroes)
  else if ((b >? 0) && (a >? Go.wrap bits (intMax - b)))
          || ((b <? 0) && (a <? Go.wrap bits (intMin - b)))
  then (0, Some Go.ErrIntOverflow)
  else (Go.wrap bits (a + b), None).

Definition Concat (a b : string) : string * Go.error :=
  if Go.wrap bits (Go.len a + Go.len b) >? maxLen
  then ("", Some Go.ErrMaxSizeExceeded)
  else ((a ++ b)%string, None).

Definition Ping : Go.M W (string * Go.error) :=
  err <- store.Ping dbStore ;;
  match err with
  | Some _ => Go.ret ("down", None)
  | None => Go.ret ("up", None)
  end.

Definition AddToDo (task : models.ToDoItem) : Go.M W (string * Go.error) :=
  r <- store.InsertToDo dbStore task ;;
  match snd r with
  | Some e => Go.ret ("", Some e)
  | None => Go.ret (fst r, None)
  end.

Definition CompleteToDo (taskID : string) : Go.M W (string * Go.error) :=
  r <- store.CompleteToDo dbStore taskID ;;
  match snd r with
  | Some e => Go.ret ("", Some e)
  | None => Go.ret (fst r, None)
  end.

Definition UnDoToDo (taskID : string) : Go.M W (string * Go.error) :=
  r <- store.UnDoToDo dbStore taskID ;;
  match snd r with
  | Some e => Go.ret ("", Some e)
  | None => Go.ret (fst r, None)
  end.

Definition DeleteToDo (taskID : string) : Go.M W (string * Go.error) :=
  r <- store.DeleteToDo dbStore taskID ;;
  match snd r with
  | Some e => Go.ret ("", Some e)
  | None => Go.ret (fst r, None)
  end.

Definition GetAllToDo
  : Go.M W (option (list models.ToDoItem) * Go.error) :=
  r <- store.GetAllToDo dbStore ;;
  match snd r with
  | Some e => Go.ret (None, Some e)
  | None => Go.ret (fst r, None)
  end.
End basicService.
End basicService.

(** The value [basicService{dbStore: dbStore}] as a [Service]. *)
Definition NewBasicService (bits : Z) (W : Type) (dbStore : store.Store W)
  : Service W :=
  {| Sum := fun a b => Go.ret (basicService.Sum bits a b);
     Concat := fun a b => Go.ret (basicService.Concat bits a b);
     Ping := basicService.Ping dbStore;
     AddToDo := basicService.AddToDo dbStore;
     CompleteToDo := basicService.CompleteToDo dbStore;
     UnDoToDo := basicService.UnDoToDo dbStore;
     DeleteToDo := basicService.DeleteToDo dbStore;
     GetAllToDo := basicService.GetAllToDo dbStore |}.

(** *** Service middlewares *)

Module loggingMiddleware.
Section loggingMiddleware.
Variable W : Type.
Variable logger : Logger W.
Variable next : Service W.

(** The deferred closure of every method: one call of [logger.Log],
    whose returned error is dropped. *)
Definition log (keyvals : list logval) : Go.M W unit :=
  Log logger keyvals ;;; Go.ret tt.

Definition Sum (a b : Z) : Go.M W (Z * Go.error) :=
  Go.with_defer (Sum next a b)
    (fun r => log [LString "method"; LString "Sum"; LString "a"; LInt a;
                   LString "b"; LInt b; LString "v"; LInt (fst r);
                   LString "err"; LError (snd r)]).

Definition Concat (a b : string) : Go.M W (string * Go.error) :=
  Go.with_defer (Concat next a b)
    (fun r => log [LString "method"; LString "Concat"; LString "a";
                   LString a; LString "b"; LString b; LString "v";
                   LString (fst r); LString "err"; LError (snd r)]).

Definition Ping : Go.M W (string * Go.error) :=
  Go.with_defer (Ping next)
    (fun r => log [LString "method"; LString "Ping"; LString "v";
                   LString (fst r); LString "err"; LError (snd r)]).

Definition AddToDo (task : models.ToDoItem) : Go.M W (string * Go.error) :=
  Go.with_defer (AddToDo next task)
    (fun r => log [LString "method"; LString "AddToDo"; LString "task";
                   LToDoItem task; LString "v"; LString (fst r);
                   LString "err"; LError (snd r)]).

Definition CompleteToDo (taskID : string) : Go.M W (string * Go.error) :=
  Go.with_defer (CompleteToDo next taskID)
    (fun r => log [LString "method"; LString "CompleteTod";
                   LString "taskID"; LString taskID; LString "v";
                   LString (fst r); LString "err"; LError (snd r)]).

Definition UnDoToDo (taskID : string) : Go.M W (string * Go.error) :=
  Go.with_defer (UnDoToDo next taskID)
    (fun r => log [LString "method"; LString "UnDoTodo";
                   LString "taskID"; LString taskID; LString "v";
                   LString (fst r); LString "err"; LError (snd r)]).

Definition DeleteToDo (taskID : string) : Go.M W (string * Go.error) :=
  Go.with_defer (DeleteToDo next taskID)
    (fun r => log [LString "method"; LString "DeleteToDo";
                   LString "taskID"; LString taskID; LString "v";
                   LString (fst r); LString "err"; LError (snd r)]).

Definition GetAllToDo
  : Go.M W (option (list models.ToDoItem) * Go.error) :=
  Go.with_defer (GetAllToDo next)
    (fun r => log [LString "method"; LString "GetAllToDo";
                   LString "results"; LToDoItems (fst r);
                   LString "err"; LError (snd r)]).
End loggingMiddleware.
End loggingMiddleware.

(** LoggingMiddleware takes a logger as a dependency and returns a service
    Middleware. *)
Definition LoggingMiddleware (W : Type) (logger : Logger W) : Middleware W :=
  fun next =>
    {| Sum := loggingMiddleware.Sum logger next;
       Concat := loggingMiddleware.Concat logger next;
       Ping := loggingMiddleware.Ping logger next;
       AddToDo := loggingMiddleware.AddToDo logger next;
       CompleteToDo := loggingMiddleware.CompleteToDo logger next;
       UnDoToDo := loggingMiddleware.UnDoToDo logger next;
       DeleteToDo := loggingMiddleware.DeleteToDo logger next;
       GetAllToDo := loggingMiddleware.GetAllToDo logger next |}.

Module instrumentingMiddleware.
Section instrumentingMiddleware.
Variable W : Type.
(** [time.Now()], in nanoseconds: the clock of the world, which
    reading does not change. *)
Variable time_Now : W -> Z.
Variables ints chars : Counter W.
Variables cubToDo getToDo : Histogram W.
Variable next : Service W.

(** [fmt.Sprint(err != nil)]. *)
Definition Sprint_failed (err : Go.error) : string :=
  match err with Some _ => "true" | None => "false" end.

(** The deferred closure of the to-do methods: it was given
    [begin = time.Now()] when the [defer] statement ran, and observes
    [time.Since(begin)] under the label values [lvs]. *)
Definition observe_since (h : Histogram W) (method : string) (begin : Z)
  (err : Go.error) : Go.M W unit :=
  let lvs := ["method"; method; "error"; Sprint_failed err] in
  now <- Go.gets time_Now ;;
  Observe (With h lvs) (now - begin).

Definition Sum (a b : Z) : Go.M W (Z * Go.error) :=
  r <- Sum next a b ;;
  Add ints (fst r) ;;;
  Go.ret (fst r, snd r).

Definition Concat (a b : string) : Go.M W (string * Go.error) :=
  r <- Concat next a b ;;
  Add chars (Go.len (fst r)) ;;;
  Go.ret (fst r, snd r).

Definition Ping : Go.M W (string * Go.error) :=
  r <- Ping next ;;
  Add chars 1 ;;;
  Go.ret (fst r, snd r).

Definition AddToDo (task : models.ToDoItem) : Go.M W (string * Go.error) :=
  begin <- Go.gets time_Now ;;
  Go.with_defer (AddToDo next task)
    (fun r => observe_since cubToDo "AddToDo" begin (snd r)).

Definition CompleteToDo (taskID : string) : Go.M W (string * Go.error) :=
  begin <- Go.gets time_Now ;;
  Go.with_defer (CompleteToDo next taskID)
    (fun r => observe_since cubToDo "CompleteToDo" begin (snd r)).

Definition UnDoToDo (taskID : string) : Go.M W (string * Go.error) :=
  begin <- Go.gets time_Now ;;
  Go.with_defer (UnDoToDo next taskID)
    (fun r => observe_since cubToDo "UnDoToDo" begin (snd r)).

Definition DeleteToDo (taskID : string) : Go.M W (string * Go.error) :=
  begin <- Go.gets time_Now ;;
  Go.with_defer (DeleteToDo next taskID)
    (fun r => observe_since cubToDo "DeleteToDo" begin (snd r)).

Definition GetAllToDo
  : Go.M W (option (list models.ToDoItem) * Go.error) :=
  begin <- Go.gets time_Now ;;
  Go.with_defer (GetAllToDo next)
    (fun r => observe_since getToDo "DeleteToDo" begin (snd r)).
End instrumentingMiddleware.
End instrumentingMiddleware.

(** InstrumentingMiddleware returns a service middleware that instruments
    the number of integers summed and characters concatenated over the
    lifetime of the service. *)
Definition InstrumentingMiddleware (W : Type) (time_Now : W -> Z)
  (ints chars : Counter W) (cubToDo getToDo : Histogram W) : Middleware W :=
  fun next =>
    {| Sum := instrumentingMiddleware.Sum ints next;
       Concat := instrumentingMiddleware.Concat chars next;
       Ping := instrumentingMiddleware.Ping chars next;
       AddToDo := instrumentingMiddleware.AddToDo time_Now cubToDo next;
       CompleteToDo :=
         instrumentingMiddleware.CompleteToDo time_Now cubToDo next;
       UnDoToDo := instrumentingMiddleware.UnDoToDo time_Now cubToDo next;
       DeleteToDo := instrumentingMiddleware.DeleteToDo time_Now cubToDo next;
       GetAllToDo := instrumentingMiddleware.GetAllToDo time_Now getToDo next |}.

(** New returns a basic Service with all the expected middlewares wired
    in. *)
Definition New (bits : Z) (W : Type) (dbStore : store.Store W)
  (time_Now : W -> Z) (logger : Logger W) (ints chars : Counter W)
  (cubTodo getTodo : Histogram W) : Service W :=
  let svc := NewBasicService bits dbStore in
  let svc := LoggingMiddleware logger svc in
  let svc := InstrumentingMiddleware time_Now ints chars cubTodo getTodo svc in
  svc.

(** *** The basic service as the program starts it *)

Section at_start.
Variable bits : Z.
Variable W : Type.
Variable mongo_Connect : string -> Go.M W (store.Client W * Go.error).
Variable ObjectIDFromHex : string -> string * Go.error.
Variable errors_New : string -> Go.M W Go.error_value.

(** The field [dbStore] of the value [NewBasicService()] returns: the
    pointer [NewMongoStore] returned, whose error is dropped; [None] is
    the nil pointer. *)
Definition NewBasicService_dbStore : Go.M W (option (store.mongoStore W)) :=
  r <- store.NewMongoStore mongo_Connect "mongodb://localhost:27017"
         "gokit-test" "todolist" ;;
  Go.ret (fst r).

(** The pointer of type [*mongoStore] that the field [dbStore], a
    [Store], holds. *)
Variable dbStore : option (store.mongoStore W).

(** The panic of the runtime when a method with a value receiver is
    called through a nil pointer; the text leaves out the names of the
    method and of the type. *)
Definition nil_receiver {A : Type} : Go.outcome A :=
  Go.Panic "value method called using nil pointer".

(** A call [s.dbStore.M(...)] of a method [M] of the store: the methods
    of [mongoStore] have value receivers, so the call through a nil
    pointer panics, before [M] runs. *)
Definition dbStore_call {A : Type} (M : store.mongoStore W -> Go.M W A)
  : Go.M W (Go.outcome A) :=
  match dbStore with
  | None => Go.ret nil_receiver
  | Some m => a <- M m ;; Go.ret (Go.Ret a)
  end.

(** What follows the call in the five to-do methods. *)
Definition or_zero {A : Type} (zero : A) (o : Go.outcome (A * Go.error))
  : Go.outcome (A * Go.error) :=
  match o with
  | Go.Panic msg => Go.Panic msg
  | Go.Ret (_, Some err) => Go.Ret (zero, Some err)
  | Go.Ret (v, None) => Go.Ret (v, None)
  end.

(** The methods of [basicService] over that field.  [Sum] and [Concat] do
    not read it. *)
Definition started_Sum (a b : Z) : Go.M W (Go.outcome (Z * Go.error)) :=
  Go.ret (Go.Ret (basicService.Sum bits a b)).

Definition started_Concat (a b : string)
  : Go.M W (Go.outcome (string * Go.error)) :=
  Go.ret (Go.Ret (basicService.Concat bits a b)).

Definition started_Ping : Go.M W (Go.outcome (string * Go.error)) :=
  o <- dbStore_call (fun m => store.mongoStore_Ping m) ;;
  match o with
  | Go.Panic msg => Go.ret (Go.Panic msg)
  | Go.Ret (Some _) => Go.ret (Go.Ret ("down", None))
  | Go.Ret None => Go.ret (Go.Ret ("up", None))
  end.

Definition started_AddToDo (task : models.ToDoItem)
  : Go.M W (Go.outcome (string * Go.error)) :=
  o <- dbStore_call (fun m => store.mongoStore_InsertToDo errors_New m task) ;;
  Go.ret (or_zero "" o).

Definition started_CompleteToDo (taskID : string)
  : Go.M W (Go.outcome (string * Go.error)) :=
  o <- dbStore_call
         (fun m => store.mongoStore_CompleteToDo ObjectIDFromHex m taskID) ;;
  Go.ret (or_zero "" o).

Definition started_UnDoToDo (taskID : string)
  : Go.M W (Go.outcome (string * Go.error)) :=
  o <- dbStore_call
         (fun m => store.mongoStore_UnDoToDo ObjectIDFromHex m taskID) ;;
  Go.ret (or_zero "" o).

Definition started_DeleteToDo (taskID : string)
  : Go.M W (Go.outcome (string * Go.error)) :=
  o <- dbStore_call
         (fun m => store.mongoStore_DeleteToDo ObjectIDFromHex m taskID) ;;
  Go.ret (or_zero "" o).

Definition started_GetAllToDo
  : Go.M W (Go.outcome (option (list models.ToDoItem) * Go.error)) :=
  o <- dbStore_call (fun m => store.mongoStore_GetAllToDo m) ;;
  Go.ret (or_zero None o).
End at_start.

End addservice.

(** ** The go-kit, rate, gobreaker and tracing operations the wiring uses

    These libraries are not part of the repository.  The wiring code
    receives them as an interface [Kit] over the type [E] of endpoints; the
    values that configure them are kept as the code writes them. *)

Module kit.

(** [time.Second], in nanoseconds. *)
Definition Second : Z := 1000000000.

(** A [rate.Limit], as the two expressions that build one:
    [rate.Every(interval)] and [rate.Limit(n)]. *)
Inductive Limit : Type :=
| Every (interval : Z)
| Limit_of (n : Z).

(** The limiter allocated by the [alloc]-th call of [rate.NewLimiter] in
    the function that builds it: two calls give two limiters, each with
    its own bucket. *)
Record Limiter : Type := NewLimiter {
  limiter_alloc : nat;
  limit : Limit;
  burst : Z
}.

(** [gobreaker.Settings]; the fields left out of a literal are zero. *)
Record Settings : Type := mkSettings {
  Name : string;
  Timeout : Z
}.

(** The breaker allocated by the [alloc]-th call of
    [gobreaker.NewCircuitBreaker]. *)
Record CircuitBreaker : Type := NewCircuitBreaker {
  breaker_alloc : nat;
  settings : Settings
}.

Record URL : Type := mkURL {
  Scheme : string;
  Host : string;
  Path : string
}.

(** The functions of [addtransport] handed to [httptransport.NewClient],
    by name. *)
Inductive EncodeRequestFunc : Type :=
| encodeHTTPGenericRequest.

Inductive DecodeResponseFunc : Type :=
| decodeHTTPSumResponse
| decodeHTTPConcatResponse
| decodeHTTPPingResponse
| decodeHTTPAddToDoResponse
| decodeHTTPCompleteToDoResponse
| decodeHTTPUnDoToDoResponse
| decodeHTTPDeleteToDoResponse
| decodeHTTPGetAllToDoResponse.

Inductive ClientOption : Type :=
| HTTPClientTrace
| ClientBefore_ContextToHTTP.

Record Kit (E : Type) : Type := mkKit {
  (** [ratelimit.NewErroringLimiter(l)] *)
  NewErroringLimiter : Limiter -> E -> E;
  (** [circuitbreaker.Gobreaker(cb)] *)
  Gobreaker : CircuitBreaker -> E -> E;
  (** [opentracing.TraceServer(otTracer, name)] *)
  TraceServer : string -> E -> E;
  (** [opentracing.TraceClient(otTracer, name)] *)
  TraceClient : string -> E -> E;
  (** [zipkin.TraceEndpoint(zipkinTracer, name)] *)
  TraceEndpoint : string -> E -> E;
  (** [httptransport.NewClient(method, tgt, enc, dec, options...).Endpoint()] *)
  NewClient : string -> URL -> EncodeRequestFunc -> DecodeResponseFunc ->
              list ClientOption -> E
}.

(** The endpoints of the wiring code as terms: the free [Kit]. *)
Inductive term : Type :=
| TNewClient (method : string) (tgt : URL) (enc : EncodeRequestFunc)
    (dec : DecodeResponseFunc) (options : list ClientOption)
| TNewErroringLimiter (l : Limiter) (e : term)
| TGobreaker (cb : CircuitBreaker) (e : term)
| TTraceServer (name : string) (e : term)
| TTraceClient (name : string) (e : term)
| TTraceEndpoint (name : string) (e : term).

Definition term_kit : Kit term :=
  {| NewErroringLimiter := TNewErroringLimiter;
     Gobreaker := TGobreaker;
     TraceServer := TTraceServer;
     TraceClient := TTraceClient;
     TraceEndpoint := TTraceEndpoint;
     NewClient := TNewClient |}.

(** The endpoint a decorated endpoint is built around: the one every
    middleware of the chain passes the request down to. *)
Fixpoint base (e : term) : term :=
  match e with
  | TNewClient _ _ _ _ _ => e
  | TNewErroringLimiter _ e' => base e'
  | TGobreaker _ e' => base e'
  | TTraceServer _ e' => base e'
  | TTraceClient _ e' => base e'
  | TTraceEndpoint _ e' => base e'
  end.

(** The path of the route the base HTTP client of [e] sends requests
    to. *)
Definition route (e : term) : string :=
  match base e with
  | TNewClient _ tgt _ _ _ => Path tgt
  | _ => ""
  end.

(** The decoder the base HTTP client of [e] reads responses with. *)
Definition decoder (e : term) : option DecodeResponseFunc :=
  match base e with
  | TNewClient _ _ _ dec _ => Some dec
  | _ => None
  end.

(** The limiters a request passes on its way down the chain [e], from the
    outside in. *)
Fixpoint limiters (e : term) : list Limiter :=
  match e with
  | TNewClient _ _ _ _ _ => []
  | TNewErroringLimiter l e' => l :: limiters e'
  | TGobreaker _ e' => limiters e'
  | TTraceServer _ e' => limiters e'
  | TTraceClient _ e' => limiters e'
  | TTraceEndpoint _ e' => limiters e'
  end.

(** The names of the circuit breakers a request passes on its way down the
    chain [e], from the outside in. *)
Fixpoint breakers (e : term) : list string :=
  match e with
  | TNewClient _ _ _ _ _ => []
  | TNewErroringLimiter _ e' => breakers e'
  | TGobreaker cb e' => Name (settings cb) :: breakers e'
  | TTraceServer _ e' => breakers e'
  | TTraceClient _ e' => breakers e'
  | TTraceEndpoint _ e' => breakers e'
  end.

End kit.

(** ** package addendpoint *)

Module addendpoint.

(** *** Request and response types *)

Module SumRequest.
Record t : Type := mk { A : Z; B : Z }.
End SumRequest.

Module SumResponse.
Record t : Type := mk { V : Z; Err : Go.error }.
Definition Failed (r : t) : Go.error := Err r.
End SumResponse.

Module ConcatRequest.
Record t : Type := mk { A : string; B : string }.
End ConcatRequest.

Module ConcatResponse.
Record t : Type := mk { V : string; Err : Go.error }.
Definition Failed (r : t) : Go.error := Err r.
End ConcatResponse.

Module PingRequest.
Record t : Type := mk { }.
End PingRequest.

Module PingResponse.
Record t : Type := mk { V : string; Err : Go.error }.
Definition Failed (r : t) : Go.error := Err r.
End PingResponse.

(** [type AddToDoRequest = models.ToDoItem]: an alias, not a new type. *)
Definition AddToDoRequest : Type := models.ToDoItem.

Module AddToDoResponse.
Record t : Type := mk { TaskID : string; Err : Go.error }.
Definition Failed (r : t) : Go.error := Err r.
End AddToDoResponse.

Module CompleteToDoRequest.
Record t : Type := mk { TaskID : string }.
End CompleteToDoRequest.

Module CompleteToDoResponse.
Record t : Type := mk { TaskID : string; Err : Go.error }.
Definition Failed (r : t) : Go.error := Err r.
End CompleteToDoResponse.

Module UnDoToDoRequest.
Record t : Type := mk { TaskID : string }.
End UnDoToDoRequest.

Module UnDoToDoResponse.
Record t : Type := mk { TaskID : string; Err : Go.error }.
Definition Failed (r : t) : Go.error := Err r.
End UnDoToDoResponse.

Module DeleteToDoRequest.
Record t : Type := mk { TaskID : string }.
End DeleteToDoRequest.

Module DeleteToDoResponse.
Record t : Type := mk { TaskID : string; Err : Go.error }.
Definition Failed (r : t) : Go.error := Err r.
End DeleteToDoResponse.

Module GetAllToDoRequest.
Record t : Type := mk { }.
End GetAllToDoRequest.

Module GetAllToDoResponse.
Record t : Type :=
  mk { Todos : option (list models.ToDoItem); Err : Go.error }.
Definition Failed (r : t) : Go.error := Err r.
End GetAllToDoResponse.

(** An [interface{}] value: [nil], or a value tagged with its dynamic
    type. *)
Inductive any : Type :=
| untyped_nil
| OfSumRequest (r : SumRequest.t)
| OfSumResponse (r : SumResponse.t)
| OfConcatRequest (r : ConcatRequest.t)
| OfConcatResponse (r : ConcatResponse.t)
| OfPingRequest (r : PingRequest.t)
| OfPingResponse (r : PingResponse.t)
| OfToDoItem (r : models.ToDoItem)
| OfAddToDoResponse (r : AddToDoResponse.t)
| OfCompleteToDoRequest (r : CompleteToDoRequest.t)
| OfCompleteToDoResponse (r : CompleteToDoResponse.t)
| OfUnDoToDoRequest (r : UnDoToDoRequest.t)
| OfUnDoToDoResponse (r : UnDoToDoResponse.t)
| OfDeleteToDoRequest (r : DeleteToDoRequest.t)
| OfDeleteToDoResponse (r : DeleteToDoResponse.t)
| OfGetAllToDoRequest (r : GetAllToDoRequest.t)
| OfGetAllToDoResponse (r : GetAllToDoResponse.t).

(** The type assertion [v.(endpoint.Failer)] followed by [Failed()]:
    [Some] of the method's result for the dynamic types that implement the
    interface, [None] when the assertion does not hold. *)
Definition Failer (v : any) : option Go.error :=
  match v with
  | OfSumResponse r => Some (SumResponse.Failed r)
  | OfConcatResponse r => Some (ConcatResponse.Failed r)
  | OfPingResponse r => Some (PingResponse.Failed r)
  | OfAddToDoResponse r => Some (AddToDoResponse.Failed r)
  | OfCompleteToDoResponse r => Some (CompleteToDoResponse.Failed r)
  | OfUnDoToDoResponse r => Some (UnDoToDoResponse.Failed r)
  | OfDeleteToDoResponse r => Some (DeleteToDoResponse.Failed r)
  | OfGetAllToDoResponse r => Some (GetAllToDoResponse.Failed r)
  | _ => None
  end.

(** The panic of a failed type assertion. *)
Definition conversion_panic {A : Type} : Go.outcome A :=
  Go.Panic "interface conversion".

Section Endpoints.
Variable W : Type.

(** go-kit's [endpoint.Endpoint], without the context. *)
Definition Endpoint : Type :=
  any -> Go.M W (Go.outcome (any * Go.error)).

Definition Middleware : Type := Endpoint -> Endpoint.

Variable s : addservice.Service W.

(** MakeSumEndpoint constructs a Sum endpoint wrapping the service. *)
Definition MakeSumEndpoint : Endpoint :=
  fun request =>
    match request with
    | OfSumRequest req =>
        r <- addservice.Sum s (SumRequest.A req) (SumRequest.B req) ;;
        Go.ret (Go.Ret
          (OfSumResponse {| SumResponse.V := fst r;
                            SumResponse.Err := snd r |}, None))
    | _ => Go.ret conversion_panic
    end.

(** MakeConcatEndpoint constructs a Concat endpoint wrapping the
    service. *)
Definition MakeConcatEndpoint : Endpoint :=
  fun request =>
    match request with
    | OfConcatRequest req =>
        r <- addservice.Concat s (ConcatRequest.A req)
               (ConcatRequest.B req) ;;
        Go.ret (Go.Ret
          (OfConcatResponse {| ConcatResponse.V := fst r;
                               ConcatResponse.Err := snd r |}, None))
    | _ => Go.ret conversion_panic
    end.

(** MakePingEndpoint constructs a Ping endpoint wrapping the service. *)
Definition MakePingEndpoint : Endpoint :=
  fun _ =>
    r <- addservice.Ping s ;;
    Go.ret (Go.Ret
      (OfConcatResponse {| ConcatResponse.V := fst r;
                           ConcatResponse.Err := snd r |}, None)).

(** MakeAddToDoEndpoint constructs a AddToDo endpoint wrapping the
    service. *)
Definition MakeAddToDoEndpoint : Endpoint :=
  fun request =>
    match request with
    | OfToDoItem req =>
        r <- addservice.AddToDo s req ;;
        Go.ret (Go.Ret
          (OfAddToDoResponse {| AddToDoResponse.TaskID := fst r;
                                AddToDoResponse.Err := snd r |}, None))
    | _ => Go.ret conversion_panic
    end.

(** MakeCompleteToDoEndpoint constructs a CompleteToDo endpoint wrapping
    the service. *)
Definition MakeCompleteToDoEndpoint : Endpoint :=
  fun request =>
    match request with
    | OfCompleteToDoRequest req =>
        r <- addservice.CompleteToDo s (CompleteToDoRequest.TaskID req) ;;
        Go.ret (Go.Ret
          (OfCompleteToDoResponse
             {| CompleteToDoResponse.TaskID := fst r;
                CompleteToDoResponse.Err := snd r |}, None))
    | _ => Go.ret conversion_panic
    end.

(** MakeUnDoToDoEndpoint constructs a UnDoToDo endpoint wrapping the
    service. *)
Definition MakeUnDoToDoEndpoint : Endpoint :=
  fun request =>
    match request with
    | OfUnDoToDoRequest req =>
        r <- addservice.UnDoToDo s (UnDoToDoRequest.TaskID req) ;;
        Go.ret (Go.Ret
          (OfUnDoToDoResponse {| UnDoToDoResponse.TaskID := fst r;
                                 UnDoToDoResponse.Err := snd r |}, None))
    | _ => Go.ret conversion_panic
    end.

(** MakeDeleteToDoEndpoint constructs a DeleteToDo endpoint wrapping the
    service. *)
Definition MakeDeleteToDoEndpoint : Endpoint :=
  fun request =>
    match request with
    | OfDeleteToDoRequest req =>
        r <- addservice.DeleteToDo s (DeleteToDoRequest.TaskID req) ;;
        Go.ret (Go.Ret
          (OfDeleteToDoResponse
             {| DeleteToDoResponse.TaskID := fst r;
                DeleteToDoResponse.Err := snd r |}, None))
    | _ => Go.ret conversion_panic
    end.

(** MakeGetAllToDoEndpoint constructs a GetAllToDo endpoint wrapping the
    service. *)
Definition MakeGetAllToDoEndpoint : Endpoint :=
  fun _ =>
    r <- addservice.GetAllToDo s ;;
    Go.ret (Go.Ret
      (OfGetAllToDoResponse {| GetAllToDoResponse.Todos := fst r;
                               GetAllToDoResponse.Err := snd r |}, None)).
End Endpoints.

(** *** The set of endpoints *)

(** Set collects all of the endpoints that compose an add service.  The
    record is generic in the type [E] of endpoints, so that the wiring
    code below can be read both over executable endpoints and over
    terms. *)
Record Set_ (E : Type) : Type := mkSet {
  SumEndpoint : E;
  ConcatEndpoint : E;
  PingEndpoint : E;
  AddToDoEndpoint : E;
  CompleteToDoEndPoint : E;
  UnDoToDoEndpoint : E;
  DeleteToDoEndpoint : E;
  GetAllToDoEndpoint : E
}.

Module Set_methods.
Section Set_methods.
Variable W : Type.
Variable s : Set_ (Endpoint W).

(** The shape shared by the eight methods: call the endpoint; a
    non-nil error is returned with the zero value [zero]; otherwise
    the response goes through the type assertion [assert], which
    panics when the dynamic type is another one. *)
Definition call {A : Type} (e : Endpoint W) (request : any) (zero : A)
  (assert : any -> option (A * Go.error))
  : Go.M W (Go.outcome (A * Go.error)) :=
  o <- e request ;;
  match o with
  | Go.Panic msg => Go.ret (Go.Panic msg)
  | Go.Ret (_, Some err) => Go.ret (Go.Ret (zero, Some err))
  | Go.Ret (resp, None) =>
      match assert resp with
      | Some response => Go.ret (Go.Ret response)
      | None => Go.ret conversion_panic
      end
  end.

(** Sum implements the service interface, so Set may be used as a
    service. *)
Definition Sum (a b : Z) : Go.M W (Go.outcome (Z * Go.error)) :=
  call (SumEndpoint s)
    (OfSumRequest {| SumRequest.A := a; SumRequest.B := b |}) 0
    (fun resp =>
       match resp with
       | OfSumResponse response =>
           Some (SumResponse.V response, SumResponse.Err response)
       | _ => None
       end).

Definition Concat (a b : string)
  : Go.M W (Go.outcome (string * Go.error)) :=
  call (ConcatEndpoint s)
    (OfConcatRequest {| ConcatRequest.A := a; ConcatRequest.B := b |}) ""
    (fun resp =>
       match resp with
       | OfConcatResponse response =>
           Some (ConcatResponse.V response, ConcatResponse.Err response)
       | _ => None
       end).

Definition Ping : Go.M W (Go.outcome (string * Go.error)) :=
  call (PingEndpoint s) (OfPingRequest PingRequest.mk) ""
    (fun resp =>
       match resp with
       | OfPingResponse response =>
           Some (PingResponse.V response, PingResponse.Err response)
       | _ => None
       end).

Definition AddToDo (task : models.ToDoItem)
  : Go.M W (Go.outcome (string * Go.error)) :=
  call (AddToDoEndpoint s) (OfToDoItem task) ""
    (fun resp =>
       match resp with
       | OfAddToDoResponse response =>
           Some (AddToDoResponse.TaskID response,
                 AddToDoResponse.Err response)
       | _ => None
       end).

Definition CompleteToDo (taskID : string)
  : Go.M W (Go.outcome (string * Go.error)) :=
  call (CompleteToDoEndPoint s)
    (OfCompleteToDoRequest {| CompleteToDoRequest.TaskID := taskID |}) ""
    (fun resp =>
       match resp with
       | OfCompleteToDoResponse response =>
           Some (CompleteToDoResponse.TaskID response,
                 CompleteToDoResponse.Err response)
       | _ => None
       end).

Definition UnDoToDo (taskID : string)
  : Go.M W (Go.outcome (string * Go.error)) :=
  call (UnDoToDoEndpoint s)
    (OfUnDoToDoRequest {| UnDoToDoRequest.TaskID := taskID |}) ""
    (fun resp =>
       match resp with
       | OfUnDoToDoResponse response =>
           Some (UnDoToDoResponse.TaskID response,
                 UnDoToDoResponse.Err response)
       | _ => None
       end).

Definition DeleteToDo (taskID : string)
  : Go.M W (Go.outcome (string * Go.error)) :=
  call (DeleteToDoEndpoint s)
    (OfDeleteToDoRequest {| DeleteToDoRequest.TaskID := taskID |}) ""
    (fun resp =>
       match resp with
       | OfDeleteToDoResponse response =>
           Some (DeleteToDoResponse.TaskID response,
                 DeleteToDoResponse.Err response)
       | _ => None
       end).

Definition GetAllToDo
  : Go.M W (Go.outcome (option (list models.ToDoItem) * Go.error)) :=
  call (GetAllToDoEndpoint s) (OfGetAllToDoRequest GetAllToDoRequest.mk)
    None
    (fun resp =>
       match resp with
       | OfGetAllToDoResponse response =>
           Some (GetAllToDoResponse.Todos response,
                 GetAllToDoResponse.Err response)
       | _ => None
       end).
End Set_methods.
End Set_methods.

(** *** Wiring of the server endpoints *)

Section New.
Variable W : Type.
Variable K : kit.Kit (Endpoint W).
(** The endpoint middlewares of this package, [LoggingMiddleware(
    log.With(logger, "method", m))] and [InstrumentingMiddleware(
    duration.With("method", m))], as functions of [m]. *)
Variables LoggingMiddleware InstrumentingMiddleware :
  string -> Middleware W.
Variable svc : addservice.Service W.
(** [zipkinTracer != nil] *)
Variable zipkinTracer : bool.

Definition New : Set_ (Endpoint W) :=
  let sumEndpoint := MakeSumEndpoint svc in
  let sumEndpoint :=
    kit.NewErroringLimiter K (kit.NewLimiter 0 (kit.Every kit.Second) 1) sumEndpoint in
  let sumEndpoint :=
    kit.Gobreaker K (kit.NewCircuitBreaker 0 (kit.mkSettings "" 0)) sumEndpoint in
  let sumEndpoint := kit.TraceServer K "Sum" sumEndpoint in
  let sumEndpoint :=
    if zipkinTracer then kit.TraceEndpoint K "Sum" sumEndpoint
    else sumEndpoint in
  let sumEndpoint := LoggingMiddleware "Sum" sumEndpoint in
  let sumEndpoint := InstrumentingMiddleware "Sum" sumEndpoint in
  let concatEndpoint := MakeConcatEndpoint svc in
  let concatEndpoint :=
    kit.NewErroringLimiter K (kit.NewLimiter 1 (kit.Limit_of 1) 100) concatEndpoint in
  let concatEndpoint :=
    kit.Gobreaker K (kit.NewCircuitBreaker 1 (kit.mkSettings "" 0)) concatEndpoint in
  let concatEndpoint := kit.TraceServer K "Concat" concatEndpoint in
  let concatEndpoint :=
    if zipkinTracer then kit.TraceEndpoint K "Concat" concatEndpoint
    else concatEndpoint in
  let concatEndpoint := LoggingMiddleware "Concat" concatEndpoint in
  let concatEndpoint := InstrumentingMiddleware "Concat" concatEndpoint in
  let pingEndpoint := MakePingEndpoint svc in
  let pingEndpoint :=
    kit.NewErroringLimiter K (kit.NewLimiter 2 (kit.Limit_of 1) 100) pingEndpoint in
  let pingEndpoint :=
    kit.Gobreaker K (kit.NewCircuitBreaker 2 (kit.mkSettings "" 0)) pingEndpoint in
  let pingEndpoint := kit.TraceServer K "Ping" pingEndpoint in
  let concatEndpoint :=
    if zipkinTracer then kit.TraceEndpoint K "Ping" pingEndpoint
    else concatEndpoint in
  let pingEndpoint := LoggingMiddleware "Ping" pingEndpoint in
  let pingEndpoint := InstrumentingMiddleware "Ping" pingEndpoint in
  let addToDoEndpoint := MakeAddToDoEndpoint svc in
  let addToDoEndpoint :=
    kit.NewErroringLimiter K (kit.NewLimiter 3 (kit.Limit_of 1) 100) addToDoEndpoint in
  let addToDoEndpoint :=
    kit.Gobreaker K (kit.NewCircuitBreaker 3 (kit.mkSettings "" 0)) addToDoEndpoint in
  let addToDoEndpoint := kit.TraceServer K "AddToDo" addToDoEndpoint in
  let addToDoEndpoint :=
    if zipkinTracer then kit.TraceEndpoint K "AddToDo" addToDoEndpoint
    else addToDoEndpoint in
  let addToDoEndpoint := LoggingMiddleware "AddToDo" addToDoEndpoint in
  let addToDoEndpoint := InstrumentingMiddleware "AddToDo" addToDoEndpoint in
  let completeToDoEndpoint := MakeCompleteToDoEndpoint svc in
  let completeToDoEndpoint :=
    kit.NewErroringLimiter K (kit.NewLimiter 4 (kit.Limit_of 1) 100) completeToDoEndpoint in
  let completeToDoEndpoint :=
    kit.Gobreaker K (kit.NewCircuitBreaker 4 (kit.mkSettings "" 0)) completeToDoEndpoint in
  let completeToDoEndpoint := kit.TraceServer K "CompleteToDo" completeToDoEndpoint in
  let completeToDoEndpoint :=
    if zipkinTracer then kit.TraceEndpoint K "CompleteToDo" completeToDoEndpoint
    else completeToDoEndpoint in
  let completeToDoEndpoint := LoggingMiddleware "CompleteToDo" completeToDoEndpoint in
  let completeToDoEndpoint := InstrumentingMiddleware "CompleteToDo" completeToDoEndpoint in
  let unDoToDoEndpoint := MakeUnDoToDoEndpoint svc in
  let unDoToDoEndpoint :=
    kit.NewErroringLimiter K (kit.NewLimiter 5 (kit.Limit_of 1) 100) unDoToDoEndpoint in
  let unDoToDoEndpoint :=
    kit.Gobreaker K (kit.NewCircuitBreaker 5 (kit.mkSettings "" 0)) unDoToDoEndpoint in
  let unDoToDoEndpoint := kit.TraceServer K "UndoToDo" unDoToDoEndpoint in
  let unDoToDoEndpoint :=
    if zipkinTracer then kit.TraceEndpoint K "UndoToDo" unDoToDoEndpoint
    else unDoToDoEndpoint in
  let unDoToDoEndpoint := LoggingMiddleware "UnDoToDo" unDoToDoEndpoint in
  let unDoToDoEndpoint := InstrumentingMiddleware "UnDoToDo" unDoToDoEndpoint in
  let deleteToDoEndpoint := MakeDeleteToDoEndpoint svc in
  let deleteToDoEndpoint :=
    kit.NewErroringLimiter K (kit.NewLimiter 6 (kit.Limit_of 1) 100) deleteToDoEndpoint in
  let deleteToDoEndpoint :=
    kit.Gobreaker K (kit.NewCircuitBreaker 6 (kit.mkSettings "" 0)) deleteToDoEndpoint in
  let deleteToDoEndpoint := kit.TraceServer K "DeleteToDo" deleteToDoEndpoint in
  let deleteToDoEndpoint :=
    if zipkinTracer then kit.TraceEndpoint K "DeleteToDo" deleteToDoEndpoint
    else deleteToDoEndpoint in
  let deleteToDoEndpoint := LoggingMiddleware "DeleteToDo" deleteToDoEndpoint in
  let deleteToDoEndpoint := InstrumentingMiddleware "DeleteToDo" deleteToDoEndpoint in
  let getAllToDoEndpoint := MakeGetAllToDoEndpoint svc in
  let getAllToDoEndpoint :=
    kit.NewErroringLimiter K (kit.NewLimiter 7 (kit.Limit_of 1) 100) getAllToDoEndpoint in
  let getAllToDoEndpoint :=
    kit.Gobreaker K (kit.NewCircuitBreaker 7 (kit.mkSettings "" 0)) getAllToDoEndpoint in
  let getAllToDoEndpoint := kit.TraceServer K "GetAllToDo" getAllToDoEndpoint in
  let getAllToDoEndpoint :=
    if zipkinTracer then kit.TraceEndpoint K "GetAllToDo" getAllToDoEndpoint
    else getAllToDoEndpoint in
  let getAllToDoEndpoint := LoggingMiddleware "GetAllToDo" getAllToDoEndpoint in
  let getAllToDoEndpoint := InstrumentingMiddleware "GetAllToDo" getAllToDoEndpoint in
  {| SumEndpoint := sumEndpoint;
     ConcatEndpoint := concatEndpoint;
     PingEndpoint := pingEndpoint;
     AddToDoEndpoint := addToDoEndpoint;
     CompleteToDoEndPoint := completeToDoEndpoint;
     UnDoToDoEndpoint := unDoToDoEndpoint;
     DeleteToDoEndpoint := deleteToDoEndpoint;
     GetAllToDoEndpoint := getAllToDoEndpoint |}.
End New.

End addendpoint.

(** ** The rate limiter in front of an endpoint *)

Module ratelimit.

(** Modelled from the spec: "Rate limiter state: ... holds a token bucket
    (capacity, refill rate) that persists across requests."  The bucket
    holds [credit], counted in parts of a token so that the refill of a
    nanosecond is a whole number of them, and [last], the time in
    nanoseconds of the last call it admitted. *)
Record Bucket : Type := mkBucket {
  credit : Z;
  last : Z
}.

(** Modelled from the spec: the rate of "configuration is (rate, burst)
    pairs", as the pair [(n, d)] of [n] tokens every [d] nanoseconds.
    [rate.Every(interval)] is one token every [interval], "rate is
    defined as a time interval between requests", and [rate.Limit(n)] is
    [n] tokens a second; both are read for a positive argument. *)
Definition refill (l : kit.Limit) : Z * Z :=
  match l with
  | kit.Every interval => (1, interval)
  | kit.Limit_of n => (n, kit.Second)
  end.

(** Modelled from the spec: the parts of a token that make one token of
    the limiter [lim]. *)
Definition token (lim : kit.Limiter) : Z := snd (refill (kit.limit lim)).

(** Modelled from the spec: the "capacity" of the bucket, [burst]
    tokens. *)
Definition capacity (lim : kit.Limiter) : Z := kit.burst lim * token lim.

(** Modelled from the spec: the bucket of a limiter no call has
    reached: it is full. *)
Definition full (lim : kit.Limiter) : Bucket :=
  {| credit := capacity lim; last := 0 |}.

(** Modelled from the spec: the credit of the bucket [b] at the time
    [now], refilled at the rate of the limiter since [last b] and never
    over the capacity. *)
Definition refilled (lim : kit.Limiter) (now : Z) (b : Bucket) : Z :=
  Z.min (capacity lim)
    (credit b + fst (refill (kit.limit lim)) * Z.max 0 (now - last b)).

(** Modelled from the spec: "token-bucket admission control": a call at
    the time [now] is admitted when the refilled bucket holds a token,
    which it takes; "on empty bucket" the call is refused and the bucket
    is left as it was. *)
Definition Allow (lim : kit.Limiter) (now : Z) (b : Bucket) : bool * Bucket :=
  let c := refilled lim now b in
  if token lim <=? c
  then (true, {| credit := c - token lim; last := now |})
  else (false, b).

Section limiter.
(** The world has a clock, read by [time.Now()] in nanoseconds, and the
    bucket of every limiter, by the number of its allocation. *)
Variable W : Type.
Variable time_Now : W -> Z.
Variable bucket : nat -> W -> Bucket.
Variable set_bucket : nat -> Bucket -> W -> W.

(** Modelled from the spec: "On empty bucket, fails immediately with
    RateLimited -- never blocks/waits", and admission-control failures
    "never reach the Operation Core": a refused call returns a nil
    response and [ErrLimited] in the world it was made in, and an
    admitted call is the call of [next] once the token is taken. *)
Definition NewErroringLimiter (lim : kit.Limiter)
  : addendpoint.Middleware W :=
  fun next request w =>
    let (ok, b) := Allow lim (time_Now w) (bucket (kit.limiter_alloc lim) w) in
    if ok then next request (set_bucket (kit.limiter_alloc lim) b w)
    else (Go.Ret (addendpoint.untyped_nil, Some Go.ErrLimited), w).

(** The kit [K] with that limiter for its [NewErroringLimiter]. *)
Definition with_limiter (K : kit.Kit (addendpoint.Endpoint W))
  : kit.Kit (addendpoint.Endpoint W) :=
  {| kit.NewErroringLimiter := NewErroringLimiter;
     kit.Gobreaker := kit.Gobreaker K;
     kit.TraceServer := kit.TraceServer K;
     kit.TraceClient := kit.TraceClient K;
     kit.TraceEndpoint := kit.TraceEndpoint K;
     kit.NewClient := kit.NewClient K |}.

(** Writing the bucket of a limiter and reading it back gives what was
    written. *)
Definition buckets_kept : Prop :=
  forall (a : nat) (b : Bucket) (w : W), bucket a (set_bucket a b w) = b.

(** The endpoint [e] leaves the bucket of the limiter [a] as it finds
    it. *)
Definition leaves_bucket (a : nat) (e : addendpoint.Endpoint W) : Prop :=
  forall request w, bucket a (snd (e request w)) = bucket a w.
End limiter.

End ratelimit.

(** ** package addtransport *)

Module addtransport.

(** *** JSON documents and the response writer *)

(** A JSON document as a tree.  A [JString] holds the Go string that is
    encoded; how [encoding/json] renders it in bytes (the escapes, and
    U+FFFD in place of a byte that is not valid UTF-8) is below this
    model, so two documents that differ here in a string may be written
    as the same bytes. *)
Inductive json : Type :=
| JNull
| JBool (b : bool)
| JNumber (z : Z)
| JString (s : string)
| JArray (l : list json)
| JObject (fields : list (string * json)).

(** [json.Marshal] on a to-do item: [_id] is an array type, which
    [omitempty] never leaves out; [task] is left out when empty. *)
Definition Marshal_ToDoItem (t : models.ToDoItem) : json :=
  JObject ([("_id", JString (models.ID t))]
           ++ (if String.eqb (models.Task t) "" then []
               else [("task", JString (models.Task t))])
           ++ [("status", JBool (models.Status t))]).

(** [json.Marshal] on the values that reach the encoders, following the
    struct tags; the [Err] fields are tagged ["-"].  The result is the
    document as a tree, with the strings as the program holds them, not
    the bytes written for it. *)
Definition Marshal (v : addendpoint.any) : json :=
  match v with
  | addendpoint.untyped_nil => JNull
  | addendpoint.OfSumRequest r =>
      JObject [("A", JNumber (addendpoint.SumRequest.A r));
               ("B", JNumber (addendpoint.SumRequest.B r))]
  | addendpoint.OfSumResponse r =>
      JObject [("v", JNumber (addendpoint.SumResponse.V r))]
  | addendpoint.OfConcatRequest r =>
      JObject [("A", JString (addendpoint.ConcatRequest.A r));
               ("B", JString (addendpoint.ConcatRequest.B r))]
  | addendpoint.OfConcatResponse r =>
      JObject [("v", JString (addendpoint.ConcatResponse.V r))]
  | addendpoint.OfPingRequest _ => JObject []
  | addendpoint.OfPingResponse r =>
      JObject [("v", JString (addendpoint.PingResponse.V r))]
  | addendpoint.OfToDoItem t => Marshal_ToDoItem t
  | addendpoint.OfAddToDoResponse r =>
      JObject [("taskID", JString (addendpoint.AddToDoResponse.TaskID r))]
  | addendpoint.OfCompleteToDoRequest r =>
      JObject [("taskID",
                JString (addendpoint.CompleteToDoRequest.TaskID r))]
  | addendpoint.OfCompleteToDoResponse r =>
      JObject [("taskID",
                JString (addendpoint.CompleteToDoResponse.TaskID r))]
  | addendpoint.OfUnDoToDoRequest r =>
      JObject [("taskID", JString (addendpoint.UnDoToDoRequest.TaskID r))]
  | addendpoint.OfUnDoToDoResponse r =>
      JObject [("taskID", JString (addendpoint.UnDoToDoResponse.TaskID r))]
  | addendpoint.OfDeleteToDoRequest r =>
      JObject [("taskID", JString (addendpoint.DeleteToDoRequest.TaskID r))]
  | addendpoint.OfDeleteToDoResponse r =>
      JObject [("taskID",
                JString (addendpoint.DeleteToDoResponse.TaskID r))]
  | addendpoint.OfGetAllToDoRequest _ => JObject []
  | addendpoint.OfGetAllToDoResponse r =>
      JObject [("todos",
                match addendpoint.GetAllToDoResponse.Todos r with
                | None => JNull
                | Some l => JArray (map Marshal_ToDoItem l)
                end)]
  end.

Record errorWrapper : Type := mkErrorWrapper {
  Error : string
}.

Definition Marshal_errorWrapper (e : errorWrapper) : json :=
  JObject [("error", JString (Error e))].

(** An [http.ResponseWriter]: the status line once it is written, the
    header map, and the JSON documents written to the body so far. *)
Record ResponseWriter : Type := mkResponseWriter {
  status : option Z;
  header : list (string * string);
  body : list json
}.

Definition StatusOK : Z := 200.
Definition StatusBadRequest : Z := 400.
Definition StatusInternalServerError : Z := 500.

(** [w.WriteHeader(code)]: only the first call counts. *)
Definition WriteHeader (code : Z) : Go.M ResponseWriter unit :=
  fun w =>
    match status w with
    | Some _ => (tt, w)
    | None => (tt, {| status := Some code; header := header w;
                      body := body w |})
    end.

(** [w.Header().Set(key, value)] *)
Definition Header_Set (key value : string) : Go.M ResponseWriter unit :=
  fun w =>
    (tt, {| status := status w;
            header := (key, value)
                      :: filter (fun kv => negb (String.eqb (fst kv) key))
                           (header w);
            body := body w |}).

(** [json.NewEncoder(w).Encode(v)] once [v] is marshalled to [doc]: the
    first write sends the status 200 when none was written. *)
Definition Encode (doc : json) : Go.M ResponseWriter Go.error :=
  WriteHeader StatusOK ;;;
  fun w => (None, {| status := status w; header := header w;
                     body := body w ++ [doc] |}).

(** *** Errors and the generic response encoder *)

Definition err2code (err : Go.error) : Z :=
  if Go.error_eqb err (Some Go.ErrTwoZeroes)
     || Go.error_eqb err (Some Go.ErrMaxSizeExceeded)
     || Go.error_eqb err (Some Go.ErrIntOverflow)
  then StatusBadRequest
  else StatusInternalServerError.

(** [errorEncoder] is called with a non-nil error. *)
Definition errorEncoder (err : Go.error_value) : Go.M ResponseWriter unit :=
  WriteHeader (err2code (Some err)) ;;;
  Encode (Marshal_errorWrapper {| Error := Go.Error err |}) ;;;
  Go.ret tt.

(** encodeHTTPGenericResponse is a transport/http.EncodeResponseFunc that
    encodes the response as JSON to the response writer. *)
Definition encodeHTTPGenericResponse (response : addendpoint.any)
  : Go.M ResponseWriter Go.error :=
  match addendpoint.Failer response with
  | Some (Some err) =>
      errorEncoder err ;;;
      Go.ret None
  | _ =>
      Header_Set "Content-Type" "application/json; charset=utf-8" ;;;
      Encode (Marshal response)
  end.

(** *** The client *)

Definition copyURL (base : kit.URL) (path : string) : kit.URL :=
  {| kit.Scheme := kit.Scheme base; kit.Host := kit.Host base;
     kit.Path := path |}.

(** [strings.HasPrefix] *)
Definition HasPrefix (s pre : string) : bool := String.prefix pre s.

Section NewHTTPClient.
Variable E : Type.
Variable K : kit.Kit E.
(** [url.Parse] *)
Variable url_Parse : string -> kit.URL * Go.error.
(** [zipkinTracer != nil] *)
Variable zipkinTracer : bool.

(** NewHTTPClient returns an AddService backed by an HTTP server living
    at the remote instance. *)
Definition NewHTTPClient (instance : string)
  : option (addendpoint.Set_ E) * Go.error :=
  let instance :=
    if negb (HasPrefix instance "http") then ("http://" ++ instance)%string
    else instance in
  let (u, err) := url_Parse instance in
  match err with
  | Some e => (None, Some e)
  | None =>
      let limiter :=
        kit.NewErroringLimiter K
          (kit.NewLimiter 0 (kit.Every kit.Second) 100) in
      let options : list kit.ClientOption := [] in
      let options :=
        if zipkinTracer then options ++ [kit.HTTPClientTrace]
        else options in
      let sumEndpoint :=
        kit.NewClient K "POST" (copyURL u "/sum")
          kit.encodeHTTPGenericRequest kit.decodeHTTPSumResponse
          (options ++ [kit.ClientBefore_ContextToHTTP]) in
      let sumEndpoint := kit.TraceClient K "Sum" sumEndpoint in
      let sumEndpoint :=
        if zipkinTracer then kit.TraceEndpoint K "Sum" sumEndpoint
        else sumEndpoint in
      let sumEndpoint := limiter sumEndpoint in
      let sumEndpoint :=
        kit.Gobreaker K
          (kit.NewCircuitBreaker 0
             (kit.mkSettings "Sum" (30 * kit.Second))) sumEndpoint in
      let concatEndpoint :=
        kit.NewClient K "POST" (copyURL u "/concat")
          kit.encodeHTTPGenericRequest kit.decodeHTTPConcatResponse
          (options ++ [kit.ClientBefore_ContextToHTTP]) in
      let concatEndpoint := kit.TraceClient K "Concat" concatEndpoint in
      let concatEndpoint :=
        if zipkinTracer then kit.TraceEndpoint K "Concat" concatEndpoint
        else concatEndpoint in
      let concatEndpoint := limiter concatEndpoint in
      let concatEndpoint :=
        kit.Gobreaker K
          (kit.NewCircuitBreaker 1
             (kit.mkSettings "Concat" (10 * kit.Second))) concatEndpoint in
      let pingEndpoint :=
        kit.NewClient K "GET" (copyURL u "/ping")
          kit.encodeHTTPGenericRequest kit.decodeHTTPPingResponse
          (options ++ [kit.ClientBefore_ContextToHTTP]) in
      let pingEndpoint := kit.TraceClient K "Ping" pingEndpoint in
      let pingEndpoint :=
        if zipkinTracer then kit.TraceEndpoint K "Ping" pingEndpoint
        else pingEndpoint in
      let pingEndpoint := limiter pingEndpoint in
      let pingEndpoint :=
        kit.Gobreaker K
          (kit.NewCircuitBreaker 2
             (kit.mkSettings "Ping" (10 * kit.Second))) pingEndpoint in
      let addToDoEndpoint :=
        kit.NewClient K "POST" (copyURL u "/addToDo")
          kit.encodeHTTPGenericRequest kit.decodeHTTPAddToDoResponse
          (options ++ [kit.ClientBefore_ContextToHTTP]) in
      let addToDoEndpoint := kit.TraceClient K "AddToDo" pingEndpoint in
      let pingEndpoint :=
        if zipkinTracer then kit.TraceEndpoint K "AddToDo" pingEndpoint
        else pingEndpoint in
      let addToDoEndpoint := limiter addToDoEndpoint in
      let addToDoEndpoint :=
        kit.Gobreaker K
          (kit.NewCircuitBreaker 3
             (kit.mkSettings "AddToDo" (10 * kit.Second))) addToDoEndpoint in
      let completeToDoEndpoint :=
        kit.NewClient K "PUT" (copyURL u "/completeToDo")
          kit.encodeHTTPGenericRequest kit.decodeHTTPCompleteToDoResponse
          (options ++ [kit.ClientBefore_ContextToHTTP]) in
      let completeToDoEndpoint := kit.TraceClient K "CompleteToDo" pingEndpoint in
      let pingEndpoint :=
        if zipkinTracer then kit.TraceEndpoint K "CompleteToDo" pingEndpoint
        else pingEndpoint in
      let completeToDoEndpoint := limiter completeToDoEndpoint in
      let completeToDoEndpoint :=
        kit.Gobreaker K
          (kit.NewCircuitBreaker 4
             (kit.mkSettings "CompleteToDo" (10 * kit.Second))) completeToDoEndpoint in
      let unDoToDoEndpoint :=
        kit.NewClient K "PUT" (copyURL u "/unDoToDo")
          kit.encodeHTTPGenericRequest kit.decodeHTTPUnDoToDoResponse
          (options ++ [kit.ClientBefore_ContextToHTTP]) in
      let unDoToDoEndpoint := kit.TraceClient K "UnDoToDo" pingEndpoint in
      let pingEndpoint :=
        if zipkinTracer then kit.TraceEndpoint K "UnDoToDo" pingEndpoint
        else pingEndpoint in
      let unDoToDoEndpoint := limiter unDoToDoEndpoint in
      let unDoToDoEndpoint :=
        kit.Gobreaker K
          (kit.NewCircuitBreaker 5
             (kit.mkSettings "UnDoToDo" (10 * kit.Second))) unDoToDoEndpoint in
      let deleteToDoEndpoint :=
        kit.NewClient K "DELETE" (copyURL u "/deleteToDo")
          kit.encodeHTTPGenericRequest kit.decodeHTTPDeleteToDoResponse
          (options ++ [kit.ClientBefore_ContextToHTTP]) in
      let deleteToDoEndpoint := kit.TraceClient K "DeleteToDo" pingEndpoint in
      let pingEndpoint :=
        if zipkinTracer then kit.TraceEndpoint K "DeleteToDo" pingEndpoint
        else pingEndpoint in
      let deleteToDoEndpoint := limiter deleteToDoEndpoint in
      let deleteToDoEndpoint :=
        kit.Gobreaker K
          (kit.NewCircuitBreaker 6
             (kit.mkSettings "DeleteToDo" (10 * kit.Second))) deleteToDoEndpoint in
      let getAllToDoEndpoint :=
        kit.NewClient K "GET" (copyURL u "/getAllToDo")
          kit.encodeHTTPGenericRequest kit.decodeHTTPGetAllToDoResponse
          (options ++ [kit.ClientBefore_ContextToHTTP]) in
      let getAllToDoEndpoint := kit.TraceClient K "GetAllToDo" pingEndpoint in
      let pingEndpoint :=
        if zipkinTracer then kit.TraceEndpoint K "GetAllToDo" pingEndpoint
        else pingEndpoint in
      let getAllToDoEndpoint := limiter deleteToDoEndpoint in
      let getAllToDoEndpoint :=
        kit.Gobreaker K
          (kit.NewCircuitBreaker 7
             (kit.mkSettings "GetAllToDo" (10 * kit.Second))) getAllToDoEndpoint in
      (Some {| addendpoint.SumEndpoint := sumEndpoint;
               addendpoint.ConcatEndpoint := concatEndpoint;
               addendpoint.PingEndpoint := pingEndpoint;
               addendpoint.AddToDoEndpoint := addToDoEndpoint;
               addendpoint.CompleteToDoEndPoint := completeToDoEndpoint;
               addendpoint.UnDoToDoEndpoint := unDoToDoEndpoint;
               addendpoint.DeleteToDoEndpoint := deleteToDoEndpoint;
               addendpoint.GetAllToDoEndpoint := getAllToDoEndpoint |},
       None)
  end.
End NewHTTPClient.

(** *** Requests, responses and their decoders *)

(** An [http.Request] and an [http.Response], with the fields the code
    reads or writes; [B] is the type of a body. *)
Module Request.
Record t (B : Type) : Type := mk {
  Method : string;
  URL : kit.URL;
  Body : B
}.
End Request.

Module Response.
Record t (B : Type) : Type := mk {
  StatusCode : Z;
  Status : string;
  Body : B
}.
End Response.

(** The zero [primitive.ObjectID], in hexadecimal. *)
Definition NilObjectID : string := "000000000000000000000000".

(** encodeHTTPGenericRequest is a transport/http.EncodeRequestFunc that
    JSON-encodes any request to the request body. *)
Definition encodeHTTPGenericRequest (request : addendpoint.any)
  : Go.M (Request.t (list json)) Go.error :=
  fun r =>
    (None, {| Request.Method := Request.Method r;
              Request.URL := Request.URL r;
              Request.Body := [Marshal request] |}).

Section decoders.
Variable B : Type.
(** [json.NewDecoder(body).Decode(&v)]: from the variable [v] as it is
    declared (its zero value) and the body, what [v] holds afterwards and
    the error of the decoder. *)
Variable Decode : forall T : Type, T -> B -> T * Go.error.

Definition errorDecoder (r : Response.t B) : Go.M positive Go.error :=
  let (w, err) := Decode {| Error := "" |} (Response.Body r) in
  match err with
  | Some e => Go.ret (Some e)
  | None => e <- Go.errors_New (Error w) ;; Go.ret (Some e)
  end.

Definition decodeHTTPSumRequest (r : Request.t B)
  : addendpoint.any * Go.error :=
  let req := {| addendpoint.SumRequest.A := 0; addendpoint.SumRequest.B := 0 |} in
  let (req, err) := Decode req (Request.Body r) in
  (addendpoint.OfSumRequest req, err).

Definition decodeHTTPConcatRequest (r : Request.t B)
  : addendpoint.any * Go.error :=
  let req := {| addendpoint.ConcatRequest.A := ""; addendpoint.ConcatRequest.B := "" |} in
  let (req, err) := Decode req (Request.Body r) in
  (addendpoint.OfConcatRequest req, err).

Definition decodeHTTPPingRequest (r : Request.t B)
  : addendpoint.any * Go.error :=
  (addendpoint.OfPingRequest addendpoint.PingRequest.mk, None).

Definition decodeHTTPAddToDoRequest (r : Request.t B)
  : addendpoint.any * Go.error :=
  let req := {| models.ID := NilObjectID; models.Task := ""; models.Status := false |} in
  let (req, err) := Decode req (Request.Body r) in
  (addendpoint.OfToDoItem req, err).

Definition decodeHTTPCompleteToDoRequest (r : Request.t B)
  : addendpoint.any * Go.error :=
  let req := {| addendpoint.CompleteToDoRequest.TaskID := "" |} in
  let (req, err) := Decode req (Request.Body r) in
  (addendpoint.OfCompleteToDoRequest req, err).

Definition decodeHTTPUnDoToDoRequest (r : Request.t B)
  : addendpoint.any * Go.error :=
  let req := {| addendpoint.UnDoToDoRequest.TaskID := "" |} in
  let (req, err) := Decode req (Request.Body r) in
  (addendpoint.OfUnDoToDoRequest req, err).

Definition decodeHTTPDeleteToDoRequest (r : Request.t B)
  : addendpoint.any * Go.error :=
  let req := {| addendpoint.DeleteToDoRequest.TaskID := "" |} in
  let (req, err) := Decode req (Request.Body r) in
  (addendpoint.OfDeleteToDoRequest req, err).

Definition decodeHTTPGetAllToDoRequest (r : Request.t B)
  : addendpoint.any * Go.error :=
  (addendpoint.OfGetAllToDoRequest addendpoint.GetAllToDoRequest.mk, None).

Definition decodeHTTPSumResponse (r : Response.t B)
  : Go.M positive (addendpoint.any * Go.error) :=
  if negb (Response.StatusCode r =? StatusOK)
  then e <- Go.errors_New (Response.Status r) ;;
       Go.ret (addendpoint.untyped_nil, Some e)
  else
    let resp := {| addendpoint.SumResponse.V := 0; addendpoint.SumResponse.Err := None |} in
    let (resp, err) := Decode resp (Response.Body r) in
    Go.ret (addendpoint.OfSumResponse resp, err).

Definition decodeHTTPConcatResponse (r : Response.t B)
  : Go.M positive (addendpoint.any * Go.error) :=
  if negb (Response.StatusCode r =? StatusOK)
  then e <- Go.errors_New (Response.Status r) ;;
       Go.ret (addendpoint.untyped_nil, Some e)
  else
    let resp := {| addendpoint.ConcatResponse.V := ""; addendpoint.ConcatResponse.Err := None |} in
    let (resp, err) := Decode resp (Response.Body r) in
    Go.ret (addendpoint.OfConcatResponse resp, err).

Definition decodeHTTPPingResponse (r : Response.t B)
  : Go.M positive (addendpoint.any * Go.error) :=
  if negb (Response.StatusCode r =? StatusOK)
  then e <- Go.errors_New (Response.Status r) ;;
       Go.ret (addendpoint.untyped_nil, Some e)
  else
    let resp := {| addendpoint.PingResponse.V := ""; addendpoint.PingResponse.Err := None |} in
    let (resp, err) := Decode resp (Response.Body r) in
    Go.ret (addendpoint.OfPingResponse resp, err).

Definition decodeHTTPAddToDoResponse (r : Response.t B)
  : Go.M positive (addendpoint.any * Go.error) :=
  if negb (Response.StatusCode r =? StatusOK)
  then e <- Go.errors_New (Response.Status r) ;;
       Go.ret (addendpoint.untyped_nil, Some e)
  else
    let resp := {| addendpoint.AddToDoResponse.TaskID := ""; addendpoint.AddToDoResponse.Err := None |} in
    let (resp, err) := Decode resp (Response.Body r) in
    Go.ret (addendpoint.OfAddToDoResponse resp, err).

Definition decodeHTTPCompleteToDoResponse (r : Response.t B)
  : Go.M positive (addendpoint.any * Go.error) :=
  if negb (Response.StatusCode r =? StatusOK)
  then e <- Go.errors_New (Response.Status r) ;;
       Go.ret (addendpoint.untyped_nil, Some e)
  else
    let resp := {| addendpoint.CompleteToDoResponse.TaskID := ""; addendpoint.CompleteToDoResponse.Err := None |} in
    let (resp, err) := Decode resp (Response.Body r) in
    Go.ret (addendpoint.OfCompleteToDoResponse resp, err).

Definition decodeHTTPUnDoToDoResponse (r : Response.t B)
  : Go.M positive (addendpoint.any * Go.error) :=
  if negb (Response.StatusCode r =? StatusOK)
  then e <- Go.errors_New (Response.Status r) ;;
       Go.ret (addendpoint.untyped_nil, Some e)
  else
    let resp := {| addendpoint.UnDoToDoResponse.TaskID := ""; addendpoint.UnDoToDoResponse.Err := None |} in
    let (resp, err) := Decode resp (Response.Body r) in
    Go.ret (addendpoint.OfUnDoToDoResponse resp, err).

Definition decodeHTTPDeleteToDoResponse (r : Response.t B)
  : Go.M positive (addendpoint.any * Go.error) :=
  if negb (Response.StatusCode r =? StatusOK)
  then e <- Go.errors_New (Response.Status r) ;;
       Go.ret (addendpoint.untyped_nil, Some e)
  else
    let resp := {| addendpoint.DeleteToDoResponse.TaskID := ""; addendpoint.DeleteToDoResponse.Err := None |} in
    let (resp, err) := Decode resp (Response.Body r) in
    Go.ret (addendpoint.OfDeleteToDoResponse resp, err).

Definition decodeHTTPGetAllToDoResponse (r : Response.t B)
  : Go.M positive (addendpoint.any * Go.error) :=
  if negb (Response.StatusCode r =? StatusOK)
  then e <- Go.errors_New (Response.Status r) ;;
       Go.ret (addendpoint.untyped_nil, Some e)
  else
    let resp := {| addendpoint.GetAllToDoResponse.Todos := None; addendpoint.GetAllToDoResponse.Err := None |} in
    let (resp, err) := Decode resp (Response.Body r) in
    Go.ret (addendpoint.OfGetAllToDoResponse resp, err).

End decoders.

(** *** The server *)

Inductive ServerOption : Type :=
| ServerErrorEncoder (f : Go.error_value -> Go.M ResponseWriter unit)
| ServerErrorHandler_LogErrorHandler
| HTTPServerTrace
| ServerBefore_HTTPToContext (operationName : string).

(** [httptransport.NewServer(e, dec, enc, options...)] keeps what it is
    given. *)
Record Server (W B : Type) : Type := NewServer {
  e : addendpoint.Endpoint W;
  dec : Request.t B -> addendpoint.any * Go.error;
  enc : addendpoint.any -> Go.M ResponseWriter Go.error;
  options : list ServerOption
}.

(** [m.Handle(pattern, handler)] on an [http.ServeMux], kept as the list
    of its registrations, latest first: registering a pattern twice
    panics. *)
Definition Handle {H : Type} (m : Go.outcome (list (string * H)))
  (pattern : string) (handler : H) : Go.outcome (list (string * H)) :=
  match m with
  | Go.Panic msg => Go.Panic msg
  | Go.Ret l =>
      if existsb (fun ph => String.eqb (fst ph) pattern) l
      then Go.Panic ("http: multiple registrations for " ++ pattern)%string
      else Go.Ret ((pattern, handler) :: l)
  end.

Section NewHTTPHandler.
Variables W B : Type.
Variable Decode : forall T : Type, T -> B -> T * Go.error.
Variable endpoints : addendpoint.Set_ (addendpoint.Endpoint W).
(** [zipkinTracer != nil] *)
Variable zipkinTracer : bool.

(** NewHTTPHandler returns an HTTP handler that makes a set of endpoints
    available on predefined paths. *)
Definition NewHTTPHandler : Go.outcome (list (string * Server W B)) :=
  let options :=
    [ServerErrorEncoder errorEncoder; ServerErrorHandler_LogErrorHandler] in
  let options :=
    if zipkinTracer then options ++ [HTTPServerTrace] else options in
  let decodeHTTPSumRequest := decodeHTTPSumRequest Decode in
  let decodeHTTPConcatRequest := decodeHTTPConcatRequest Decode in
  let decodeHTTPPingRequest := @decodeHTTPPingRequest B in
  let decodeHTTPAddToDoRequest := decodeHTTPAddToDoRequest Decode in
  let decodeHTTPCompleteToDoRequest := decodeHTTPCompleteToDoRequest Decode in
  let decodeHTTPUnDoToDoRequest := decodeHTTPUnDoToDoRequest Decode in
  let decodeHTTPDeleteToDoRequest := decodeHTTPDeleteToDoRequest Decode in
  let decodeHTTPGetAllToDoRequest := @decodeHTTPGetAllToDoRequest B in
  let m : Go.outcome (list (string * Server W B)) := Go.Ret [] in
  let m :=
    Handle m "/sum"
      (NewServer (addendpoint.SumEndpoint endpoints) decodeHTTPSumRequest
         encodeHTTPGenericResponse
         (options ++ [ServerBefore_HTTPToContext "Sum"])) in
  let m :=
    Handle m "/concat"
      (NewServer (addendpoint.ConcatEndpoint endpoints) decodeHTTPConcatRequest
         encodeHTTPGenericResponse
         (options ++ [ServerBefore_HTTPToContext "Concat"])) in
  let m :=
    Handle m "/ping"
      (NewServer (addendpoint.PingEndpoint endpoints) decodeHTTPPingRequest
         encodeHTTPGenericResponse
         (options ++ [ServerBefore_HTTPToContext "Ping"])) in
  let m :=
    Handle m "/addToDo"
      (NewServer (addendpoint.AddToDoEndpoint endpoints) decodeHTTPAddToDoRequest
         encodeHTTPGenericResponse
         (options ++ [ServerBefore_HTTPToContext "AddToDo"])) in
  let m :=
    Handle m "/completeToDo"
      (NewServer (addendpoint.CompleteToDoEndPoint endpoints) decodeHTTPCompleteToDoRequest
         encodeHTTPGenericResponse
         (options ++ [ServerBefore_HTTPToContext "CompleteToDo"])) in
  let m :=
    Handle m "/unDoToDo"
      (NewServer (addendpoint.UnDoToDoEndpoint endpoints) decodeHTTPUnDoToDoRequest
         encodeHTTPGenericResponse
         (options ++ [ServerBefore_HTTPToContext "UnDoToDo"])) in
  let m :=
    Handle m "/deleteToDo"
      (NewServer (addendpoint.DeleteToDoEndpoint endpoints) decodeHTTPDeleteToDoRequest
         encodeHTTPGenericResponse
         (options ++ [ServerBefore_HTTPToContext "DeleteToDo"])) in
  let m :=
    Handle m "/getAllToDo"
      (NewServer (addendpoint.GetAllToDoEndpoint endpoints) decodeHTTPGetAllToDoRequest
         encodeHTTPGenericResponse
         (options ++ [ServerBefore_HTTPToContext "GetAllToDo"])) in
  m.
End NewHTTPHandler.

End addtransport.

(** ** A world to run the code in

    A store kept in memory, a logger and metrics that record what they are
    given, and a clock that the store's calls advance. *)

Module sample.

Record World : Type := mkWorld {
  reachable : bool;
  items : list models.ToDoItem;
  logged : list (list addservice.logval);
  counted : list Z;
  observed : list (list string * Z);
  clock : Z
}.

Definition tick (w : World) : World :=
  {| reachable := reachable w; items := items w; logged := logged w;
     counted := counted w; observed := observed w; clock := clock w + 1 |}.

Definition unreachable : Go.error_value :=
  Go.ErrorString 1 "server selection error".

Definition memStore : store.Store World :=
  {| store.Ping := fun w =>
       (if reachable w then None else Some unreachable, tick w);
     store.InsertToDo := fun t w =>
       if reachable w
       then (("5e0f1c2b9d3e4a5b6c7d8e9f", None),
             {| reachable := true; items := items w ++ [t];
                logged := logged w; counted := counted w;
                observed := observed w; clock := clock w + 1 |})
       else (("", Some unreachable), tick w);
     store.CompleteToDo := fun id w =>
       (if reachable w then (id, None) else ("", Some unreachable), tick w);
     store.UnDoToDo := fun id w =>
       (if reachable w then (id, None) else ("", Some unreachable), tick w);
     store.DeleteToDo := fun id w =>
       (if reachable w then (id, None) else ("", Some unreachable), tick w);
     store.GetAllToDo := fun w =>
       (if reachable w then (Some (items w), None)
        else (None, Some unreachable), tick w) |}.

Definition logger : addservice.Logger World :=
  {| addservice.Log := fun keyvals w =>
       (None, {| reachable := reachable w; items := items w;
                 logged := logged w ++ [keyvals]; counted := counted w;
                 observed := observed w; clock := clock w |}) |}.

Definition counter : addservice.Counter World :=
  {| addservice.Add := fun delta w =>
       (tt, {| reachable := reachable w; items := items w;
               logged := logged w; counted := counted w ++ [delta];
               observed := observed w; clock := clock w |}) |}.

Definition histogram : addservice.Histogram World :=
  {| addservice.lvs := [];
     addservice.observe := fun lvs d w =>
       (tt, {| reachable := reachable w; items := items w;
               logged := logged w; counted := counted w;
               observed := observed w ++ [(lvs, d)]; clock := clock w |}) |}.

Definition up : World :=
  {| reachable := true; items := []; logged := []; counted := [];
     observed := []; clock := 0 |}.

Definition down : World :=
  {| reachable := false; items := []; logged := []; counted := [];
     observed := []; clock := 0 |}.

(** A [url.Parse] for instances of the form [scheme://host]. *)
Definition url_Parse (instance : string) : kit.URL * Go.error :=
  ({| kit.Scheme := "http"; kit.Host := instance; kit.Path := "" |}, None).

Definition response_writer : addtransport.ResponseWriter :=
  {| addtransport.status := None; addtransport.header := [];
     addtransport.body := [] |}.

(** An endpoint that a limiter in front of it would answer for: no
    response, and the limiter's error. *)
Definition refused : addendpoint.Endpoint World :=
  fun _ => Go.ret (Go.Ret (addendpoint.untyped_nil, Some Go.ErrLimited)).

(** A kit whose middlewares hand the request on and the answer back. *)
Definition plain : kit.Kit (addendpoint.Endpoint World) :=
  {| kit.NewErroringLimiter := fun _ e => e;
     kit.Gobreaker := fun _ e => e;
     kit.TraceServer := fun _ e => e;
     kit.TraceClient := fun _ e => e;
     kit.TraceEndpoint := fun _ e => e;
     kit.NewClient := fun _ _ _ _ _ => refused |}.

(** A decoder for bodies that set no field of the variable they are
    decoded into. *)
Definition Decode (T : Type) (v : T) (body : unit) : T * Go.error :=
  (v, None).

(** A driver over a collection that matches no document: every call is
    counted in the world, the results count nothing, the inserted
    identifier is no [ObjectID], and the cursor has no documents. *)
Definition collection : store.Collection nat :=
  {| store.InsertOne := fun _ n =>
       ((store.mkInsertOneResult None, None), S n);
     store.UpdateOne := fun _ _ n =>
       ((store.mkUpdateResult 0 0, None), S n);
     store.DeleteOne := fun _ n => ((store.mkDeleteResult 0, None), S n);
     store.Find := fun n =>
       ((store.mkCursor [] None (fun n => (None, S n)), None), S n) |}.

Definition mongo : store.mongoStore nat :=
  {| store.client :=
       {| store.client_Ping := fun n => (None, S n);
          store.Database_Collection := fun _ _ => collection |};
     store.collection := collection |}.

Definition invalid_hex : Go.error_value :=
  Go.ErrorString 2 "the provided hex string is not a valid ObjectID".

(** Accepts the strings of 24 characters. *)
Definition ObjectIDFromHex (s : string) : string * Go.error :=
  if Nat.eqb (String.length s) 24 then (s, None)
  else ("000000000000000000000000", Some invalid_hex).

Definition errors_New (text : string) : Go.M nat Go.error_value :=
  fun n => (Go.ErrorString 9 text, n).

(** A server that cannot be reached: connecting gives a client, whose
    [Ping] fails. *)
Definition mongo_Connect (uri : string)
  : Go.M nat (store.Client nat * Go.error) :=
  fun n =>
    (({| store.client_Ping := fun n => (Some unreachable, S n);
         store.Database_Collection := fun _ _ => collection |}, None), S n).

(** A world with a clock and the buckets of the limiters, and nothing
    else. *)
Record Timed : Type := mkTimed {
  at_time : Z;
  buckets : nat -> ratelimit.Bucket
}.

Definition timed_bucket (a : nat) (w : Timed) : ratelimit.Bucket :=
  buckets w a.

Definition timed_set_bucket (a : nat) (b : ratelimit.Bucket) (w : Timed)
  : Timed :=
  {| at_time := at_time w;
     buckets := fun a' => if Nat.eqb a a' then b else buckets w a' |}.

(** The world [w], [d] nanoseconds later. *)
Definition later (d : Z) (w : Timed) : Timed :=
  {| at_time := at_time w + d; buckets := buckets w |}.

(** The world in which the server's set is built: every bucket full. *)
Definition started : Timed :=
  {| at_time := 1700000000000000000;
     buckets := fun a =>
       ratelimit.full
         (kit.NewLimiter a
            (match a with
             | O => kit.Every kit.Second
             | _ => kit.Limit_of 1
             end)
            (match a with O => 1 | _ => 100 end)) |}.

(** A store that is always there and holds nothing. *)
Definition idle : store.Store Timed :=
  {| store.Ping := Go.ret None;
     store.InsertToDo := fun _ => Go.ret ("5e0f1c2b9d3e4a5b6c7d8e9f", None);
     store.CompleteToDo := fun id => Go.ret (id, None);
     store.UnDoToDo := fun id => Go.ret (id, None);
     store.DeleteToDo := fun id => Go.ret (id, None);
     store.GetAllToDo := Go.ret (Some [], None) |}.

(** A kit over that world whose other middlewares hand the request on
    and the answer back. *)
Definition timed_plain : kit.Kit (addendpoint.Endpoint Timed) :=
  {| kit.NewErroringLimiter := fun _ e => e;
     kit.Gobreaker := fun _ e => e;
     kit.TraceServer := fun _ e => e;
     kit.TraceClient := fun _ e => e;
     kit.TraceEndpoint := fun _ e => e;
     kit.NewClient := fun _ _ _ _ _ =>
       fun _ => Go.ret (Go.Ret (addendpoint.untyped_nil, Some Go.ErrLimited)) |}.

End sample.

(** ** Notions the properties are stated with *)

Module notions.

(** The three errors of [addservice] that the switch of [err2code]
    lists. *)
Definition business_error (err : Go.error) : Prop :=
  err = Some Go.ErrTwoZeroes \/ err = Some Go.ErrMaxSizeExceeded
  \/ err = Some Go.ErrIntOverflow.

Section notions.
Variable W : Type.

(** The endpoint [e], given [request], runs the operation [core] once
    and returns exactly one response, which is not nil, with a nil
    error; the response is a [Failer] whose [Failed()] is the error of
    [core]. *)
Definition embeds_error {R : Type} (e : addendpoint.Endpoint W)
  (request : addendpoint.any) (core : Go.M W (R * Go.error)) : Prop :=
  forall w : W,
  exists response : addendpoint.any,
    e request w = (Go.Ret (response, None), snd (core w))
    /\ response <> addendpoint.untyped_nil
    /\ addendpoint.Failer response = Some (snd (fst (core w))).

(** [decorated] returns what [inner] returns, and leaves the world
    [inner] left, changed by one step of [effect]. *)
Definition adds_one {R : Type} (effect : W -> W -> Prop)
  (decorated inner : Go.M W R) : Prop :=
  forall w : W,
    fst (decorated w) = fst (inner w)
    /\ effect (snd (inner w)) (snd (decorated w)).

(** Every method of [decorated] relates in that way to the same method
    of [inner]. *)
Definition transparent (effect : W -> W -> Prop)
  (decorated inner : addservice.Service W) : Prop :=
  (forall a b, adds_one effect (addservice.Sum decorated a b)
                 (addservice.Sum inner a b))
  /\ (forall a b, adds_one effect (addservice.Concat decorated a b)
                    (addservice.Concat inner a b))
  /\ adds_one effect (addservice.Ping decorated) (addservice.Ping inner)
  /\ (forall task, adds_one effect (addservice.AddToDo decorated task)
                     (addservice.AddToDo inner task))
  /\ (forall id, adds_one effect (addservice.CompleteToDo decorated id)
                   (addservice.CompleteToDo inner id))
  /\ (forall id, adds_one effect (addservice.UnDoToDo decorated id)
                   (addservice.UnDoToDo inner id))
  /\ (forall id, adds_one effect (addservice.DeleteToDo decorated id)
                   (addservice.DeleteToDo inner id))
  /\ adds_one effect (addservice.GetAllToDo decorated)
       (addservice.GetAllToDo inner).

(** One call of [logger.Log]. *)
Definition one_log (logger : addservice.Logger W) (w1 w2 : W) : Prop :=
  exists keyvals, w2 = snd (addservice.Log logger keyvals w1).

(** One call of [Add] on one of the counters, or one call of [Observe]
    on one of the histograms under some label values. *)
Definition one_metric (ints chars : addservice.Counter W)
  (cubToDo getToDo : addservice.Histogram W) (w1 w2 : W) : Prop :=
  (exists delta, w2 = snd (addservice.Add ints delta w1))
  \/ (exists delta, w2 = snd (addservice.Add chars delta w1))
  \/ (exists lvs d,
        w2 = snd (addservice.Observe (addservice.With cubToDo lvs) d w1))
  \/ (exists lvs d,
        w2 = snd (addservice.Observe (addservice.With getToDo lvs) d w1)).
End notions.

(** *** Notions of the further properties *)

Section further.
Variable W : Type.

(** The service method [svc] hands the call to the store method [port]:
    it leaves the world the port left and returns the port's error; the
    value is the port's when the error is nil and [zero] otherwise. *)
Definition passes_through {R : Type} (zero : R)
  (svc port : Go.M W (R * Go.error)) : Prop :=
  forall w : W,
    snd (svc w) = snd (port w)
    /\ snd (fst (svc w)) = snd (fst (port w))
    /\ (snd (fst (port w)) = None -> fst (fst (svc w)) = fst (fst (port w)))
    /\ (snd (fst (port w)) <> None -> fst (fst (svc w)) = zero).

(** One step of [first], then one step of [second]. *)
Definition and_then (first second : W -> W -> Prop) (w1 w3 : W) : Prop :=
  exists w2 : W, first w1 w2 /\ second w2 w3.
(** [decorated] returns what [inner] returns and then observes, on the
    histogram [h] under the label values of [method] and of the outcome,
    the time the clock moved by during [inner]. *)
Definition timed {R : Type} (time_Now : W -> Z) (h : addservice.Histogram W)
  (method : string) (decorated inner : Go.M W (R * Go.error)) : Prop :=
  forall w : W,
    decorated w
    = (fst (inner w),
       snd (addservice.Observe
              (addservice.With h
                 ["method"; method; "error";
                  match snd (fst (inner w)) with
                  | Some _ => "true"
                  | None => "false"
                  end])
              (time_Now (snd (inner w)) - time_Now w)
              (snd (inner w)))).
(** When the endpoint [e], given [request], returns a non-nil error, the
    method returns that error with the value [zero], in the world the
    endpoint left; whatever response came with the error is dropped. *)
Definition surfaces_error {A : Type} (e : addendpoint.Endpoint W)
  (request : addendpoint.any)
  (method : Go.M W (Go.outcome (A * Go.error))) (zero : A) : Prop :=
  forall (w w' : W) (response : addendpoint.any) (err : Go.error_value),
    e request w = (Go.Ret (response, Some err), w') ->
    method w = (Go.Ret (zero, Some err), w').
(** The layers [New] puts around the endpoint [inner] of an operation
    when there is no zipkin tracer, from the inside out: the [alloc]-th
    limiter, of rate [limit] and burst [burst]; the [alloc]-th circuit
    breaker, with default settings; the opentracing layer named [traced];
    the logging and instrumenting layers named [method]. *)
Definition server_chain (K : kit.Kit (addendpoint.Endpoint W))
  (LoggingMiddleware InstrumentingMiddleware :
     string -> addendpoint.Middleware W)
  (alloc : nat) (limit : kit.Limit) (burst : Z) (traced method : string)
  (inner : addendpoint.Endpoint W) : addendpoint.Endpoint W :=
  InstrumentingMiddleware method
    (LoggingMiddleware method
       (kit.TraceServer K traced
          (kit.Gobreaker K (kit.NewCircuitBreaker alloc (kit.mkSettings "" 0))
             (kit.NewErroringLimiter K (kit.NewLimiter alloc limit burst)
                inner)))).
(** A response writer nothing was written to yet, with the header [hd]
    and the body [bd] it starts from. *)
Definition fresh (hd : list (string * string)) (bd : list addtransport.json)
  : addtransport.ResponseWriter :=
  {| addtransport.status := None; addtransport.header := hd;
     addtransport.body := bd |}.

(** The error envelope of [err]. *)
Definition envelope (err : Go.error_value) : addtransport.json :=
  addtransport.JObject [("error", addtransport.JString (Go.Error err))].

(** What the writer holds after an error was answered with [code]. *)
Definition failed (code : Z) (err : Go.error_value)
  (hd : list (string * string)) (bd : list addtransport.json)
  : addtransport.ResponseWriter :=
  {| addtransport.status := Some code; addtransport.header := hd;
     addtransport.body := bd ++ [envelope err] |}.

(** What the writer holds after the document [doc] was answered with
    status 200. *)
Definition succeeded (doc : addtransport.json)
  (hd : list (string * string)) (bd : list addtransport.json)
  : addtransport.ResponseWriter :=
  {| addtransport.status := Some addtransport.StatusOK;
     addtransport.header :=
       ("Content-Type", "application/json; charset=utf-8")
       :: filter (fun kv => negb (String.eqb (fst kv) "Content-Type")) hd;
     addtransport.body := bd ++ [doc] |}.

(** The endpoint [e], given [request], runs [core] and returns a response
    that the generic encoder writes to a fresh writer as follows: the
    error of [core], when there is one, as an envelope under the status of
    [err2code]; otherwise the document [value] makes of the value of
    [core], under status 200. *)
Definition served {R : Type} (e : addendpoint.Endpoint W)
  (request : addendpoint.any) (core : Go.M W (R * Go.error))
  (value : R -> addtransport.json) : Prop :=
  forall (w : W) (hd : list (string * string)) (bd : list addtransport.json),
  exists response : addendpoint.any,
    e request w = (Go.Ret (response, None), snd (core w))
    /\ addtransport.encodeHTTPGenericResponse response (fresh hd bd)
       = (None,
          match snd (fst (core w)) with
          | Some err =>
              failed (addtransport.err2code (Some err)) err hd bd
          | None => succeeded (value (fst (fst (core w)))) hd bd
          end).

(** When the store method [port] fails with an error that is not one of
    the three business errors, the endpoint [e], given [request], returns
    a response that the generic encoder answers with status 500 and the
    envelope of that error. *)
Definition store_failure_is_500 {R : Type} (e : addendpoint.Endpoint W)
  (request : addendpoint.any) (port : Go.M W (R * Go.error)) : Prop :=
  forall (w : W) (hd : list (string * string)) (bd : list addtransport.json)
         (err : Go.error_value),
    snd (fst (port w)) = Some err ->
    ~ business_error (Some err) ->
    exists response : addendpoint.any,
      e request w = (Go.Ret (response, None), snd (port w))
      /\ addtransport.encodeHTTPGenericResponse response (fresh hd bd)
         = (None, failed addtransport.StatusInternalServerError err hd bd).
End further.

Section over_http.
Variable B : Type.

(** The endpoint of an HTTP client whose call was answered with the
    response [r]: the decoder's error, if any, is the endpoint's error,
    with no response. *)
Definition client_endpoint
  (decode : addtransport.Response.t B ->
            Go.M positive (addendpoint.any * Go.error))
  (r : addtransport.Response.t B) : addendpoint.Endpoint positive :=
  fun _ =>
    x <- decode r ;;
    match snd x with
    | Some err => Go.ret (Go.Ret (addendpoint.untyped_nil, Some err))
    | None => Go.ret (Go.Ret (fst x, None))
    end.

(** What a route of the server needs: the generic encoder, the error
    encoder among its options, and an endpoint that takes every request
    its decoder returns, be the body what it may, and answers with a
    response and a nil error. *)
Definition route_sound {W : Type} (srv : addtransport.Server W B) : Prop :=
  addtransport.enc srv = addtransport.encodeHTTPGenericResponse
  /\ In (addtransport.ServerErrorEncoder addtransport.errorEncoder)
       (addtransport.options srv)
  /\ forall (r : addtransport.Request.t B) (w : W),
       exists (response : addendpoint.any) (w' : W),
         addtransport.e srv (fst (addtransport.dec srv r)) w
         = (Go.Ret (response, None), w').
End over_http.


End notions.

(** * Properties *)

(** ** Integers of the platform *)

Lemma pow2_double (bits : Z) : 0 < bits -> 2 ^ bits = 2 * 2 ^ (bits - 1).
Proof.
  intros H. replace bits with (Z.succ (bits - 1)) at 1 by lia.
  rewrite Z.pow_succ_r by lia. reflexivity.
Qed.

(** An integer inside the range of [int] is left alone by the wrap. *)
Lemma wrap_is_int (bits x : Z) :
  0 < bits -> Go.is_int bits x -> Go.wrap bits x = x.
Proof.
  intros Hb [Hlo Hhi]. unfold Go.wrap, Go.minInt, Go.maxInt in *.
  pose proof (pow2_double Hb) as Hd.
  assert (0 < 2 ^ (bits - 1)) by (apply Z.pow_pos_nonneg; lia).
  rewrite Z.mod_small by lia. lia.
Qed.

Lemma intMax_value : addservice.intMax = 2147483647.
Proof. reflexivity. Qed.

Lemma intMin_value : addservice.intMin = -2147483648.
Proof. reflexivity. Qed.

Lemma int_size_pos (bits : Z) : Go.int_size bits -> 0 < bits.
Proof. intros [-> | ->]; lia. Qed.

(** Unfolds the range of [int] on both platforms and leaves linear
    arithmetic over literals. *)
Ltac int_ranges :=
  unfold Go.is_int, Go.minInt, Go.maxInt in *;
  rewrite ?intMax_value, ?intMin_value in *.

Lemma is_int_32_any (bits x : Z) :
  Go.int_size bits -> addservice.intMin <= x <= addservice.intMax ->
  Go.is_int bits x.
Proof. intros [-> | ->] H; int_ranges; lia. Qed.

(** ** The operation core: Sum *)

(** The two subtractions of the overflow test stay inside [int] on the
    branch that evaluates them. *)
Lemma Sum_guard_pos (bits b : Z) :
  Go.int_size bits -> Go.is_int bits b -> 0 < b ->
  Go.wrap bits (addservice.intMax - b) = addservice.intMax - b.
Proof.
  intros Hs Hb Hpos. apply wrap_is_int; [now apply int_size_pos|].
  destruct Hs as [-> | ->]; int_ranges; lia.
Qed.

Lemma Sum_guard_neg (bits b : Z) :
  Go.int_size bits -> Go.is_int bits b -> b < 0 ->
  Go.wrap bits (addservice.intMin - b) = addservice.intMin - b.
Proof.
  intros Hs Hb Hneg. apply wrap_is_int; [now apply int_size_pos|].
  destruct Hs as [-> | ->]; int_ranges; lia.
Qed.

(** What [Sum] computes, on either platform, for any two [int]s: the
    overflow test fires exactly when [b > 0] and [a + b] is above [intMax],
    or [b < 0] and [a + b] is below [intMin]. *)
Lemma Sum_unfolded (bits a b : Z) :
  Go.int_size bits -> Go.is_int bits a -> Go.is_int bits b ->
  addservice.basicService.Sum bits a b =
    if (a =? 0) && (b =? 0) then (0, Some Go.ErrTwoZeroes)
    else if ((b >? 0) && (a + b >? addservice.intMax))
            || ((b <? 0) && (a + b <? addservice.intMin))
         then (0, Some Go.ErrIntOverflow)
         else (a + b, None).
Proof.
  intros Hs Ha Hb. unfold addservice.basicService.Sum.
  destruct ((a =? 0) && (b =? 0)); [reflexivity|].
  assert (Hg1 : (b >? 0) && (a >? Go.wrap bits (addservice.intMax - b))
                = (b >? 0) && (a + b >? addservice.intMax)).
  { destruct (Z.gtb_spec b 0); [|reflexivity]. cbn [andb].
    rewrite Sum_guard_pos by (auto; lia).
    destruct (Z.gtb_spec a (addservice.intMax - b));
      destruct (Z.gtb_spec (a + b) addservice.intMax); auto; lia. }
  assert (Hg2 : (b <? 0) && (a <? Go.wrap bits (addservice.intMin - b))
                = (b <? 0) && (a + b <? addservice.intMin)).
  { destruct (Z.ltb_spec b 0); [|reflexivity]. cbn [andb].
    rewrite Sum_guard_neg by (auto; lia).
    destruct (Z.ltb_spec a (addservice.intMin - b));
      destruct (Z.ltb_spec (a + b) addservice.intMin); auto; lia. }
  rewrite Hg1, Hg2.
  destruct (((b >? 0) && (a + b >? addservice.intMax))
            || ((b <? 0) && (a + b <? addservice.intMin))) eqn:E;
    [reflexivity|].
  f_equal. apply wrap_is_int; [now apply int_size_pos|].
  apply orb_false_iff in E. destruct E as [E1 E2].
  destruct (Z.gtb_spec b 0); destruct (Z.ltb_spec b 0);
    destruct (Z.gtb_spec (a + b) addservice.intMax);
    destruct (Z.ltb_spec (a + b) addservice.intMin);
    cbn [andb] in *; try discriminate;
    destruct Hs as [-> | ->]; int_ranges; lia.
Qed.

(** When both operands are themselves inside the signed 32-bit range (on a
    32-bit platform: always), [Sum] decides between its three results as
    the rule reads. *)
Lemma Sum_of_32_bit_operands (bits a b : Z) :
  Go.int_size bits ->
  addservice.intMin <= a <= addservice.intMax ->
  addservice.intMin <= b <= addservice.intMax ->
  addservice.basicService.Sum bits a b =
    if (a =? 0) && (b =? 0) then (0, Some Go.ErrTwoZeroes)
    else if (a + b <? addservice.intMin) || (a + b >? addservice.intMax)
         then (0, Some Go.ErrIntOverflow)
         else (a + b, None).
Proof.
  intros Hs Ha Hb.
  rewrite Sum_unfolded by (auto using is_int_32_any).
  destruct ((a =? 0) && (b =? 0)); [reflexivity|].
  destruct (Z.gtb_spec b 0); destruct (Z.ltb_spec b 0);
    destruct (Z.gtb_spec (a + b) addservice.intMax);
    destruct (Z.ltb_spec (a + b) addservice.intMin);
    cbn [andb orb]; try reflexivity; lia.
Qed.

Lemma Sum_of_32_bit_operands_witness :
  addservice.basicService.Sum 64 2147483647 1 = (0, Some Go.ErrIntOverflow).
Proof.
  rewrite (@Sum_of_32_bit_operands 64 2147483647 1).
  - vm_compute; reflexivity.
  - right; reflexivity.
  - rewrite intMax_value, intMin_value; lia.
  - rewrite intMax_value, intMin_value; lia.
Defined.

(** Whatever the operands, a sum that is inside the signed 32-bit range is
    returned with a nil error, unless both operands are zero. *)
Lemma Sum_in_range (bits a b : Z) :
  Go.int_size bits -> Go.is_int bits a -> Go.is_int bits b ->
  ~ (a = 0 /\ b = 0) ->
  addservice.intMin <= a + b <= addservice.intMax ->
  addservice.basicService.Sum bits a b = (a + b, None).
Proof.
  intros Hs Ha Hb Hnz Hr. rewrite Sum_unfolded by auto.
  destruct (Z.eqb_spec a 0); destruct (Z.eqb_spec b 0); cbn [andb];
    try (exfalso; apply Hnz; split; assumption);
    destruct (Z.gtb_spec b 0); destruct (Z.ltb_spec b 0);
    destruct (Z.gtb_spec (a + b) addservice.intMax);
    destruct (Z.ltb_spec (a + b) addservice.intMin);
    cbn [andb orb]; try reflexivity; lia.
Qed.

Lemma Sum_in_range_witness :
  addservice.basicService.Sum 64 4294967296 (-4294967295) = (1, None).
Proof.
  apply (@Sum_in_range 64 4294967296 (-4294967295)).
  - right; reflexivity.
  - int_ranges; lia.
  - int_ranges; lia.
  - intros [H _]; discriminate H.
  - int_ranges; lia.
Defined.

(** [IntOverflow] is only returned for a sum outside the signed 32-bit
    range. *)
Lemma Sum_overflow_sound (bits a b v : Z) :
  Go.int_size bits -> Go.is_int bits a -> Go.is_int bits b ->
  addservice.basicService.Sum bits a b = (v, Some Go.ErrIntOverflow) ->
  a + b < addservice.intMin \/ addservice.intMax < a + b.
Proof.
  intros Hs Ha Hb. rewrite Sum_unfolded by auto.
  destruct ((a =? 0) && (b =? 0)); [discriminate|].
  destruct (Z.gtb_spec b 0); destruct (Z.ltb_spec b 0);
    destruct (Z.gtb_spec (a + b) addservice.intMax);
    destruct (Z.ltb_spec (a + b) addservice.intMin);
    cbn [andb orb]; intros E; try discriminate E; lia.
Qed.

Lemma Sum_overflow_sound_witness :
  2147483647 + 1 < addservice.intMin \/ addservice.intMax < 2147483647 + 1.
Proof.
  apply (@Sum_overflow_sound 64 2147483647 1 0).
  - right; reflexivity.
  - int_ranges; lia.
  - int_ranges; lia.
  - vm_compute; reflexivity.
Defined.

(** C1, at the input where the code leaves the rule: with a 64-bit [int],
    [Sum(2147483648, 0)] returns the sum 2147483648, which is above
    [intMax], with a nil error instead of [ErrIntOverflow].  Both operands
    are [int]s of that platform and they are not both zero. *)
Theorem Sum_wide_operand_not_rejected :
  Go.is_int 64 2147483648 /\ Go.is_int 64 0 /\
  addservice.intMax < 2147483648 + 0 /\
  addservice.basicService.Sum 64 2147483648 0 = (2147483648, None).
Proof.
  repeat split; try (vm_compute; reflexivity); vm_compute; discriminate.
Qed.

(** ** The operation core: Concat *)

(** C2.  [Concat] fails with [ErrMaxSizeExceeded] when the two lengths add
    up to more than 10 and returns the concatenation with a nil error
    otherwise.  The two lengths are [int]s whose sum is one too, as it is
    for strings that fit in memory. *)
Theorem Concat_spec (bits : Z) (a b : string) :
  Go.int_size bits ->
  Go.len a + Go.len b <= Go.maxInt bits ->
  (Go.len a + Go.len b > 10 ->
   addservice.basicService.Concat bits a b = ("", Some Go.ErrMaxSizeExceeded))
  /\
  (Go.len a + Go.len b <= 10 ->
   addservice.basicService.Concat bits a b = ((a ++ b)%string, None)).
Proof.
  intros Hs Hfit. unfold addservice.basicService.Concat, addservice.maxLen.
  assert (Hw : Go.wrap bits (Go.len a + Go.len b) = Go.len a + Go.len b).
  { apply wrap_is_int; [now apply int_size_pos|].
    split; [|assumption].
    unfold Go.len, Go.minInt.
    assert (0 < 2 ^ (bits - 1))
      by (apply Z.pow_pos_nonneg; destruct Hs; lia).
    lia. }
  rewrite Hw.
  destruct (Z.gtb_spec (Go.len a + Go.len b) 10); split; intros;
    try reflexivity; lia.
Qed.

Lemma Concat_spec_witness :
  addservice.basicService.Concat 64 "abcdef" "ghijk"
    = ("", Some Go.ErrMaxSizeExceeded)
  /\ addservice.basicService.Concat 64 "abcde" "fghij"
    = ("abcdefghij", None).
Proof.
  split.
  - apply (@Concat_spec 64 "abcdef" "ghijk");
      [right; reflexivity | vm_compute; discriminate | vm_compute; reflexivity].
  - apply (@Concat_spec 64 "abcde" "fghij");
      [right; reflexivity | vm_compute; discriminate
      | vm_compute; discriminate].
Defined.

(** ** The operation core: Ping *)

Lemma bind_run {W A B : Type} (m : Go.M W A) (k : A -> Go.M W B) (w : W) :
  Go.bind m k w = k (fst (m w)) (snd (m w)).
Proof. unfold Go.bind. destruct (m w); reflexivity. Qed.

(** C8.  Whatever the persistence port: when its [Ping] returns nil the
    service's [Ping] returns ["up"], when it returns an error the service's
    [Ping] returns ["down"], and the error result of the service's [Ping]
    is nil both times.  The world is the one the port's call left. *)
Theorem Ping_up_or_down (W : Type) (dbStore : store.Store W) (w w' : W) :
  (store.Ping dbStore w = (None, w') ->
   addservice.basicService.Ping dbStore w = (("up", None), w'))
  /\
  (forall e, store.Ping dbStore w = (Some e, w') ->
   addservice.basicService.Ping dbStore w = (("down", None), w'))
  /\
  snd (fst (addservice.basicService.Ping dbStore w)) = None.
Proof.
  unfold addservice.basicService.Ping. rewrite bind_run.
  repeat split.
  - intros ->. reflexivity.
  - intros e ->. reflexivity.
  - destruct (fst (store.Ping dbStore w)); reflexivity.
Qed.

Lemma Ping_up_or_down_witness :
  addservice.basicService.Ping sample.memStore sample.up
    = (("up", None), sample.tick sample.up)
  /\ addservice.basicService.Ping sample.memStore sample.down
    = (("down", None), sample.tick sample.down).
Proof.
  split.
  - apply (Ping_up_or_down sample.memStore sample.up (sample.tick sample.up)).
    reflexivity.
  - apply (Ping_up_or_down sample.memStore sample.down
             (sample.tick sample.down)) with (e := sample.unreachable).
    reflexivity.
Defined.

(** ** The endpoint wrapper *)

(** Runs the binds of an endpoint or a middleware at the world [w]. *)
Ltac run_binds :=
  repeat (rewrite bind_run; cbn [fst snd]);
  unfold Go.ret, Go.gets; cbn [fst snd].

(** C3.  Every endpoint built by a [Make...Endpoint] constructor, given a
    request of its type (any request at all for Ping and GetAllToDo, which
    do not look at it), returns one non-nil response and a nil error; the
    error of the service's method is the response's [Err], read by
    [Failed()]. *)
Theorem Make_endpoints_embed_errors (W : Type) (s : addservice.Service W) :
  (forall req,
     notions.embeds_error (addendpoint.MakeSumEndpoint s)
       (addendpoint.OfSumRequest req)
       (addservice.Sum s (addendpoint.SumRequest.A req)
          (addendpoint.SumRequest.B req)))
  /\ (forall req,
     notions.embeds_error (addendpoint.MakeConcatEndpoint s)
       (addendpoint.OfConcatRequest req)
       (addservice.Concat s (addendpoint.ConcatRequest.A req)
          (addendpoint.ConcatRequest.B req)))
  /\ (forall request,
     notions.embeds_error (addendpoint.MakePingEndpoint s) request
       (addservice.Ping s))
  /\ (forall req,
     notions.embeds_error (addendpoint.MakeAddToDoEndpoint s)
       (addendpoint.OfToDoItem req) (addservice.AddToDo s req))
  /\ (forall req,
     notions.embeds_error (addendpoint.MakeCompleteToDoEndpoint s)
       (addendpoint.OfCompleteToDoRequest req)
       (addservice.CompleteToDo s (addendpoint.CompleteToDoRequest.TaskID req)))
  /\ (forall req,
     notions.embeds_error (addendpoint.MakeUnDoToDoEndpoint s)
       (addendpoint.OfUnDoToDoRequest req)
       (addservice.UnDoToDo s (addendpoint.UnDoToDoRequest.TaskID req)))
  /\ (forall req,
     notions.embeds_error (addendpoint.MakeDeleteToDoEndpoint s)
       (addendpoint.OfDeleteToDoRequest req)
       (addservice.DeleteToDo s (addendpoint.DeleteToDoRequest.TaskID req)))
  /\ (forall request,
     notions.embeds_error (addendpoint.MakeGetAllToDoEndpoint s) request
       (addservice.GetAllToDo s)).
Proof.
  repeat split; intros r w;
    unfold addendpoint.MakeSumEndpoint, addendpoint.MakeConcatEndpoint,
      addendpoint.MakePingEndpoint, addendpoint.MakeAddToDoEndpoint,
      addendpoint.MakeCompleteToDoEndpoint, addendpoint.MakeUnDoToDoEndpoint,
      addendpoint.MakeDeleteToDoEndpoint, addendpoint.MakeGetAllToDoEndpoint;
    run_binds;
    (eexists; split; [reflexivity | split; [discriminate | reflexivity]]).
Qed.

(** An endpoint given a request of another type panics in its type
    assertion. *)
Lemma MakeSumEndpoint_other_request (W : Type) (s : addservice.Service W)
  (w : W) :
  addendpoint.MakeSumEndpoint s
    (addendpoint.OfPingRequest addendpoint.PingRequest.mk) w
  = (addendpoint.conversion_panic, w).
Proof. reflexivity. Qed.

(** ** One response type per operation *)

(** The response of the Ping endpoint has the dynamic type
    [ConcatResponse]. *)
Lemma MakePingEndpoint_response (W : Type) (s : addservice.Service W)
  (request : addendpoint.any) (w : W) :
  addendpoint.MakePingEndpoint s request w
  = (Go.Ret (addendpoint.OfConcatResponse
               {| addendpoint.ConcatResponse.V := fst (fst (addservice.Ping s w));
                  addendpoint.ConcatResponse.Err :=
                    snd (fst (addservice.Ping s w)) |}, None),
     snd (addservice.Ping s w)).
Proof. unfold addendpoint.MakePingEndpoint. run_binds. reflexivity. Qed.

(** The sibling path: [Set.Sum] over [MakeSumEndpoint] returns what the
    service's [Sum] returns. *)
Lemma Set_Sum_over_MakeSumEndpoint (W : Type) (s : addservice.Service W)
  (e2 e3 e4 e5 e6 e7 e8 : addendpoint.Endpoint W) (a b : Z) (w : W) :
  addendpoint.Set_methods.Sum
    (addendpoint.mkSet (addendpoint.MakeSumEndpoint s) e2 e3 e4 e5 e6 e7 e8)
    a b w
  = (Go.Ret (fst (addservice.Sum s a b w)), snd (addservice.Sum s a b w)).
Proof.
  unfold addendpoint.Set_methods.Sum, addendpoint.Set_methods.call,
    addendpoint.MakeSumEndpoint.
  cbn [addendpoint.SumEndpoint addendpoint.SumRequest.A
       addendpoint.SumRequest.B].
  run_binds. cbn. destruct (fst (addservice.Sum s a b w)); reflexivity.
Qed.

(** C5, at the input where the code leaves the rule: in a set whose Ping
    endpoint is the one [MakePingEndpoint] builds, [Set.Ping] panics in the
    type assertion [resp.(PingResponse)], for every service and in every
    world, after the service's [Ping] has run. *)
Theorem Set_Ping_over_MakePingEndpoint_panics (W : Type)
  (s : addservice.Service W)
  (e1 e2 e4 e5 e6 e7 e8 : addendpoint.Endpoint W) (w : W) :
  addendpoint.Set_methods.Ping
    (addendpoint.mkSet e1 e2 (addendpoint.MakePingEndpoint s) e4 e5 e6 e7 e8)
    w
  = (Go.Panic "interface conversion", snd (addservice.Ping s w)).
Proof.
  unfold addendpoint.Set_methods.Ping, addendpoint.Set_methods.call.
  cbn [addendpoint.PingEndpoint].
  rewrite bind_run, MakePingEndpoint_response. reflexivity.
Qed.

(** The same, run: the basic service over a reachable store answers
    ["up"], and the caller of [Set.Ping] gets the panic. *)
Lemma Set_Ping_sample_panics :
  let svc := addservice.NewBasicService 64 sample.memStore in
  let e := addendpoint.MakePingEndpoint svc in
  fst (addendpoint.Set_methods.Ping
         (addendpoint.mkSet e e e e e e e e) sample.up)
  = Go.Panic "interface conversion".
Proof. vm_compute. reflexivity. Qed.

(** ** Service middlewares *)

(** A function with a deferred call returns what its body returns. *)
Lemma with_defer_run {W R : Type} (body : Go.M W R)
  (deferred : R -> Go.M W unit) (w : W) :
  Go.with_defer body deferred w
  = (fst (body w), snd (deferred (fst (body w)) (snd (body w)))).
Proof. unfold Go.with_defer. run_binds. reflexivity. Qed.

Lemma log_run {W : Type} (logger : addservice.Logger W)
  (keyvals : list addservice.logval) (w : W) :
  snd (addservice.loggingMiddleware.log logger keyvals w)
  = snd (addservice.Log logger keyvals w).
Proof. unfold addservice.loggingMiddleware.log. run_binds. reflexivity. Qed.

Lemma logging_transparent (W : Type) (logger : addservice.Logger W)
  (next : addservice.Service W) :
  notions.transparent (notions.one_log logger)
    (addservice.LoggingMiddleware logger next) next.
Proof.
  unfold notions.transparent, notions.adds_one, notions.one_log,
    addservice.LoggingMiddleware.
  cbn [addservice.Sum addservice.Concat addservice.Ping addservice.AddToDo
       addservice.CompleteToDo addservice.UnDoToDo addservice.DeleteToDo
       addservice.GetAllToDo].
  unfold addservice.loggingMiddleware.Sum, addservice.loggingMiddleware.Concat,
    addservice.loggingMiddleware.Ping, addservice.loggingMiddleware.AddToDo,
    addservice.loggingMiddleware.CompleteToDo,
    addservice.loggingMiddleware.UnDoToDo,
    addservice.loggingMiddleware.DeleteToDo,
    addservice.loggingMiddleware.GetAllToDo.
  repeat split; intros; rewrite with_defer_run; cbn [fst snd];
    try reflexivity; rewrite log_run; eexists; reflexivity.
Qed.

Lemma observe_since_run {W : Type} (time_Now : W -> Z)
  (h : addservice.Histogram W) (method : string) (begin : Z)
  (err : Go.error) (w : W) :
  snd (addservice.instrumentingMiddleware.observe_since time_Now h method
         begin err w)
  = snd (addservice.Observe
           (addservice.With h
              ["method"; method; "error";
               addservice.instrumentingMiddleware.Sprint_failed err])
           (time_Now w - begin) w).
Proof.
  unfold addservice.instrumentingMiddleware.observe_since.
  run_binds. reflexivity.
Qed.

Lemma instrumenting_transparent (W : Type) (time_Now : W -> Z)
  (ints chars : addservice.Counter W)
  (cubToDo getToDo : addservice.Histogram W) (next : addservice.Service W) :
  notions.transparent (notions.one_metric ints chars cubToDo getToDo)
    (addservice.InstrumentingMiddleware time_Now ints chars cubToDo getToDo
       next)
    next.
Proof.
  unfold notions.transparent, notions.adds_one, notions.one_metric,
    addservice.InstrumentingMiddleware.
  cbn [addservice.Sum addservice.Concat addservice.Ping addservice.AddToDo
       addservice.CompleteToDo addservice.UnDoToDo addservice.DeleteToDo
       addservice.GetAllToDo].
  unfold addservice.instrumentingMiddleware.Sum,
    addservice.instrumentingMiddleware.Concat,
    addservice.instrumentingMiddleware.Ping,
    addservice.instrumentingMiddleware.AddToDo,
    addservice.instrumentingMiddleware.CompleteToDo,
    addservice.instrumentingMiddleware.UnDoToDo,
    addservice.instrumentingMiddleware.DeleteToDo,
    addservice.instrumentingMiddleware.GetAllToDo.
  repeat split; intros;
    try (rewrite bind_run; unfold Go.gets; cbn [fst snd];
         rewrite with_defer_run; cbn [fst snd]; try reflexivity;
         rewrite observe_since_run);
    try (run_binds; try (symmetry; apply surjective_pairing)).
  - left. eexists. reflexivity.
  - right; left. eexists. reflexivity.
  - right; left. eexists. reflexivity.
  - right; right; left. do 2 eexists. reflexivity.
  - right; right; left. do 2 eexists. reflexivity.
  - right; right; left. do 2 eexists. reflexivity.
  - right; right; left. do 2 eexists. reflexivity.
  - right; right; right. do 2 eexists. reflexivity.
Qed.

(** C10.  For every inner service, the logging and the instrumenting
    middleware return, from each of the eight methods and for every input,
    the value and the error the inner service returned; what they add to
    the world the inner service left is one [Log] call, respectively one
    [Add] or one [Observe]. *)
Theorem service_middlewares_transparent (W : Type)
  (logger : addservice.Logger W) (time_Now : W -> Z)
  (ints chars : addservice.Counter W)
  (cubToDo getToDo : addservice.Histogram W) (next : addservice.Service W) :
  notions.transparent (notions.one_log logger)
    (addservice.LoggingMiddleware logger next) next
  /\ notions.transparent (notions.one_metric ints chars cubToDo getToDo)
       (addservice.InstrumentingMiddleware time_Now ints chars cubToDo getToDo
          next)
       next.
Proof.
  split; [apply logging_transparent | apply instrumenting_transparent].
Qed.

(** ** The transport adapter: errors *)

Lemma error_eqb_sentinel (err : Go.error) (e : Go.error_value) :
  (forall addr s, e <> Go.ErrorString addr s) ->
  Go.error_eqb err (Some e) = true <-> err = Some e.
Proof.
  intros He. split.
  - destruct err as [x|]; [|discriminate].
    destruct x, e; cbn; intros H; try discriminate H; try reflexivity.
    exfalso. eapply He. reflexivity.
  - intros ->. destruct e; try reflexivity. exfalso. eapply He. reflexivity.
Qed.

(** C6.  [err2code] gives 400 for exactly the three business errors and 500
    for every other error value, among them the rate limiter's and the
    circuit breaker's errors, an error that only shares its message with a
    business error, and nil. *)
Theorem err2code_spec (err : Go.error) :
  (addtransport.err2code err = 400 <-> notions.business_error err)
  /\ (addtransport.err2code err = 500 <-> ~ notions.business_error err)
  /\ addtransport.err2code (Some Go.ErrLimited) = 500
  /\ addtransport.err2code (Some Go.ErrOpenState) = 500
  /\ addtransport.err2code (Some Go.ErrTooManyRequests) = 500
  /\ (forall addr s,
        addtransport.err2code (Some (Go.ErrorString addr s)) = 500)
  /\ addtransport.err2code None = 500.
Proof.
  assert (H : notions.business_error err
              <-> Go.error_eqb err (Some Go.ErrTwoZeroes)
                  || Go.error_eqb err (Some Go.ErrMaxSizeExceeded)
                  || Go.error_eqb err (Some Go.ErrIntOverflow) = true).
  { unfold notions.business_error. rewrite !orb_true_iff.
    rewrite !error_eqb_sentinel by discriminate. tauto. }
  assert (Hc : addtransport.err2code err
               = if Go.error_eqb err (Some Go.ErrTwoZeroes)
                    || Go.error_eqb err (Some Go.ErrMaxSizeExceeded)
                    || Go.error_eqb err (Some Go.ErrIntOverflow)
                 then 400 else 500) by reflexivity.
  split; [|split; [|repeat split; reflexivity]]; rewrite Hc;
    destruct (Go.error_eqb err (Some Go.ErrTwoZeroes)
              || Go.error_eqb err (Some Go.ErrMaxSizeExceeded)
              || Go.error_eqb err (Some Go.ErrIntOverflow)).
  - split; [intros _; apply H|]; reflexivity.
  - split; [discriminate|]. intros Hb. apply H in Hb. discriminate Hb.
  - split; [discriminate|]. intros Hn. exfalso. apply Hn, H. reflexivity.
  - split; [|reflexivity]. intros _ Hb. apply H in Hb. discriminate Hb.
Qed.

(** ** The transport adapter: the generic response encoder *)

(** What [errorEncoder] leaves in the writer: the status of the mapping,
    unless a status was already written, and the envelope as the next
    document of the body. *)
Lemma errorEncoder_run (err : Go.error_value)
  (w : addtransport.ResponseWriter) :
  addtransport.errorEncoder err w
  = (tt,
     {| addtransport.status :=
          Some match addtransport.status w with
               | Some code => code
               | None => addtransport.err2code (Some err)
               end;
        addtransport.header := addtransport.header w;
        addtransport.body :=
          addtransport.body w
          ++ [addtransport.JObject
                [("error", addtransport.JString (Go.Error err))]] |}).
Proof.
  unfold addtransport.errorEncoder, addtransport.Encode,
    addtransport.WriteHeader, addtransport.Marshal_errorWrapper, Go.bind,
    Go.ret.
  destruct w as [[code|] hd bd]; reflexivity.
Qed.

(** C7.  When the response is a [Failer] whose [Failed()] is a non-nil
    error, the encoder writes the status of [err2code] and the envelope
    with the error's message, and nothing else: the response itself is not
    encoded.  Otherwise it sets the content type and encodes the response
    as the body.  It returns a nil error both times.  (A status that was
    written to [w] before stays.) *)
Theorem encodeHTTPGenericResponse_spec (response : addendpoint.any)
  (w : addtransport.ResponseWriter) :
  (forall err,
     addendpoint.Failer response = Some (Some err) ->
     addtransport.encodeHTTPGenericResponse response w
     = (None,
        {| addtransport.status :=
             Some match addtransport.status w with
                  | Some code => code
                  | None => addtransport.err2code (Some err)
                  end;
           addtransport.header := addtransport.header w;
           addtransport.body :=
             addtransport.body w
             ++ [addtransport.JObject
                   [("error", addtransport.JString (Go.Error err))]] |}))
  /\
  (addendpoint.Failer response = None
   \/ addendpoint.Failer response = Some None ->
   addtransport.encodeHTTPGenericResponse response w
   = (None,
      {| addtransport.status :=
           Some match addtransport.status w with
                | Some code => code
                | None => addtransport.StatusOK
                end;
         addtransport.header :=
           ("Content-Type", "application/json; charset=utf-8")
           :: filter (fun kv => negb (String.eqb (fst kv) "Content-Type"))
                (addtransport.header w);
         addtransport.body :=
           addtransport.body w ++ [addtransport.Marshal response] |})).
Proof.
  unfold addtransport.encodeHTTPGenericResponse. split.
  - intros err ->. rewrite bind_run, errorEncoder_run. reflexivity.
  - intros H.
    assert (E : addendpoint.Failer response <> Some None ->
                addendpoint.Failer response <> None -> False)
      by (destruct H as [-> | ->]; auto).
    destruct (addendpoint.Failer response) as [[err|]|];
      try (exfalso; apply E; discriminate);
      unfold addtransport.Encode, addtransport.Header_Set,
        addtransport.WriteHeader, Go.bind;
      destruct w as [[code|] hd bd]; reflexivity.
Qed.

Lemma encodeHTTPGenericResponse_spec_witness :
  (addtransport.encodeHTTPGenericResponse
    (addendpoint.OfSumResponse
       {| addendpoint.SumResponse.V := 0;
          addendpoint.SumResponse.Err := Some Go.ErrTwoZeroes |})
    sample.response_writer
  = (None,
     {| addtransport.status := Some 400;
        addtransport.header := [];
        addtransport.body :=
          [addtransport.JObject
             [("error", addtransport.JString "can't sum two zeroes")]] |}))
  /\
  (addtransport.encodeHTTPGenericResponse
    (addendpoint.OfSumResponse
       {| addendpoint.SumResponse.V := 3;
          addendpoint.SumResponse.Err := None |})
    sample.response_writer
  = (None,
     {| addtransport.status := Some 200;
        addtransport.header :=
          [("Content-Type", "application/json; charset=utf-8")];
        addtransport.body :=
          [addtransport.JObject [("v", addtransport.JNumber 3)]] |})).
Proof.
  split.
  - exact (proj1 (encodeHTTPGenericResponse_spec
                    (addendpoint.OfSumResponse
                       {| addendpoint.SumResponse.V := 0;
                          addendpoint.SumResponse.Err :=
                            Some Go.ErrTwoZeroes |})
                    sample.response_writer)
             Go.ErrTwoZeroes eq_refl).
  - exact (proj2 (encodeHTTPGenericResponse_spec
                    (addendpoint.OfSumResponse
                       {| addendpoint.SumResponse.V := 3;
                          addendpoint.SumResponse.Err := None |})
                    sample.response_writer)
             (or_intror eq_refl)).
Defined.

(** ** The client: which HTTP client each endpoint is built around *)

(** C4.  In the set [NewHTTPClient] returns, the endpoints of AddToDo,
    CompleteToDo, UnDoToDo, DeleteToDo and GetAllToDo are chains of
    middlewares around the HTTP client of the Ping route, read with the
    Ping decoder: none of them reaches the HTTP client that was built for
    its own route.  Sum, Concat and Ping are built around their own
    client.  With a zipkin tracer the Ping variable is, in addition,
    reassigned in each of the five blocks, so that the Ping endpoint of the
    set carries the five zipkin layers of the to-do operations. *)
Theorem NewHTTPClient_todo_endpoints_around_ping
  (url_Parse : string -> kit.URL * Go.error) (zipkinTracer : bool)
  (instance : string) (set : addendpoint.Set_ kit.term) :
  addtransport.NewHTTPClient kit.term_kit url_Parse zipkinTracer instance
    = (Some set, None) ->
  (kit.route (addendpoint.AddToDoEndpoint set) = "/ping"
   /\ kit.route (addendpoint.CompleteToDoEndPoint set) = "/ping"
   /\ kit.route (addendpoint.UnDoToDoEndpoint set) = "/ping"
   /\ kit.route (addendpoint.DeleteToDoEndpoint set) = "/ping"
   /\ kit.route (addendpoint.GetAllToDoEndpoint set) = "/ping")
  /\
  (kit.decoder (addendpoint.AddToDoEndpoint set)
     = Some kit.decodeHTTPPingResponse
   /\ kit.decoder (addendpoint.CompleteToDoEndPoint set)
     = Some kit.decodeHTTPPingResponse
   /\ kit.decoder (addendpoint.UnDoToDoEndpoint set)
     = Some kit.decodeHTTPPingResponse
   /\ kit.decoder (addendpoint.DeleteToDoEndpoint set)
     = Some kit.decodeHTTPPingResponse
   /\ kit.decoder (addendpoint.GetAllToDoEndpoint set)
     = Some kit.decodeHTTPPingResponse)
  /\
  (kit.route (addendpoint.SumEndpoint set) = "/sum"
   /\ kit.route (addendpoint.ConcatEndpoint set) = "/concat"
   /\ kit.route (addendpoint.PingEndpoint set) = "/ping")
  /\
  (zipkinTracer = true ->
   exists ping : kit.term,
     addendpoint.PingEndpoint set
     = kit.TTraceEndpoint "GetAllToDo"
         (kit.TTraceEndpoint "DeleteToDo"
            (kit.TTraceEndpoint "UnDoToDo"
               (kit.TTraceEndpoint "CompleteToDo"
                  (kit.TTraceEndpoint "AddToDo" ping))))).
Proof.
  unfold addtransport.NewHTTPClient.
  destruct (url_Parse _) as [u [e|]]; [discriminate|].
  intros H. injection H as <-.
  destruct zipkinTracer;
    (split; [|split; [|split]];
     [repeat split; reflexivity ..
     | intros E; try discriminate E; eexists; reflexivity]).
Qed.

Lemma NewHTTPClient_todo_endpoints_around_ping_witness :
  exists set,
    addtransport.NewHTTPClient kit.term_kit sample.url_Parse false
      "localhost:8081" = (Some set, None)
    /\ kit.route (addendpoint.AddToDoEndpoint set) = "/ping"
    /\ kit.route (addendpoint.GetAllToDoEndpoint set) = "/ping".
Proof.
  eexists. split; [reflexivity|].
  split;
    apply (@NewHTTPClient_todo_endpoints_around_ping sample.url_Parse false
             "localhost:8081" _ eq_refl).
Defined.

(** The same for endpoints of any kind: two kits that differ only in the
    HTTP clients they build for other decoders than Ping's give the same
    five to-do endpoints; the client built for the operation's own route
    plays no part in them. *)
Lemma NewHTTPClient_todo_endpoints_ignore_own_client (E : Type)
  (K K' : kit.Kit E) (url_Parse : string -> kit.URL * Go.error)
  (zipkinTracer : bool) (instance : string)
  (set set' : addendpoint.Set_ E) :
  kit.NewErroringLimiter K = kit.NewErroringLimiter K' ->
  kit.Gobreaker K = kit.Gobreaker K' ->
  kit.TraceClient K = kit.TraceClient K' ->
  kit.TraceEndpoint K = kit.TraceEndpoint K' ->
  (forall method tgt enc options,
     kit.NewClient K method tgt enc kit.decodeHTTPPingResponse options
     = kit.NewClient K' method tgt enc kit.decodeHTTPPingResponse options) ->
  addtransport.NewHTTPClient K url_Parse zipkinTracer instance
    = (Some set, None) ->
  addtransport.NewHTTPClient K' url_Parse zipkinTracer instance
    = (Some set', None) ->
  addendpoint.AddToDoEndpoint set = addendpoint.AddToDoEndpoint set'
  /\ addendpoint.CompleteToDoEndPoint set
     = addendpoint.CompleteToDoEndPoint set'
  /\ addendpoint.UnDoToDoEndpoint set = addendpoint.UnDoToDoEndpoint set'
  /\ addendpoint.DeleteToDoEndpoint set = addendpoint.DeleteToDoEndpoint set'
  /\ addendpoint.GetAllToDoEndpoint set = addendpoint.GetAllToDoEndpoint set'
  /\ addendpoint.PingEndpoint set = addendpoint.PingEndpoint set'.
Proof.
  intros Hl Hg Ht Hz Hc. unfold addtransport.NewHTTPClient.
  destruct (url_Parse _) as [u [e|]]; [discriminate|].
  intros H H'. injection H as <-. injection H' as <-.
  cbn [addendpoint.AddToDoEndpoint addendpoint.CompleteToDoEndPoint
       addendpoint.UnDoToDoEndpoint addendpoint.DeleteToDoEndpoint
       addendpoint.GetAllToDoEndpoint addendpoint.PingEndpoint].
  rewrite Hl, Hg, Ht, Hz, !Hc. repeat split; reflexivity.
Qed.

(** ** The server: how the Sum endpoint is wired *)

(** The Sum endpoint of the server's set: the endpoint of
    [MakeSumEndpoint], inside a limiter of its own built with
    [rate.Every(time.Second)] and a burst of 1, inside a circuit breaker
    with default settings, inside the tracing, logging and instrumenting
    layers. *)
Lemma New_SumEndpoint_wiring (W : Type) (K : kit.Kit (addendpoint.Endpoint W))
  (LoggingMiddleware InstrumentingMiddleware :
     string -> addendpoint.Middleware W)
  (svc : addservice.Service W) (zipkinTracer : bool) :
  let limited :=
    kit.NewErroringLimiter K (kit.NewLimiter 0 (kit.Every kit.Second) 1)
      (addendpoint.MakeSumEndpoint svc) in
  let traced :=
    kit.TraceServer K "Sum"
      (kit.Gobreaker K (kit.NewCircuitBreaker 0 (kit.mkSettings "" 0))
         limited) in
  addendpoint.SumEndpoint
    (addendpoint.New K LoggingMiddleware InstrumentingMiddleware svc
       zipkinTracer)
  = InstrumentingMiddleware "Sum"
      (LoggingMiddleware "Sum"
         (if zipkinTracer then kit.TraceEndpoint K "Sum" traced else traced)).
Proof. destruct zipkinTracer; reflexivity. Qed.

(** * Further properties of the operation core *)

Lemma len_append (a b : string) :
  Go.len (a ++ b)%string = Go.len a + Go.len b.
Proof.
  unfold Go.len. induction a as [|c a IH]; cbn [String.append String.length].
  - lia.
  - rewrite !Nat2Z.inj_succ. lia.
Qed.

(** X1.  What [Sum] returns for any two [int]s, on either platform.  With
    a nil error the value is the exact sum: it is an [int], was never
    wrapped around, and the operands are not both zero.  With an error the
    value is 0, and the error is [ErrTwoZeroes] exactly when both operands
    are zero and [ErrIntOverflow] otherwise. *)
Theorem Sum_results (bits a b v : Z) (err : Go.error) :
  Go.int_size bits -> Go.is_int bits a -> Go.is_int bits b ->
  addservice.basicService.Sum bits a b = (v, err) ->
  (err = None -> v = a + b /\ Go.is_int bits v /\ ~ (a = 0 /\ b = 0))
  /\ (err <> None ->
      v = 0
      /\ (a = 0 /\ b = 0 -> err = Some Go.ErrTwoZeroes)
      /\ (~ (a = 0 /\ b = 0) -> err = Some Go.ErrIntOverflow)).
Proof.
  intros Hs Ha Hb. rewrite Sum_unfolded by auto.
  destruct ((a =? 0) && (b =? 0)) eqn:Z0.
  - apply andb_true_iff in Z0. destruct Z0 as [Ea Eb].
    apply Z.eqb_eq in Ea, Eb.
    intros E. injection E as <- <-.
    split; [discriminate|]. intros _.
    split; [reflexivity|]. split; [reflexivity|].
    intros Hn. exfalso. apply Hn. split; assumption.
  - assert (Hnz : ~ (a = 0 /\ b = 0)).
    { intros [Ea Eb]. subst. discriminate Z0. }
    destruct (((b >? 0) && (a + b >? addservice.intMax))
              || ((b <? 0) && (a + b <? addservice.intMin))) eqn:G;
      intros E; injection E as <- <-.
    + split; [discriminate|]. intros _.
      split; [reflexivity|]. split; [|reflexivity].
      intros Hz. exfalso. apply Hnz, Hz.
    + split; [|intros H; exfalso; apply H; reflexivity].
      intros _. split; [reflexivity|]. split; [|assumption].
      apply orb_false_iff in G. destruct G as [G1 G2].
      destruct (Z.gtb_spec b 0); destruct (Z.ltb_spec b 0);
        destruct (Z.gtb_spec (a + b) addservice.intMax);
        destruct (Z.ltb_spec (a + b) addservice.intMin);
        cbn [andb] in *; try discriminate;
        destruct Hs as [-> | ->]; int_ranges; lia.
Qed.

Lemma Sum_results_witness :
  1 = 4294967296 + (-4294967295) /\ Go.is_int 64 1
  /\ ~ (4294967296 = 0 /\ -4294967295 = 0).
Proof.
  apply (@Sum_results 64 4294967296 (-4294967295) 1 None).
  - right; reflexivity.
  - int_ranges; lia.
  - int_ranges; lia.
  - vm_compute; reflexivity.
  - reflexivity.
Defined.

(** X2.  For operands inside the signed 32-bit range the order of the
    operands does not matter to [Sum], although its overflow test only
    looks at the sign of the second one. *)
Theorem Sum_comm_32_bit_operands (bits a b : Z) :
  Go.int_size bits ->
  addservice.intMin <= a <= addservice.intMax ->
  addservice.intMin <= b <= addservice.intMax ->
  addservice.basicService.Sum bits a b = addservice.basicService.Sum bits b a.
Proof.
  intros Hs Ha Hb. rewrite !Sum_of_32_bit_operands by assumption.
  rewrite (Z.add_comm b a), (andb_comm (b =? 0)). reflexivity.
Qed.

Lemma Sum_comm_32_bit_operands_witness :
  addservice.basicService.Sum 64 2147483647 (-5)
  = addservice.basicService.Sum 64 (-5) 2147483647.
Proof.
  apply (@Sum_comm_32_bit_operands 64 2147483647 (-5)).
  - right; reflexivity.
  - int_ranges; lia.
  - int_ranges; lia.
Defined.

(** X3.  What [Concat] returns: with a nil error the value is the
    concatenation and is at most 10 bytes long; with an error the value is
    the empty string, the error is [ErrMaxSizeExceeded] and the two lengths
    add up to more than 10. *)
Theorem Concat_results (bits : Z) (a b v : string) (err : Go.error) :
  Go.int_size bits ->
  Go.len a + Go.len b <= Go.maxInt bits ->
  addservice.basicService.Concat bits a b = (v, err) ->
  (err = None -> v = (a ++ b)%string /\ Go.len v <= addservice.maxLen)
  /\ (err <> None ->
      v = "" /\ err = Some Go.ErrMaxSizeExceeded
      /\ Go.len a + Go.len b > addservice.maxLen).
Proof.
  intros Hs Hfit. unfold addservice.basicService.Concat.
  assert (Hw : Go.wrap bits (Go.len a + Go.len b) = Go.len a + Go.len b).
  { apply wrap_is_int; [now apply int_size_pos|].
    split; [|assumption].
    unfold Go.len, Go.minInt.
    assert (0 < 2 ^ (bits - 1))
      by (apply Z.pow_pos_nonneg; destruct Hs; lia).
    lia. }
  rewrite Hw.
  destruct (Z.gtb_spec (Go.len a + Go.len b) addservice.maxLen);
    intros E; injection E as <- <-.
  - split; [discriminate|]. intros _. repeat split. lia.
  - split; [|intros Hc; exfalso; apply Hc; reflexivity].
    intros _. split; [reflexivity|]. rewrite len_append. assumption.
Qed.

Lemma Concat_results_witness :
  "abcdefghij" = ("abcde" ++ "fghij")%string
  /\ Go.len "abcdefghij" <= addservice.maxLen.
Proof.
  apply (@Concat_results 64 "abcde" "fghij" "abcdefghij" None).
  - right; reflexivity.
  - vm_compute; discriminate.
  - vm_compute; reflexivity.
  - reflexivity.
Defined.

Lemma pass_through_shape {W R : Type} (zero : R)
  (port : Go.M W (R * Go.error)) :
  notions.passes_through zero
    (r <- port ;;
     match snd r with
     | Some e => Go.ret (zero, Some e)
     | None => Go.ret (fst r, None)
     end)
    port.
Proof.
  intros w. rewrite bind_run.
  destruct (port w) as [[v [e|]] w']; cbn; repeat split;
    try reflexivity; try discriminate.
  intros H. exfalso. apply H. reflexivity.
Qed.

(** X4.  The five to-do methods of the basic service hand the call to the
    store: they return the store's error as it is and leave the world the
    store left; the value is the store's when the error is nil, and the
    zero value otherwise, whatever value the store returned beside its
    error. *)
Theorem basicService_todo_methods_pass_through (W : Type)
  (dbStore : store.Store W) :
  (forall task,
     notions.passes_through ""
       (addservice.basicService.AddToDo dbStore task)
       (store.InsertToDo dbStore task))
  /\ (forall taskID,
     notions.passes_through ""
       (addservice.basicService.CompleteToDo dbStore taskID)
       (store.CompleteToDo dbStore taskID))
  /\ (forall taskID,
     notions.passes_through ""
       (addservice.basicService.UnDoToDo dbStore taskID)
       (store.UnDoToDo dbStore taskID))
  /\ (forall taskID,
     notions.passes_through ""
       (addservice.basicService.DeleteToDo dbStore taskID)
       (store.DeleteToDo dbStore taskID))
  /\ notions.passes_through None
       (addservice.basicService.GetAllToDo dbStore)
       (store.GetAllToDo dbStore).
Proof.
  split; [|split; [|split; [|split]]]; intros;
    exact (pass_through_shape _ _).
Qed.

(** * Further properties of the service middlewares *)

Lemma adds_one_compose {W R : Type} (first second : W -> W -> Prop)
  (s1 s2 s3 : Go.M W R) :
  notions.adds_one first s2 s1 -> notions.adds_one second s3 s2 ->
  notions.adds_one (notions.and_then first second) s3 s1.
Proof.
  intros H12 H23 w. destruct (H12 w) as [E1 F1]. destruct (H23 w) as [E2 F2].
  split; [congruence|]. exists (snd (s2 w)). split; assumption.
Qed.

Lemma transparent_compose {W : Type} (first second : W -> W -> Prop)
  (s1 s2 s3 : addservice.Service W) :
  notions.transparent first s2 s1 -> notions.transparent second s3 s2 ->
  notions.transparent (notions.and_then first second) s3 s1.
Proof.
  intros (A1 & A2 & A3 & A4 & A5 & A6 & A7 & A8)
         (B1 & B2 & B3 & B4 & B5 & B6 & B7 & B8).
  repeat apply conj; intros; eapply adds_one_compose; eauto.
Qed.

(** X5.  The service [New] wires returns, from every method and for every
    input, the value and the error of the basic service underneath; beside
    what the basic service does to the world there is one [Log] call and,
    after it, one [Add] or [Observe]. *)
Theorem New_service_transparent (bits : Z) (W : Type)
  (dbStore : store.Store W) (time_Now : W -> Z)
  (logger : addservice.Logger W) (ints chars : addservice.Counter W)
  (cubTodo getTodo : addservice.Histogram W) :
  notions.transparent
    (notions.and_then (notions.one_log logger)
       (notions.one_metric ints chars cubTodo getTodo))
    (addservice.New bits dbStore time_Now logger ints chars cubTodo getTodo)
    (addservice.NewBasicService bits dbStore).
Proof.
  unfold addservice.New. cbv zeta.
  eapply transparent_compose;
    [apply logging_transparent | apply instrumenting_transparent].
Qed.

(** X6.  [Sum] and [Concat] of the wired service, in full: the result is
    the basic service's; the logger is given the inputs and that result;
    then the counter of integers is given the value of the sum, the counter
    of characters the length of the concatenation.  A call that fails is
    logged with its error and counted as 0. *)
Theorem New_service_Sum_Concat (bits : Z) (W : Type)
  (dbStore : store.Store W) (time_Now : W -> Z)
  (logger : addservice.Logger W) (ints chars : addservice.Counter W)
  (cubTodo getTodo : addservice.Histogram W) (w : W) :
  let svc :=
    addservice.New bits dbStore time_Now logger ints chars cubTodo getTodo in
  (forall a b,
     let r := addservice.basicService.Sum bits a b in
     addservice.Sum svc a b w
     = (r,
        snd (addservice.Add ints (fst r)
               (snd (addservice.Log logger
                       [addservice.LString "method"; addservice.LString "Sum";
                        addservice.LString "a"; addservice.LInt a;
                        addservice.LString "b"; addservice.LInt b;
                        addservice.LString "v"; addservice.LInt (fst r);
                        addservice.LString "err"; addservice.LError (snd r)]
                       w)))))
  /\
  (forall a b,
     let r := addservice.basicService.Concat bits a b in
     addservice.Concat svc a b w
     = (r,
        snd (addservice.Add chars (Go.len (fst r))
               (snd (addservice.Log logger
                       [addservice.LString "method";
                        addservice.LString "Concat";
                        addservice.LString "a"; addservice.LString a;
                        addservice.LString "b"; addservice.LString b;
                        addservice.LString "v"; addservice.LString (fst r);
                        addservice.LString "err"; addservice.LError (snd r)]
                       w))))).
Proof.
  split; intros a b; cbv zeta;
    unfold addservice.New, addservice.InstrumentingMiddleware,
      addservice.LoggingMiddleware, addservice.NewBasicService;
    cbn [addservice.Sum addservice.Concat];
    unfold addservice.instrumentingMiddleware.Sum,
      addservice.instrumentingMiddleware.Concat;
    cbn [addservice.Sum addservice.Concat];
    unfold addservice.loggingMiddleware.Sum, addservice.loggingMiddleware.Concat;
    cbn [addservice.Sum addservice.Concat];
    rewrite bind_run, with_defer_run; unfold Go.ret at 1 2; cbn [fst snd];
    rewrite bind_run, log_run; unfold Go.ret; cbn [fst snd];
    rewrite <- surjective_pairing; reflexivity.
Qed.

(** The failing call of X6, run: the sum of two zeroes is logged with its
    error and adds 0 to the counter. *)
Lemma New_service_Sum_sample :
  let svc :=
    addservice.New 64 sample.memStore sample.clock sample.logger
      sample.counter sample.counter sample.histogram sample.histogram in
  let '(r, w) := addservice.Sum svc 0 0 sample.up in
  r = (0, Some Go.ErrTwoZeroes)
  /\ sample.counted w = [0]
  /\ sample.logged w
     = [[addservice.LString "method"; addservice.LString "Sum";
         addservice.LString "a"; addservice.LInt 0;
         addservice.LString "b"; addservice.LInt 0;
         addservice.LString "v"; addservice.LInt 0;
         addservice.LString "err";
         addservice.LError (Some Go.ErrTwoZeroes)]].
Proof. vm_compute. repeat split. Qed.

(** X7.  The instrumenting middleware times the to-do methods: it returns
    what the inner service returns and then observes the time the clock
    moved by during the inner call, labelled with the method and with
    whether the call failed.  The four writing methods go to [cubToDo]
    under their own name; [GetAllToDo] goes to [getToDo] under the method
    label ["DeleteToDo"]. *)
Theorem instrumenting_todo_methods_timed (W : Type) (time_Now : W -> Z)
  (cubToDo getToDo : addservice.Histogram W) (next : addservice.Service W) :
  (forall task,
     notions.timed time_Now cubToDo "AddToDo"
       (addservice.instrumentingMiddleware.AddToDo time_Now cubToDo next task)
       (addservice.AddToDo next task))
  /\ (forall taskID,
     notions.timed time_Now cubToDo "CompleteToDo"
       (addservice.instrumentingMiddleware.CompleteToDo time_Now cubToDo next
          taskID)
       (addservice.CompleteToDo next taskID))
  /\ (forall taskID,
     notions.timed time_Now cubToDo "UnDoToDo"
       (addservice.instrumentingMiddleware.UnDoToDo time_Now cubToDo next
          taskID)
       (addservice.UnDoToDo next taskID))
  /\ (forall taskID,
     notions.timed time_Now cubToDo "DeleteToDo"
       (addservice.instrumentingMiddleware.DeleteToDo time_Now cubToDo next
          taskID)
       (addservice.DeleteToDo next taskID))
  /\ notions.timed time_Now getToDo "DeleteToDo"
       (addservice.instrumentingMiddleware.GetAllToDo time_Now getToDo next)
       (addservice.GetAllToDo next).
Proof.
  unfold notions.timed, addservice.instrumentingMiddleware.AddToDo,
    addservice.instrumentingMiddleware.CompleteToDo,
    addservice.instrumentingMiddleware.UnDoToDo,
    addservice.instrumentingMiddleware.DeleteToDo,
    addservice.instrumentingMiddleware.GetAllToDo.
  split; [|split; [|split; [|split]]]; intros;
    rewrite bind_run; unfold Go.gets at 1 2; cbn [fst snd];
    rewrite with_defer_run, observe_since_run;
    unfold addservice.instrumentingMiddleware.Sprint_failed; reflexivity.
Qed.

(** * Further properties of the endpoint layer *)

Lemma call_over_response {W A : Type} (e : addendpoint.Endpoint W)
  (request response : addendpoint.any) (zero : A)
  (assert : addendpoint.any -> option (A * Go.error)) (w w' : W) :
  e request w = (Go.Ret (response, None), w') ->
  addendpoint.Set_methods.call e request zero assert w
  = (match assert response with
     | Some r => Go.Ret r
     | None => addendpoint.conversion_panic
     end, w').
Proof.
  intros E. unfold addendpoint.Set_methods.call.
  rewrite bind_run, E. cbn [fst snd]. destruct (assert response); reflexivity.
Qed.

Lemma call_over_error {W A : Type} (e : addendpoint.Endpoint W)
  (request response : addendpoint.any) (err : Go.error_value) (zero : A)
  (assert : addendpoint.any -> option (A * Go.error)) (w w' : W) :
  e request w = (Go.Ret (response, Some err), w') ->
  addendpoint.Set_methods.call e request zero assert w
  = (Go.Ret (zero, Some err), w').
Proof.
  intros E. unfold addendpoint.Set_methods.call.
  rewrite bind_run, E. reflexivity.
Qed.

(** Unfolds an endpoint constructor at a request of its type. *)
Ltac run_endpoint :=
  unfold addendpoint.MakeSumEndpoint, addendpoint.MakeConcatEndpoint,
    addendpoint.MakePingEndpoint, addendpoint.MakeAddToDoEndpoint,
    addendpoint.MakeCompleteToDoEndpoint, addendpoint.MakeUnDoToDoEndpoint,
    addendpoint.MakeDeleteToDoEndpoint, addendpoint.MakeGetAllToDoEndpoint;
  run_binds.

(** X8.  A set whose endpoints are the ones the constructors build around
    a service is that service again, for seven of the eight methods: each
    method of the set returns, without a panic, the value and the error
    the service's method returns, and leaves the same world.  (The Ping
    endpoint, whatever it is, plays no part in them.) *)
Theorem Set_over_Make_endpoints (W : Type) (s : addservice.Service W)
  (pingEndpoint : addendpoint.Endpoint W) (w : W) :
  let set :=
    addendpoint.mkSet (addendpoint.MakeSumEndpoint s)
      (addendpoint.MakeConcatEndpoint s) pingEndpoint
      (addendpoint.MakeAddToDoEndpoint s)
      (addendpoint.MakeCompleteToDoEndpoint s)
      (addendpoint.MakeUnDoToDoEndpoint s)
      (addendpoint.MakeDeleteToDoEndpoint s)
      (addendpoint.MakeGetAllToDoEndpoint s) in
  (forall a b,
     addendpoint.Set_methods.Sum set a b w
     = (Go.Ret (fst (addservice.Sum s a b w)), snd (addservice.Sum s a b w)))
  /\ (forall a b,
     addendpoint.Set_methods.Concat set a b w
     = (Go.Ret (fst (addservice.Concat s a b w)),
        snd (addservice.Concat s a b w)))
  /\ (forall task,
     addendpoint.Set_methods.AddToDo set task w
     = (Go.Ret (fst (addservice.AddToDo s task w)),
        snd (addservice.AddToDo s task w)))
  /\ (forall taskID,
     addendpoint.Set_methods.CompleteToDo set taskID w
     = (Go.Ret (fst (addservice.CompleteToDo s taskID w)),
        snd (addservice.CompleteToDo s taskID w)))
  /\ (forall taskID,
     addendpoint.Set_methods.UnDoToDo set taskID w
     = (Go.Ret (fst (addservice.UnDoToDo s taskID w)),
        snd (addservice.UnDoToDo s taskID w)))
  /\ (forall taskID,
     addendpoint.Set_methods.DeleteToDo set taskID w
     = (Go.Ret (fst (addservice.DeleteToDo s taskID w)),
        snd (addservice.DeleteToDo s taskID w)))
  /\ addendpoint.Set_methods.GetAllToDo set w
     = (Go.Ret (fst (addservice.GetAllToDo s w)),
        snd (addservice.GetAllToDo s w)).
Proof.
  cbv zeta.
  unfold addendpoint.Set_methods.Sum, addendpoint.Set_methods.Concat,
    addendpoint.Set_methods.AddToDo, addendpoint.Set_methods.CompleteToDo,
    addendpoint.Set_methods.UnDoToDo, addendpoint.Set_methods.DeleteToDo,
    addendpoint.Set_methods.GetAllToDo.
  cbn [addendpoint.SumEndpoint addendpoint.ConcatEndpoint
       addendpoint.AddToDoEndpoint addendpoint.CompleteToDoEndPoint
       addendpoint.UnDoToDoEndpoint addendpoint.DeleteToDoEndpoint
       addendpoint.GetAllToDoEndpoint].
  split; [|split; [|split; [|split; [|split; [|split]]]]]; intros;
    (erewrite call_over_response; [|run_endpoint; reflexivity]);
    cbn; rewrite <- surjective_pairing; reflexivity.
Qed.

(** X9.  Every method of a set surfaces a non-nil error of its endpoint
    (a refusal by the limiter or the breaker in front, a failure of the
    transport) as its own error, with the zero value; no type assertion is
    made on that path. *)
Theorem Set_methods_surface_endpoint_errors (W : Type)
  (set : addendpoint.Set_ (addendpoint.Endpoint W)) :
  (forall a b,
     notions.surfaces_error (addendpoint.SumEndpoint set)
       (addendpoint.OfSumRequest (addendpoint.SumRequest.mk a b))
       (addendpoint.Set_methods.Sum set a b) 0)
  /\ (forall a b,
     notions.surfaces_error (addendpoint.ConcatEndpoint set)
       (addendpoint.OfConcatRequest (addendpoint.ConcatRequest.mk a b))
       (addendpoint.Set_methods.Concat set a b) "")
  /\ notions.surfaces_error (addendpoint.PingEndpoint set)
       (addendpoint.OfPingRequest addendpoint.PingRequest.mk)
       (addendpoint.Set_methods.Ping set) ""
  /\ (forall task,
     notions.surfaces_error (addendpoint.AddToDoEndpoint set)
       (addendpoint.OfToDoItem task)
       (addendpoint.Set_methods.AddToDo set task) "")
  /\ (forall taskID,
     notions.surfaces_error (addendpoint.CompleteToDoEndPoint set)
       (addendpoint.OfCompleteToDoRequest
          (addendpoint.CompleteToDoRequest.mk taskID))
       (addendpoint.Set_methods.CompleteToDo set taskID) "")
  /\ (forall taskID,
     notions.surfaces_error (addendpoint.UnDoToDoEndpoint set)
       (addendpoint.OfUnDoToDoRequest (addendpoint.UnDoToDoRequest.mk taskID))
       (addendpoint.Set_methods.UnDoToDo set taskID) "")
  /\ (forall taskID,
     notions.surfaces_error (addendpoint.DeleteToDoEndpoint set)
       (addendpoint.OfDeleteToDoRequest
          (addendpoint.DeleteToDoRequest.mk taskID))
       (addendpoint.Set_methods.DeleteToDo set taskID) "")
  /\ notions.surfaces_error (addendpoint.GetAllToDoEndpoint set)
       (addendpoint.OfGetAllToDoRequest addendpoint.GetAllToDoRequest.mk)
       (addendpoint.Set_methods.GetAllToDo set) None.
Proof.
  unfold notions.surfaces_error.
  split; [|split; [|split; [|split; [|split; [|split; [|split]]]]]]; intros;
    eapply call_over_error; eassumption.
Qed.

Lemma Set_methods_surface_endpoint_errors_witness :
  let set :=
    addendpoint.mkSet sample.refused sample.refused sample.refused
      sample.refused sample.refused sample.refused sample.refused
      sample.refused in
  addendpoint.Set_methods.Ping set sample.up
  = (Go.Ret ("", Some Go.ErrLimited), sample.up).
Proof.
  cbv zeta.
  eapply (proj1 (proj2 (proj2 (Set_methods_surface_endpoint_errors _)))).
  reflexivity.
Defined.

(** * Further properties of the server's wiring *)

(** X10.  Without a zipkin tracer, [New] builds each of the eight
    endpoints around the endpoint of its own constructor, inside a limiter
    and a circuit breaker of its own, then the tracing, the logging and the
    instrumenting layer, in that order.  Only Sum has a burst of 1; the
    others have a rate of 1 and a burst of 100.  The tracing layer of
    UnDoToDo is named ["UndoToDo"]. *)
Theorem New_without_zipkin (W : Type) (K : kit.Kit (addendpoint.Endpoint W))
  (LoggingMiddleware InstrumentingMiddleware :
     string -> addendpoint.Middleware W)
  (svc : addservice.Service W) :
  let chain :=
    notions.server_chain K LoggingMiddleware InstrumentingMiddleware in
  addendpoint.New K LoggingMiddleware InstrumentingMiddleware svc false
  = addendpoint.mkSet
      (chain 0%nat (kit.Every kit.Second) 1 "Sum" "Sum"
         (addendpoint.MakeSumEndpoint svc))
      (chain 1%nat (kit.Limit_of 1) 100 "Concat" "Concat"
         (addendpoint.MakeConcatEndpoint svc))
      (chain 2%nat (kit.Limit_of 1) 100 "Ping" "Ping"
         (addendpoint.MakePingEndpoint svc))
      (chain 3%nat (kit.Limit_of 1) 100 "AddToDo" "AddToDo"
         (addendpoint.MakeAddToDoEndpoint svc))
      (chain 4%nat (kit.Limit_of 1) 100 "CompleteToDo" "CompleteToDo"
         (addendpoint.MakeCompleteToDoEndpoint svc))
      (chain 5%nat (kit.Limit_of 1) 100 "UndoToDo" "UnDoToDo"
         (addendpoint.MakeUnDoToDoEndpoint svc))
      (chain 6%nat (kit.Limit_of 1) 100 "DeleteToDo" "DeleteToDo"
         (addendpoint.MakeDeleteToDoEndpoint svc))
      (chain 7%nat (kit.Limit_of 1) 100 "GetAllToDo" "GetAllToDo"
         (addendpoint.MakeGetAllToDoEndpoint svc)).
Proof. reflexivity. Qed.

(** X11.  With a zipkin tracer, the Ping block of [New] assigns its zipkin
    layer to the Concat variable.  The Concat endpoint of the set is then
    built around the endpoint of [MakePingEndpoint], under Ping's limiter
    and breaker and without the logging and instrumenting layers, and the
    Ping endpoint has no zipkin layer: it is the same as without a tracer.
    The Sum endpoint, as the other six, has its zipkin layer between
    tracing and logging. *)
Theorem New_with_zipkin (W : Type) (K : kit.Kit (addendpoint.Endpoint W))
  (LoggingMiddleware InstrumentingMiddleware :
     string -> addendpoint.Middleware W)
  (svc : addservice.Service W) :
  let set :=
    addendpoint.New K LoggingMiddleware InstrumentingMiddleware svc true in
  let limited (alloc : nat) (limit : kit.Limit) (burst : Z) inner :=
    kit.Gobreaker K (kit.NewCircuitBreaker alloc (kit.mkSettings "" 0))
      (kit.NewErroringLimiter K (kit.NewLimiter alloc limit burst) inner) in
  addendpoint.ConcatEndpoint set
  = kit.TraceEndpoint K "Ping"
      (kit.TraceServer K "Ping"
         (limited 2%nat (kit.Limit_of 1) 100
            (addendpoint.MakePingEndpoint svc)))
  /\ addendpoint.PingEndpoint set
     = addendpoint.PingEndpoint
         (addendpoint.New K LoggingMiddleware InstrumentingMiddleware svc
            false)
  /\ addendpoint.SumEndpoint set
     = InstrumentingMiddleware "Sum"
         (LoggingMiddleware "Sum"
            (kit.TraceEndpoint K "Sum"
               (kit.TraceServer K "Sum"
                  (limited 0%nat (kit.Every kit.Second) 1
                     (addendpoint.MakeSumEndpoint svc))))).
Proof. repeat split. Qed.

(** X11, run with middlewares that hand the request on: the server's
    Concat endpoint answers a Concat request with the state of the store. *)
Lemma New_with_zipkin_Concat_sample :
  let svc := addservice.NewBasicService 64 sample.memStore in
  let set := addendpoint.New sample.plain (fun _ e => e) (fun _ e => e) svc
               true in
  fst (addendpoint.ConcatEndpoint set
         (addendpoint.OfConcatRequest (addendpoint.ConcatRequest.mk "ab" "cd"))
         sample.up)
  = Go.Ret (addendpoint.OfConcatResponse
              (addendpoint.ConcatResponse.mk "up" None), None).
Proof. vm_compute. reflexivity. Qed.

(** * Further properties of the client's wiring *)

(** X12.  What a request passes on its way through each endpoint of the
    client.  All endpoints go through the one limiter of the client (rate
    [rate.Every(time.Second)], burst 100): Sum, Concat and Ping once, the
    four writing to-do endpoints twice and GetAllToDo three times, so a
    call of those that reaches the HTTP client has passed the shared
    limiter two or three times.  Each to-do endpoint is guarded by its own
    breaker and then by Ping's; GetAllToDo by its own, then DeleteToDo's,
    then Ping's. *)
Theorem NewHTTPClient_limiters_and_breakers
  (url_Parse : string -> kit.URL * Go.error) (zipkinTracer : bool)
  (instance : string) (set : addendpoint.Set_ kit.term) :
  addtransport.NewHTTPClient kit.term_kit url_Parse zipkinTracer instance
    = (Some set, None) ->
  let l := kit.NewLimiter 0 (kit.Every kit.Second) 100 in
  (kit.limiters (addendpoint.SumEndpoint set) = [l]
   /\ kit.limiters (addendpoint.ConcatEndpoint set) = [l]
   /\ kit.limiters (addendpoint.PingEndpoint set) = [l]
   /\ kit.limiters (addendpoint.AddToDoEndpoint set) = [l; l]
   /\ kit.limiters (addendpoint.CompleteToDoEndPoint set) = [l; l]
   /\ kit.limiters (addendpoint.UnDoToDoEndpoint set) = [l; l]
   /\ kit.limiters (addendpoint.DeleteToDoEndpoint set) = [l; l]
   /\ kit.limiters (addendpoint.GetAllToDoEndpoint set) = [l; l; l])
  /\
  (kit.breakers (addendpoint.SumEndpoint set) = ["Sum"]
   /\ kit.breakers (addendpoint.ConcatEndpoint set) = ["Concat"]
   /\ kit.breakers (addendpoint.PingEndpoint set) = ["Ping"]
   /\ kit.breakers (addendpoint.AddToDoEndpoint set) = ["AddToDo"; "Ping"]
   /\ kit.breakers (addendpoint.CompleteToDoEndPoint set)
      = ["CompleteToDo"; "Ping"]
   /\ kit.breakers (addendpoint.UnDoToDoEndpoint set) = ["UnDoToDo"; "Ping"]
   /\ kit.breakers (addendpoint.DeleteToDoEndpoint set)
      = ["DeleteToDo"; "Ping"]
   /\ kit.breakers (addendpoint.GetAllToDoEndpoint set)
      = ["GetAllToDo"; "DeleteToDo"; "Ping"]).
Proof.
  unfold addtransport.NewHTTPClient.
  destruct (url_Parse _) as [u [e|]]; [discriminate|].
  intros H. injection H as <-.
  destruct zipkinTracer; repeat split; reflexivity.
Qed.

Lemma NewHTTPClient_limiters_and_breakers_witness :
  exists set,
    addtransport.NewHTTPClient kit.term_kit sample.url_Parse true
      "localhost:8081" = (Some set, None)
    /\ kit.breakers (addendpoint.GetAllToDoEndpoint set)
       = ["GetAllToDo"; "DeleteToDo"; "Ping"].
Proof.
  eexists. split; [reflexivity|].
  apply (@NewHTTPClient_limiters_and_breakers sample.url_Parse true
           "localhost:8081" _ eq_refl).
Defined.

(** X13.  An instance that does not begin with ["http"] is given the
    scheme: the client built for it is the client built for
    ["http://" ++ instance].  (An instance that begins with ["http"], be
    it a host name, is parsed as it is.) *)
Theorem NewHTTPClient_adds_scheme (E : Type) (K : kit.Kit E)
  (url_Parse : string -> kit.URL * Go.error) (zipkinTracer : bool)
  (instance : string) :
  addtransport.HasPrefix instance "http" = false ->
  addtransport.NewHTTPClient K url_Parse zipkinTracer instance
  = addtransport.NewHTTPClient K url_Parse zipkinTracer
      ("http://" ++ instance)%string.
Proof.
  intros H. unfold addtransport.NewHTTPClient. rewrite H.
  change (addtransport.HasPrefix ("http://" ++ instance) "http") with true.
  reflexivity.
Qed.

Lemma NewHTTPClient_adds_scheme_witness :
  addtransport.NewHTTPClient kit.term_kit sample.url_Parse false
    "localhost:8081"
  = addtransport.NewHTTPClient kit.term_kit sample.url_Parse false
      "http://localhost:8081".
Proof.
  apply (@NewHTTPClient_adds_scheme _ kit.term_kit sample.url_Parse false
           "localhost:8081").
  reflexivity.
Defined.

(** X14.  [NewHTTPClient] returns a service or an error, never both and
    never neither: the error of [url.Parse] with no service, or a service
    with a nil error. *)
Theorem NewHTTPClient_service_or_error (E : Type) (K : kit.Kit E)
  (url_Parse : string -> kit.URL * Go.error) (zipkinTracer : bool)
  (instance : string) :
  let r := addtransport.NewHTTPClient K url_Parse zipkinTracer instance in
  (fst r = None /\ snd r <> None
   /\ exists s, snd r = snd (url_Parse s))
  \/ (fst r <> None /\ snd r = None).
Proof.
  cbv zeta. unfold addtransport.NewHTTPClient.
  match goal with
  | |- context [url_Parse ?s] => destruct (url_Parse s) as [u [e|]] eqn:P
  end.
  - left. repeat split; [discriminate|].
    eexists. rewrite P. reflexivity.
  - right. split; [discriminate | reflexivity].
Qed.

(** * Further properties of the transport adapter *)

Lemma encode_error_fresh (response : addendpoint.any) (err : Go.error_value)
  (hd : list (string * string)) (bd : list addtransport.json) :
  addendpoint.Failer response = Some (Some err) ->
  addtransport.encodeHTTPGenericResponse response (notions.fresh hd bd)
  = (None, notions.failed (addtransport.err2code (Some err)) err hd bd).
Proof.
  intros E. unfold addtransport.encodeHTTPGenericResponse. rewrite E.
  rewrite bind_run, errorEncoder_run. reflexivity.
Qed.

Lemma encode_value_fresh (response : addendpoint.any)
  (hd : list (string * string)) (bd : list addtransport.json) :
  addendpoint.Failer response = Some None ->
  addtransport.encodeHTTPGenericResponse response (notions.fresh hd bd)
  = (None, notions.succeeded (addtransport.Marshal response) hd bd).
Proof.
  intros E. unfold addtransport.encodeHTTPGenericResponse. rewrite E.
  reflexivity.
Qed.

Lemma err2code_other (err : Go.error) :
  ~ notions.business_error err ->
  addtransport.err2code err = addtransport.StatusInternalServerError.
Proof.
  intros Hn. unfold addtransport.err2code.
  destruct (Go.error_eqb err (Some Go.ErrTwoZeroes)
            || Go.error_eqb err (Some Go.ErrMaxSizeExceeded)
            || Go.error_eqb err (Some Go.ErrIntOverflow)) eqn:E;
    [|reflexivity].
  exfalso. apply Hn. unfold notions.business_error.
  rewrite !orb_true_iff in E.
  rewrite !error_eqb_sentinel in E by discriminate. tauto.
Qed.

(** Settles [notions.served] for an endpoint that was run down to its
    response. *)
Ltac settle_served :=
  intros w hd bd; eexists; split; [run_endpoint; reflexivity|];
  let E := fresh "E" in
  match goal with
  | |- context [snd (fst (?core w))] =>
      destruct (snd (fst (core w))) as [err|] eqn:E
  end;
  [ erewrite encode_error_fresh; [reflexivity | cbn; reflexivity]
  | erewrite encode_value_fresh; [reflexivity | cbn; reflexivity] ].

(** X15.  An endpoint and the generic encoder, one after the other, for
    every service and each of the eight operations: an error of the
    service's method is answered with the envelope of its message under
    the status of [err2code], and the value of the method is dropped; a
    value without error is answered under status 200 as the document of
    the operation: [{"v": ...}], [{"taskID": ...}] or [{"todos": ...}],
    where a nil slice of items is written as [null]. *)
Theorem endpoints_served (W : Type) (s : addservice.Service W) :
  (forall req,
     notions.served (addendpoint.MakeSumEndpoint s)
       (addendpoint.OfSumRequest req)
       (addservice.Sum s (addendpoint.SumRequest.A req)
          (addendpoint.SumRequest.B req))
       (fun v => addtransport.JObject [("v", addtransport.JNumber v)]))
  /\ (forall req,
     notions.served (addendpoint.MakeConcatEndpoint s)
       (addendpoint.OfConcatRequest req)
       (addservice.Concat s (addendpoint.ConcatRequest.A req)
          (addendpoint.ConcatRequest.B req))
       (fun v => addtransport.JObject [("v", addtransport.JString v)]))
  /\ (forall request,
     notions.served (addendpoint.MakePingEndpoint s) request
       (addservice.Ping s)
       (fun v => addtransport.JObject [("v", addtransport.JString v)]))
  /\ (forall req,
     notions.served (addendpoint.MakeAddToDoEndpoint s)
       (addendpoint.OfToDoItem req) (addservice.AddToDo s req)
       (fun v => addtransport.JObject [("taskID", addtransport.JString v)]))
  /\ (forall req,
     notions.served (addendpoint.MakeCompleteToDoEndpoint s)
       (addendpoint.OfCompleteToDoRequest req)
       (addservice.CompleteToDo s (addendpoint.CompleteToDoRequest.TaskID req))
       (fun v => addtransport.JObject [("taskID", addtransport.JString v)]))
  /\ (forall req,
     notions.served (addendpoint.MakeUnDoToDoEndpoint s)
       (addendpoint.OfUnDoToDoRequest req)
       (addservice.UnDoToDo s (addendpoint.UnDoToDoRequest.TaskID req))
       (fun v => addtransport.JObject [("taskID", addtransport.JString v)]))
  /\ (forall req,
     notions.served (addendpoint.MakeDeleteToDoEndpoint s)
       (addendpoint.OfDeleteToDoRequest req)
       (addservice.DeleteToDo s (addendpoint.DeleteToDoRequest.TaskID req))
       (fun v => addtransport.JObject [("taskID", addtransport.JString v)]))
  /\ (forall request,
     notions.served (addendpoint.MakeGetAllToDoEndpoint s) request
       (addservice.GetAllToDo s)
       (fun v =>
          addtransport.JObject
            [("todos",
              match v with
              | None => addtransport.JNull
              | Some l =>
                  addtransport.JArray (map addtransport.Marshal_ToDoItem l)
              end)])).
Proof.
  split; [|split; [|split; [|split; [|split; [|split; [|split]]]]]];
    intros r; settle_served.
Qed.

(** X16.  The Sum route over the basic service, for operands inside the
    signed 32-bit range: two zeroes are answered with status 400 and the
    envelope of [ErrTwoZeroes]; a sum outside the range with status 400 and
    the envelope of [ErrIntOverflow]; any other sum with status 200 and
    [{"v": a + b}].  The store is not touched. *)
Theorem Sum_route_answers (bits : Z) (W : Type) (dbStore : store.Store W)
  (a b : Z) (w : W) (hd : list (string * string))
  (bd : list addtransport.json) :
  Go.int_size bits ->
  addservice.intMin <= a <= addservice.intMax ->
  addservice.intMin <= b <= addservice.intMax ->
  exists response : addendpoint.any,
    addendpoint.MakeSumEndpoint (addservice.NewBasicService bits dbStore)
      (addendpoint.OfSumRequest (addendpoint.SumRequest.mk a b)) w
    = (Go.Ret (response, None), w)
    /\ addtransport.encodeHTTPGenericResponse response (notions.fresh hd bd)
       = (None,
          if (a =? 0) && (b =? 0)
          then notions.failed 400 Go.ErrTwoZeroes hd bd
          else if (a + b <? addservice.intMin) || (a + b >? addservice.intMax)
               then notions.failed 400 Go.ErrIntOverflow hd bd
               else notions.succeeded
                      (addtransport.JObject
                         [("v", addtransport.JNumber (a + b))]) hd bd).
Proof.
  intros Hs Ha Hb. eexists. split; [run_endpoint; reflexivity|].
  cbn [addendpoint.SumRequest.A addendpoint.SumRequest.B
       addservice.NewBasicService addservice.Sum].
  unfold Go.ret. cbn [fst snd].
  rewrite Sum_of_32_bit_operands by assumption.
  destruct ((a =? 0) && (b =? 0));
    [|destruct ((a + b <? addservice.intMin) || (a + b >? addservice.intMax))];
    cbn [fst snd];
    first [ erewrite encode_error_fresh; [|reflexivity]; reflexivity
          | erewrite encode_value_fresh; [|reflexivity]; reflexivity ].
Qed.

Lemma Sum_route_answers_witness :
  exists response : addendpoint.any,
    addendpoint.MakeSumEndpoint
      (addservice.NewBasicService 64 sample.memStore)
      (addendpoint.OfSumRequest (addendpoint.SumRequest.mk 2147483647 1))
      sample.up
    = (Go.Ret (response, None), sample.up)
    /\ addtransport.encodeHTTPGenericResponse response (notions.fresh [] [])
       = (None, notions.failed 400 Go.ErrIntOverflow [] []).
Proof.
  destruct (@Sum_route_answers 64 _ sample.memStore 2147483647 1 sample.up
              [] []) as [response [E1 E2]].
  - right; reflexivity.
  - int_ranges; lia.
  - int_ranges; lia.
  - exists response. split; [exact E1 | exact E2].
Defined.

Lemma basic_Ping_run (W : Type) (dbStore : store.Store W) (w : W) :
  addservice.basicService.Ping dbStore w
  = ((match fst (store.Ping dbStore w) with
      | None => "up"
      | Some _ => "down"
      end, None), snd (store.Ping dbStore w)).
Proof.
  unfold addservice.basicService.Ping. rewrite bind_run.
  destruct (fst (store.Ping dbStore w)); reflexivity.
Qed.

(** X17.  The Ping route over the basic service never answers with an
    error: whatever the request and whatever the store, the answer has
    status 200 and is [{"v": "up"}] when the store's [Ping] returned nil
    and [{"v": "down"}] when it returned an error. *)
Theorem Ping_route_answers (bits : Z) (W : Type) (dbStore : store.Store W)
  (request : addendpoint.any) (w : W) (hd : list (string * string))
  (bd : list addtransport.json) :
  exists response : addendpoint.any,
    addendpoint.MakePingEndpoint (addservice.NewBasicService bits dbStore)
      request w
    = (Go.Ret (response, None), snd (store.Ping dbStore w))
    /\ addtransport.encodeHTTPGenericResponse response (notions.fresh hd bd)
       = (None,
          notions.succeeded
            (addtransport.JObject
               [("v",
                 addtransport.JString
                   match fst (store.Ping dbStore w) with
                   | None => "up"
                   | Some _ => "down"
                   end)]) hd bd).
Proof.
  eexists. split.
  - run_endpoint. cbn [addservice.NewBasicService addservice.Ping].
    rewrite basic_Ping_run. reflexivity.
  - reflexivity.
Qed.

Lemma store_failure_shape {W R : Type} (zero : R)
  (port : Go.M W (R * Go.error)) (w : W) (err : Go.error_value) :
  snd (fst (port w)) = Some err ->
  (r <- port ;;
   match snd r with
   | Some e => Go.ret (zero, Some e)
   | None => Go.ret (fst r, None)
   end) w
  = ((zero, Some err), snd (port w)).
Proof. intros E. rewrite bind_run, E. reflexivity. Qed.

(** Settles [notions.store_failure_is_500] for a method of the basic
    service. *)
Ltac settle_store_failure :=
  intros w hd bd err Hport Hother; eexists; split;
  [ run_endpoint;
    cbn [addservice.NewBasicService addservice.AddToDo
         addservice.CompleteToDo addservice.UnDoToDo addservice.DeleteToDo
         addservice.GetAllToDo];
    unfold addservice.basicService.AddToDo,
      addservice.basicService.CompleteToDo,
      addservice.basicService.UnDoToDo,
      addservice.basicService.DeleteToDo,
      addservice.basicService.GetAllToDo;
    rewrite (store_failure_shape _ _ _ Hport); reflexivity
  | erewrite encode_error_fresh; [|reflexivity];
    rewrite (err2code_other Hother); reflexivity ].

(** X18.  A failure of the store that is not one of the three business
    errors comes out of the five to-do routes of the basic service as
    status 500 with the envelope of the store's own message; the endpoint
    itself returns a response and a nil error. *)
Theorem todo_routes_store_failure (bits : Z) (W : Type)
  (dbStore : store.Store W) :
  let svc := addservice.NewBasicService bits dbStore in
  (forall task,
     notions.store_failure_is_500 (addendpoint.MakeAddToDoEndpoint svc)
       (addendpoint.OfToDoItem task) (store.InsertToDo dbStore task))
  /\ (forall req,
     notions.store_failure_is_500 (addendpoint.MakeCompleteToDoEndpoint svc)
       (addendpoint.OfCompleteToDoRequest req)
       (store.CompleteToDo dbStore (addendpoint.CompleteToDoRequest.TaskID req)))
  /\ (forall req,
     notions.store_failure_is_500 (addendpoint.MakeUnDoToDoEndpoint svc)
       (addendpoint.OfUnDoToDoRequest req)
       (store.UnDoToDo dbStore (addendpoint.UnDoToDoRequest.TaskID req)))
  /\ (forall req,
     notions.store_failure_is_500 (addendpoint.MakeDeleteToDoEndpoint svc)
       (addendpoint.OfDeleteToDoRequest req)
       (store.DeleteToDo dbStore (addendpoint.DeleteToDoRequest.TaskID req)))
  /\ (forall request,
     notions.store_failure_is_500 (addendpoint.MakeGetAllToDoEndpoint svc)
       request (store.GetAllToDo dbStore)).
Proof.
  cbv zeta.
  split; [|split; [|split; [|split]]]; intros r; settle_store_failure.
Qed.

Lemma todo_routes_store_failure_witness :
  exists response : addendpoint.any,
    addendpoint.MakeDeleteToDoEndpoint
      (addservice.NewBasicService 64 sample.memStore)
      (addendpoint.OfDeleteToDoRequest
         (addendpoint.DeleteToDoRequest.mk "5e0f1c2b9d3e4a5b6c7d8e9f"))
      sample.down
    = (Go.Ret (response, None), sample.tick sample.down)
    /\ addtransport.encodeHTTPGenericResponse response (notions.fresh [] [])
       = (None, notions.failed 500 sample.unreachable [] []).
Proof.
  apply (proj1 (proj2 (proj2 (proj2
           (todo_routes_store_failure 64 sample.memStore))))
           (addendpoint.DeleteToDoRequest.mk "5e0f1c2b9d3e4a5b6c7d8e9f")
           sample.down [] [] sample.unreachable).
  - reflexivity.
  - intros [H | [H | H]]; discriminate H.
Defined.

(** X20.  A response whose status code is not 200 makes each of the eight
    client decoders return no response and a new error whose message is
    the status line of the response; the body, where the server wrote the
    envelope with the message of its error, is not read.  The new error is
    none of the business errors: [err2code] gives 500 for it. *)
Theorem client_decoders_reject_other_statuses (B : Type)
  (Decode : forall T : Type, T -> B -> T * Go.error)
  (r : addtransport.Response.t B) (next : positive) :
  addtransport.Response.StatusCode r <> 200 ->
  let e := Go.ErrorString next (addtransport.Response.Status r) in
  let rejected := ((addendpoint.untyped_nil, Some e), Pos.succ next) in
  addtransport.decodeHTTPSumResponse Decode r next = rejected
  /\ addtransport.decodeHTTPConcatResponse Decode r next = rejected
  /\ addtransport.decodeHTTPPingResponse Decode r next = rejected
  /\ addtransport.decodeHTTPAddToDoResponse Decode r next = rejected
  /\ addtransport.decodeHTTPCompleteToDoResponse Decode r next = rejected
  /\ addtransport.decodeHTTPUnDoToDoResponse Decode r next = rejected
  /\ addtransport.decodeHTTPDeleteToDoResponse Decode r next = rejected
  /\ addtransport.decodeHTTPGetAllToDoResponse Decode r next = rejected
  /\ addtransport.err2code (Some e) = 500.
Proof.
  intros H. cbv zeta.
  unfold addtransport.decodeHTTPSumResponse,
    addtransport.decodeHTTPConcatResponse,
    addtransport.decodeHTTPPingResponse,
    addtransport.decodeHTTPAddToDoResponse,
    addtransport.decodeHTTPCompleteToDoResponse,
    addtransport.decodeHTTPUnDoToDoResponse,
    addtransport.decodeHTTPDeleteToDoResponse,
    addtransport.decodeHTTPGetAllToDoResponse, addtransport.StatusOK.
  destruct (Z.eqb_spec (addtransport.Response.StatusCode r) 200) as [E|_];
    [exfalso; apply H, E|].
  cbn [negb]. repeat split.
Qed.

Lemma client_decoders_reject_other_statuses_witness :
  addtransport.decodeHTTPSumResponse sample.Decode
    (addtransport.Response.mk 400 "400 Bad Request" tt) 7%positive
  = ((addendpoint.untyped_nil,
      Some (Go.ErrorString 7 "400 Bad Request")), 8%positive).
Proof.
  apply (@client_decoders_reject_other_statuses unit sample.Decode
           (addtransport.Response.mk 400 "400 Bad Request" tt) 7%positive).
  discriminate.
Defined.

Lemma call_over_client_endpoint {B A : Type}
  (decode : addtransport.Response.t B ->
            Go.M positive (addendpoint.any * Go.error))
  (r : addtransport.Response.t B) (request : addendpoint.any) (zero : A)
  (assert : addendpoint.any -> option (A * Go.error)) (next : positive) :
  (forall x, snd (fst (decode r next)) = None ->
             fst (fst (decode r next)) = x -> assert x <> None) ->
  exists v err,
    fst (addendpoint.Set_methods.call (notions.client_endpoint decode r)
           request zero assert next)
    = Go.Ret (v, err).
Proof.
  intros Hassert. unfold addendpoint.Set_methods.call, notions.client_endpoint.
  rewrite !bind_run.
  destruct (snd (fst (decode r next))) as [e|] eqn:E; cbn.
  - do 2 eexists. reflexivity.
  - specialize (Hassert _ eq_refl eq_refl).
    destruct (assert (fst (fst (decode r next)))) as [[v err]|];
      [|exfalso; apply Hassert; reflexivity].
    do 2 eexists. reflexivity.
Qed.

(** Unfolds a client decoder down to the response it returns. *)
Ltac run_decoder Decode :=
  unfold addtransport.decodeHTTPSumResponse,
    addtransport.decodeHTTPConcatResponse,
    addtransport.decodeHTTPPingResponse,
    addtransport.decodeHTTPAddToDoResponse,
    addtransport.decodeHTTPCompleteToDoResponse,
    addtransport.decodeHTTPUnDoToDoResponse,
    addtransport.decodeHTTPDeleteToDoResponse,
    addtransport.decodeHTTPGetAllToDoResponse;
  match goal with
  | |- context [negb ?c] => destruct c
  end; cbn [negb];
  [ match goal with
    | |- context [Decode ?T ?zero ?body] =>
        destruct (Decode T zero body) as [? [?|]]
    end
  | ]; cbn; intros; subst; try discriminate.

(** X21.  Over HTTP no method of the set panics: whatever response the
    remote gave, each of the eight methods, called on a set whose endpoint
    ends in the decoder of its operation, returns a value and an error.
    The response a decoder returns with a nil error always has the type
    the method asserts, Ping included. *)
Theorem Set_over_http_never_panics (B : Type)
  (Decode : forall T : Type, T -> B -> T * Go.error)
  (r : addtransport.Response.t B) (next : positive) :
  let set :=
    addendpoint.mkSet
      (notions.client_endpoint (addtransport.decodeHTTPSumResponse Decode) r)
      (notions.client_endpoint (addtransport.decodeHTTPConcatResponse Decode)
         r)
      (notions.client_endpoint (addtransport.decodeHTTPPingResponse Decode) r)
      (notions.client_endpoint (addtransport.decodeHTTPAddToDoResponse Decode)
         r)
      (notions.client_endpoint
         (addtransport.decodeHTTPCompleteToDoResponse Decode) r)
      (notions.client_endpoint (addtransport.decodeHTTPUnDoToDoResponse Decode)
         r)
      (notions.client_endpoint
         (addtransport.decodeHTTPDeleteToDoResponse Decode) r)
      (notions.client_endpoint
         (addtransport.decodeHTTPGetAllToDoResponse Decode) r) in
  (forall a b, exists v err,
     fst (addendpoint.Set_methods.Sum set a b next) = Go.Ret (v, err))
  /\ (forall a b, exists v err,
     fst (addendpoint.Set_methods.Concat set a b next) = Go.Ret (v, err))
  /\ (exists v err,
     fst (addendpoint.Set_methods.Ping set next) = Go.Ret (v, err))
  /\ (forall task, exists v err,
     fst (addendpoint.Set_methods.AddToDo set task next) = Go.Ret (v, err))
  /\ (forall taskID, exists v err,
     fst (addendpoint.Set_methods.CompleteToDo set taskID next)
     = Go.Ret (v, err))
  /\ (forall taskID, exists v err,
     fst (addendpoint.Set_methods.UnDoToDo set taskID next) = Go.Ret (v, err))
  /\ (forall taskID, exists v err,
     fst (addendpoint.Set_methods.DeleteToDo set taskID next)
     = Go.Ret (v, err))
  /\ (exists v err,
     fst (addendpoint.Set_methods.GetAllToDo set next) = Go.Ret (v, err)).
Proof.
  cbv zeta.
  unfold addendpoint.Set_methods.Sum, addendpoint.Set_methods.Concat,
    addendpoint.Set_methods.Ping, addendpoint.Set_methods.AddToDo,
    addendpoint.Set_methods.CompleteToDo, addendpoint.Set_methods.UnDoToDo,
    addendpoint.Set_methods.DeleteToDo, addendpoint.Set_methods.GetAllToDo.
  cbn [addendpoint.SumEndpoint addendpoint.ConcatEndpoint
       addendpoint.PingEndpoint addendpoint.AddToDoEndpoint
       addendpoint.CompleteToDoEndPoint addendpoint.UnDoToDoEndpoint
       addendpoint.DeleteToDoEndpoint addendpoint.GetAllToDoEndpoint].
  split; [|split; [|split; [|split; [|split; [|split; [|split]]]]]]; intros;
    apply call_over_client_endpoint; run_decoder Decode.
Qed.

(** Settles the third part of [notions.route_sound] for a route over the
    endpoint of a constructor. *)
Ltac settle_route Decode :=
  intros r w;
  unfold addtransport.decodeHTTPSumRequest,
    addtransport.decodeHTTPConcatRequest, addtransport.decodeHTTPPingRequest,
    addtransport.decodeHTTPAddToDoRequest,
    addtransport.decodeHTTPCompleteToDoRequest,
    addtransport.decodeHTTPUnDoToDoRequest,
    addtransport.decodeHTTPDeleteToDoRequest,
    addtransport.decodeHTTPGetAllToDoRequest;
  try match goal with
      | |- context [Decode ?T ?zero ?body] =>
          destruct (Decode T zero body) as [? ?]
      end;
  cbn [fst]; run_endpoint; do 2 eexists; reflexivity.

(** X22.  [NewHTTPHandler] registers eight routes and does not panic, the
    eight patterns being different.  Over the endpoints of the
    constructors every route is sound: its responses go through the
    generic encoder, its errors through [errorEncoder], and the request
    its decoder returns, whatever the body and whether or not decoding
    failed, has the type its endpoint asserts, so that the endpoint
    answers with a response and a nil error instead of a panic. *)
Theorem NewHTTPHandler_routes_sound (W B : Type)
  (Decode : forall T : Type, T -> B -> T * Go.error)
  (s : addservice.Service W) (zipkinTracer : bool) :
  let endpoints :=
    addendpoint.mkSet (addendpoint.MakeSumEndpoint s)
      (addendpoint.MakeConcatEndpoint s) (addendpoint.MakePingEndpoint s)
      (addendpoint.MakeAddToDoEndpoint s)
      (addendpoint.MakeCompleteToDoEndpoint s)
      (addendpoint.MakeUnDoToDoEndpoint s)
      (addendpoint.MakeDeleteToDoEndpoint s)
      (addendpoint.MakeGetAllToDoEndpoint s) in
  exists m : list (string * addtransport.Server W B),
    addtransport.NewHTTPHandler Decode endpoints zipkinTracer = Go.Ret m
    /\ map fst m
       = ["/getAllToDo"; "/deleteToDo"; "/unDoToDo"; "/completeToDo";
          "/addToDo"; "/ping"; "/concat"; "/sum"]
    /\ Forall (fun route => notions.route_sound (snd route)) m.
Proof.
  cbv zeta. destruct zipkinTracer;
    (eexists; split; [reflexivity|]; split; [reflexivity|];
     repeat apply Forall_cons; try apply Forall_nil;
     (split; [reflexivity|]; split; [cbn; tauto|]);
     cbn [snd addtransport.e addtransport.dec addendpoint.SumEndpoint
          addendpoint.ConcatEndpoint addendpoint.PingEndpoint
          addendpoint.AddToDoEndpoint addendpoint.CompleteToDoEndPoint
          addendpoint.UnDoToDoEndpoint addendpoint.DeleteToDoEndpoint
          addendpoint.GetAllToDoEndpoint];
     settle_route Decode).
Qed.

(** * Properties of the store over a document collection *)

(** X23.  [CompleteToDo], [UnDoToDo] and [DeleteToDo] of the store.  A
    task identifier that [ObjectIDFromHex] rejects is answered with that
    error and the empty string, and the collection is not called: the
    world stays as it is.  For an identifier it accepts, the collection is
    called once, with the filter on the parsed identifier and, for the two
    updates, [status] set to true respectively false; an error of the
    collection is returned with the empty string; otherwise the identifier
    is returned as it was given, whatever the result says, also when it
    counts no matched or deleted document. *)
Theorem mongoStore_by_id_methods (W : Type)
  (ObjectIDFromHex : string -> string * Go.error)
  (m : store.mongoStore W) (taskId : string) (w : W) :
  let run (call : Go.M W (string * Go.error)) {R : Type}
          (collection_call : string -> Go.M W (R * Go.error)) :=
    (forall err,
       snd (ObjectIDFromHex taskId) = Some err ->
       call w = (("", Some err), w))
    /\ (forall id err res w',
       ObjectIDFromHex taskId = (id, None) ->
       collection_call id w = ((res, Some err), w') ->
       call w = (("", Some err), w'))
    /\ (forall id res w',
       ObjectIDFromHex taskId = (id, None) ->
       collection_call id w = ((res, None), w') ->
       call w = ((taskId, None), w')) in
  run (store.mongoStore_CompleteToDo ObjectIDFromHex m taskId)
      (fun id =>
         store.UpdateOne (store.collection m) (store.by_id id)
           (store.set_status true))
  /\ run (store.mongoStore_UnDoToDo ObjectIDFromHex m taskId)
       (fun id =>
          store.UpdateOne (store.collection m) (store.by_id id)
            (store.set_status false))
  /\ run (store.mongoStore_DeleteToDo ObjectIDFromHex m taskId)
       (fun id => store.DeleteOne (store.collection m) (store.by_id id)).
Proof.
  cbv zeta.
  unfold store.mongoStore_CompleteToDo, store.mongoStore_UnDoToDo,
    store.mongoStore_DeleteToDo.
  repeat apply conj; intros;
    match goal with
    | H : snd (ObjectIDFromHex taskId) = Some _ |- _ =>
        destruct (ObjectIDFromHex taskId) as [? ?]; cbn [snd] in H;
        rewrite H; reflexivity
    | H : ObjectIDFromHex taskId = (_, None), C : _ = (_, _) |- _ =>
        rewrite H, bind_run, C; reflexivity
    end.
Qed.

Lemma mongoStore_by_id_methods_witness :
  store.mongoStore_DeleteToDo sample.ObjectIDFromHex sample.mongo
    "5e0f1c2b9d3e4a5b6c7d8e9f" 0%nat
  = (("5e0f1c2b9d3e4a5b6c7d8e9f", None), 1%nat).
Proof.
  eapply (proj2 (proj2 (proj2 (proj2
            (@mongoStore_by_id_methods nat sample.ObjectIDFromHex sample.mongo
               "5e0f1c2b9d3e4a5b6c7d8e9f" 0%nat)))));
    reflexivity.
Defined.

(** X24.  [InsertToDo] of the store calls [InsertOne] once.  Its error is
    returned with the empty string; an inserted identifier that is an
    [ObjectID] is returned in hexadecimal with a nil error; an inserted
    identifier of another type is answered with the new error
    ["Malform InsertID"] and the empty string, after the collection has
    taken the document. *)
Theorem mongoStore_InsertToDo_results (W : Type)
  (errors_New : string -> Go.M W Go.error_value)
  (m : store.mongoStore W) (task : models.ToDoItem) (w w' : W)
  (res : store.InsertOneResult) (err : Go.error) :
  store.InsertOne (store.collection m) task w = ((res, err), w') ->
  store.mongoStore_InsertToDo errors_New m task w
  = match err, store.InsertedID res with
    | Some e, _ => (("", Some e), w')
    | None, Some objID => ((objID, None), w')
    | None, None =>
        (("", Some (fst (errors_New "Malform InsertID" w'))),
         snd (errors_New "Malform InsertID" w'))
    end.
Proof.
  intros E. unfold store.mongoStore_InsertToDo. rewrite bind_run, E.
  cbn [fst snd]. destruct err as [e|]; [reflexivity|].
  destruct (store.InsertedID res); [reflexivity|].
  rewrite bind_run. reflexivity.
Qed.

Lemma mongoStore_InsertToDo_results_witness :
  store.mongoStore_InsertToDo sample.errors_New sample.mongo
    (models.mkToDoItem "" "buy milk" false) 0%nat
  = (("", Some (Go.ErrorString 9 "Malform InsertID")), 1%nat).
Proof.
  exact (@mongoStore_InsertToDo_results nat sample.errors_New sample.mongo
           (models.mkToDoItem "" "buy milk" false) 0%nat 1%nat
           (store.mkInsertOneResult None) None eq_refl).
Defined.

Lemma append_items (items l : list models.ToDoItem) :
  fold_left store.append_item items (Some l) = Some (l ++ items).
Proof.
  revert l. induction items as [|x items IH]; intros l; cbn.
  - rewrite app_nil_r. reflexivity.
  - rewrite IH, <- app_assoc. reflexivity.
Qed.

Lemma append_items_nil (items : list models.ToDoItem) :
  fold_left store.append_item items None
  = match items with [] => None | _ :: _ => Some items end.
Proof. destruct items as [|x items]; [reflexivity|]. cbn. apply append_items. Qed.

Lemma scan_decoded (decoded : list models.ToDoItem)
  (rest : list (models.ToDoItem * Go.error))
  (results : option (list models.ToDoItem)) :
  store.scan (map (fun item => (item, None)) decoded ++ rest) results
  = store.scan rest (fold_left store.append_item decoded results).
Proof.
  revert results. induction decoded as [|x decoded IH]; intros results; cbn.
  - reflexivity.
  - apply IH.
Qed.

Lemma GetAllToDo_over_cursor (W : Type) (m : store.mongoStore W) (w w1 : W)
  (cur : store.Cursor W) :
  store.Find (store.collection m) w = ((cur, None), w1) ->
  store.mongoStore_GetAllToDo m w
  = (match store.scan (store.documents cur) None with
     | (_, Some err) => (None, Some err)
     | (results, None) =>
         match store.Err cur with
         | Some err => (None, Some err)
         | None => (results, None)
         end
     end, snd (store.Close cur w1)).
Proof.
  intros E. unfold store.mongoStore_GetAllToDo. rewrite bind_run, E.
  cbn [fst snd]. rewrite with_defer_run. run_binds. reflexivity.
Qed.

(** X25.  [GetAllToDo] of the store.  When [Find] fails its error is
    returned with a nil slice and no cursor is closed.  Once [Find] has
    given a cursor, the cursor is closed once, after the loop, on every
    path.  The first document that does not decode ends the call with
    that error and a nil slice: the items decoded before it are dropped.
    When all documents decode, the error of the cursor, if any, is
    returned with a nil slice; otherwise the items are returned in the
    order of the cursor, and no document at all gives a nil slice. *)
Theorem mongoStore_GetAllToDo_results (W : Type) (m : store.mongoStore W)
  (w w1 : W) (cur : store.Cursor W) :
  (forall err,
     store.Find (store.collection m) w = ((cur, Some err), w1) ->
     store.mongoStore_GetAllToDo m w = ((None, Some err), w1))
  /\
  (store.Find (store.collection m) w = ((cur, None), w1) ->
   snd (store.mongoStore_GetAllToDo m w) = snd (store.Close cur w1)
   /\ (forall decoded item err rest,
         store.documents cur
         = map (fun item => (item, None)) decoded ++ (item, Some err) :: rest ->
         fst (store.mongoStore_GetAllToDo m w) = (None, Some err))
   /\ (forall decoded,
         store.documents cur = map (fun item => (item, None)) decoded ->
         fst (store.mongoStore_GetAllToDo m w)
         = match store.Err cur with
           | Some err => (None, Some err)
           | None =>
               (match decoded with [] => None | _ :: _ => Some decoded end,
                None)
           end)).
Proof.
  split.
  - intros err E. unfold store.mongoStore_GetAllToDo.
    rewrite bind_run, E. reflexivity.
  - intros E. rewrite (GetAllToDo_over_cursor _ _ E). cbn [fst snd].
    split; [reflexivity|]. split.
    + intros decoded item err rest D. rewrite D, scan_decoded. reflexivity.
    + intros decoded D. rewrite D.
      rewrite <- (app_nil_r (map _ decoded)), scan_decoded.
      cbn [store.scan]. rewrite append_items_nil. reflexivity.
Qed.

Lemma mongoStore_GetAllToDo_results_witness :
  store.mongoStore_GetAllToDo sample.mongo 0%nat = ((None, None), 2%nat).
Proof.
  pose proof (proj2 (@mongoStore_GetAllToDo_results nat sample.mongo 0%nat
                       1%nat (store.mkCursor [] None (fun n => (None, S n))))
                eq_refl) as [Hw [_ Hr]].
  specialize (Hr [] eq_refl).
  rewrite (surjective_pairing (store.mongoStore_GetAllToDo sample.mongo 0%nat)).
  rewrite Hw, Hr. reflexivity.
Defined.

(** X26.  The GetAllToDo route over the basic service and the store, when
    the collection has no documents: the answer has status 200 and the
    body [{"todos": null}], not an empty array, since the slice that no
    item was appended to is nil. *)
Theorem GetAllToDo_route_empty_collection (bits : Z) (W : Type)
  (ObjectIDFromHex : string -> string * Go.error)
  (errors_New : string -> Go.M W Go.error_value)
  (m : store.mongoStore W) (request : addendpoint.any) (w w1 : W)
  (cur : store.Cursor W) (hd : list (string * string))
  (bd : list addtransport.json) :
  store.Find (store.collection m) w = ((cur, None), w1) ->
  store.documents cur = [] ->
  store.Err cur = None ->
  exists response : addendpoint.any,
    addendpoint.MakeGetAllToDoEndpoint
      (addservice.NewBasicService bits
         (store.Store_of ObjectIDFromHex errors_New m)) request w
    = (Go.Ret (response, None), snd (store.Close cur w1))
    /\ addtransport.encodeHTTPGenericResponse response (notions.fresh hd bd)
       = (None,
          notions.succeeded
            (addtransport.JObject [("todos", addtransport.JNull)]) hd bd).
Proof.
  intros E D C.
  assert (G : addservice.basicService.GetAllToDo
                (store.Store_of ObjectIDFromHex errors_New m) w
              = ((None, None), snd (store.Close cur w1))).
  { unfold addservice.basicService.GetAllToDo. rewrite bind_run.
    cbn [store.GetAllToDo store.Store_of].
    rewrite (GetAllToDo_over_cursor _ _ E), D, C. reflexivity. }
  eexists. split.
  - run_endpoint. cbn [addservice.NewBasicService addservice.GetAllToDo].
    rewrite G. reflexivity.
  - reflexivity.
Qed.

Lemma GetAllToDo_route_empty_collection_witness :
  exists response : addendpoint.any,
    addendpoint.MakeGetAllToDoEndpoint
      (addservice.NewBasicService 64
         (store.Store_of sample.ObjectIDFromHex sample.errors_New sample.mongo))
      (addendpoint.OfGetAllToDoRequest addendpoint.GetAllToDoRequest.mk)
      0%nat
    = (Go.Ret (response, None), 2%nat)
    /\ addtransport.encodeHTTPGenericResponse response (notions.fresh [] [])
       = (None,
          notions.succeeded
            (addtransport.JObject [("todos", addtransport.JNull)]) [] []).
Proof.
  exact (@GetAllToDo_route_empty_collection 64 nat sample.ObjectIDFromHex
           sample.errors_New sample.mongo
           (addendpoint.OfGetAllToDoRequest addendpoint.GetAllToDoRequest.mk)
           0%nat 1%nat (store.mkCursor [] None (fun n => (None, S n)))
           [] [] eq_refl eq_refl eq_refl).
Defined.

(** X27.  The basic service as [NewBasicService] builds it drops the
    error of [NewMongoStore].  When connecting fails, or when the [Ping]
    that follows it fails, the service is returned all the same, with a
    nil store behind it; when both succeed the store holds the client
    and its collection ["todolist"] of ["gokit-test"].  Behind a nil
    store the six methods that call the store panic when they are used,
    [Ping] included, and leave the world as it was, while [Sum] and
    [Concat], which do not call it, return what they return with any
    store.  Behind a store that is there, the six methods return what
    the methods of [basicService] return over that store. *)
Theorem NewBasicService_at_start (bits : Z) (W : Type)
  (mongo_Connect : string -> Go.M W (store.Client W * Go.error))
  (ObjectIDFromHex : string -> string * Go.error)
  (errors_New : string -> Go.M W Go.error_value) (w : W) :
  let dbStore_of m := store.Store_of ObjectIDFromHex errors_New m in
  let returned {A : Type} (r : Go.M W A) : Go.M W (Go.outcome A) :=
    a <- r ;; Go.ret (Go.Ret a) in
  (forall c err w1,
     mongo_Connect "mongodb://localhost:27017" w = ((c, Some err), w1) ->
     addservice.NewBasicService_dbStore mongo_Connect w = (None, w1))
  /\ (forall c err w1 w2,
     mongo_Connect "mongodb://localhost:27017" w = ((c, None), w1) ->
     store.client_Ping c w1 = (Some err, w2) ->
     addservice.NewBasicService_dbStore mongo_Connect w = (None, w2))
  /\ (forall c w1 w2,
     mongo_Connect "mongodb://localhost:27017" w = ((c, None), w1) ->
     store.client_Ping c w1 = (None, w2) ->
     addservice.NewBasicService_dbStore mongo_Connect w
     = (Some {| store.client := c;
                store.collection :=
                  store.Database_Collection c "gokit-test" "todolist" |},
        w2))
  /\ (addservice.started_Ping None w = (addservice.nil_receiver, w)
      /\ (forall task,
            addservice.started_AddToDo errors_New None task w
            = (addservice.nil_receiver, w))
      /\ (forall taskID,
            addservice.started_CompleteToDo ObjectIDFromHex None taskID w
            = (addservice.nil_receiver, w))
      /\ (forall taskID,
            addservice.started_UnDoToDo ObjectIDFromHex None taskID w
            = (addservice.nil_receiver, w))
      /\ (forall taskID,
            addservice.started_DeleteToDo ObjectIDFromHex None taskID w
            = (addservice.nil_receiver, w))
      /\ addservice.started_GetAllToDo None w = (addservice.nil_receiver, w))
  /\ ((forall a b,
         addservice.started_Sum bits a b w
         = (Go.Ret (addservice.basicService.Sum bits a b), w))
      /\ (forall a b,
            addservice.started_Concat bits a b w
            = (Go.Ret (addservice.basicService.Concat bits a b), w)))
  /\ (forall m,
        addservice.started_Ping (Some m) w
        = returned (addservice.basicService.Ping (dbStore_of m)) w
        /\ (forall task,
              addservice.started_AddToDo errors_New (Some m) task w
              = returned (addservice.basicService.AddToDo (dbStore_of m) task)
                  w)
        /\ (forall taskID,
              addservice.started_CompleteToDo ObjectIDFromHex (Some m)
                taskID w
              = returned
                  (addservice.basicService.CompleteToDo (dbStore_of m) taskID)
                  w)
        /\ (forall taskID,
              addservice.started_UnDoToDo ObjectIDFromHex (Some m) taskID w
              = returned
                  (addservice.basicService.UnDoToDo (dbStore_of m) taskID) w)
        /\ (forall taskID,
              addservice.started_DeleteToDo ObjectIDFromHex (Some m) taskID w
              = returned
                  (addservice.basicService.DeleteToDo (dbStore_of m) taskID)
                  w)
        /\ addservice.started_GetAllToDo (Some m) w
           = returned (addservice.basicService.GetAllToDo (dbStore_of m)) w)
  /\ (forall c w1 w2,
     mongo_Connect "mongodb://localhost:27017" w = ((c, None), w1) ->
     store.client_Ping c w1 = (None, w2) ->
     (p <- addservice.NewBasicService_dbStore mongo_Connect ;;
      addservice.started_Ping p) w
     = (Go.Ret (match fst (store.client_Ping c w2) with
                | None => "up"
                | Some _ => "down"
                end, None),
        snd (store.client_Ping c w2))).
Proof.
  cbv zeta.
  assert (Hconnect : forall c w1 w2,
    mongo_Connect "mongodb://localhost:27017" w = ((c, None), w1) ->
    store.client_Ping c w1 = (None, w2) ->
    addservice.NewBasicService_dbStore mongo_Connect w
    = (Some {| store.client := c;
               store.collection :=
                 store.Database_Collection c "gokit-test" "todolist" |},
       w2)).
  { intros c w1 w2 H H0.
    unfold addservice.NewBasicService_dbStore, store.NewMongoStore.
    rewrite !bind_run, H. cbn [fst snd]. rewrite bind_run, H0.
    reflexivity. }
  split; [|split; [|split; [exact Hconnect|split; [|split; [|split]]]]].
  - intros c err w1 H.
    unfold addservice.NewBasicService_dbStore, store.NewMongoStore.
    rewrite !bind_run, H. reflexivity.
  - intros c err w1 w2 H H0.
    unfold addservice.NewBasicService_dbStore, store.NewMongoStore.
    rewrite !bind_run, H. cbn [fst snd]. rewrite bind_run, H0.
    reflexivity.
  - repeat apply conj; intros; reflexivity.
  - split; intros; reflexivity.
  - intros m.
    unfold addservice.started_Ping, addservice.started_AddToDo,
      addservice.started_CompleteToDo, addservice.started_UnDoToDo,
      addservice.started_DeleteToDo, addservice.started_GetAllToDo,
      addservice.dbStore_call, addservice.basicService.Ping,
      addservice.basicService.AddToDo, addservice.basicService.CompleteToDo,
      addservice.basicService.UnDoToDo, addservice.basicService.DeleteToDo,
      addservice.basicService.GetAllToDo, addservice.or_zero.
    cbn [store.Store_of store.Ping store.InsertToDo store.CompleteToDo
         store.UnDoToDo store.DeleteToDo store.GetAllToDo].
    repeat apply conj; intros; rewrite !bind_run; cbn [Go.ret fst snd].
    + destruct (fst (store.mongoStore_Ping m w)); reflexivity.
    + destruct (store.mongoStore_InsertToDo errors_New m task w)
        as [[v [e|]] w']; reflexivity.
    + destruct (store.mongoStore_CompleteToDo ObjectIDFromHex m taskID w)
        as [[v [e|]] w']; reflexivity.
    + destruct (store.mongoStore_UnDoToDo ObjectIDFromHex m taskID w)
        as [[v [e|]] w']; reflexivity.
    + destruct (store.mongoStore_DeleteToDo ObjectIDFromHex m taskID w)
        as [[v [e|]] w']; reflexivity.
    + destruct (store.mongoStore_GetAllToDo m w) as [[v [e|]] w'];
        reflexivity.
  - intros c w1 w2 H H0. rewrite bind_run, (Hconnect c w1 w2 H H0).
    cbn [fst snd]. unfold addservice.started_Ping, addservice.dbStore_call.
    rewrite !bind_run. cbn [Go.ret fst snd store.mongoStore_Ping store.client].
    unfold store.mongoStore_Ping. cbn [store.client].
    destruct (store.client_Ping c w2) as [[e|] w3]; reflexivity.
Qed.

Lemma NewBasicService_at_start_witness :
  addservice.NewBasicService_dbStore sample.mongo_Connect 0%nat
  = (None, 2%nat).
Proof.
  eapply (proj1 (proj2 (@NewBasicService_at_start 64 nat sample.mongo_Connect
                          sample.ObjectIDFromHex sample.errors_New 0%nat)));
    reflexivity.
Defined.

(** * The rate limiter of the Sum endpoint *)

Lemma Allow_full_one (a : nat) (now : Z) :
  ratelimit.Allow (kit.NewLimiter a (kit.Every kit.Second) 1) now
    (ratelimit.full (kit.NewLimiter a (kit.Every kit.Second) 1))
  = (true, {| ratelimit.credit := 0; ratelimit.last := now |}).
Proof.
  unfold ratelimit.Allow, ratelimit.refilled, ratelimit.full,
    ratelimit.capacity, ratelimit.token, ratelimit.refill, kit.Second.
  cbn [kit.limit kit.burst fst snd ratelimit.credit ratelimit.last].
  replace (Z.min (1 * 1000000000)
             (1 * 1000000000 + 1 * Z.max 0 (now - 0)))
    with 1000000000 by lia.
  reflexivity.
Qed.

Lemma Allow_emptied_one (a : nat) (t now : Z) :
  ratelimit.Allow (kit.NewLimiter a (kit.Every kit.Second) 1) now
    {| ratelimit.credit := 0; ratelimit.last := t |}
  = if t + kit.Second <=? now
    then (true, {| ratelimit.credit := 0; ratelimit.last := now |})
    else (false, {| ratelimit.credit := 0; ratelimit.last := t |}).
Proof.
  unfold ratelimit.Allow, ratelimit.refilled, ratelimit.capacity,
    ratelimit.token, ratelimit.refill, kit.Second.
  cbn [kit.limit kit.burst fst snd ratelimit.credit ratelimit.last].
  destruct (Z.leb_spec (t + 1000000000) now) as [Hle|Hlt].
  - replace (Z.min (1 * 1000000000) (0 + 1 * Z.max 0 (now - t)))
      with 1000000000 by lia.
    reflexivity.
  - destruct (Z.leb_spec 1000000000
                (Z.min (1 * 1000000000) (0 + 1 * Z.max 0 (now - t))))
      as [Hc|Hc]; [lia | reflexivity].
Qed.

Lemma limited_first_call (W : Type) (time_Now : W -> Z)
  (bucket : nat -> W -> ratelimit.Bucket)
  (set_bucket : nat -> ratelimit.Bucket -> W -> W)
  (next : addendpoint.Endpoint W) (request : addendpoint.any) (w : W) :
  let lim := kit.NewLimiter 0 (kit.Every kit.Second) 1 in
  bucket 0%nat w = ratelimit.full lim ->
  ratelimit.NewErroringLimiter time_Now bucket set_bucket lim next request w
  = next request
      (set_bucket 0%nat
         {| ratelimit.credit := 0; ratelimit.last := time_Now w |} w).
Proof.
  cbv zeta. intros Hfull. unfold ratelimit.NewErroringLimiter.
  cbn [kit.limiter_alloc]. rewrite Hfull, Allow_full_one. reflexivity.
Qed.

Lemma limited_next_call (W : Type) (time_Now : W -> Z)
  (bucket : nat -> W -> ratelimit.Bucket)
  (set_bucket : nat -> ratelimit.Bucket -> W -> W)
  (next : addendpoint.Endpoint W) (request : addendpoint.any) (t : Z)
  (w : W) :
  let lim := kit.NewLimiter 0 (kit.Every kit.Second) 1 in
  bucket 0%nat w = {| ratelimit.credit := 0; ratelimit.last := t |} ->
  ratelimit.NewErroringLimiter time_Now bucket set_bucket lim next request w
  = if t + kit.Second <=? time_Now w
    then next request
           (set_bucket 0%nat
              {| ratelimit.credit := 0; ratelimit.last := time_Now w |} w)
    else (Go.Ret (addendpoint.untyped_nil, Some Go.ErrLimited), w).
Proof.
  cbv zeta. intros Hb. unfold ratelimit.NewErroringLimiter.
  cbn [kit.limiter_alloc]. rewrite Hb, Allow_emptied_one.
  destruct (t + kit.Second <=? time_Now w); reflexivity.
Qed.

(** C9.  The Sum endpoint of the server's set is the endpoint of
    [MakeSumEndpoint] inside a limiter of its own, built with
    [rate.Every(time.Second)] and a burst of 1, inside the circuit
    breaker, tracing, logging and instrumenting layers.  Through that
    limiter, the first call, which finds the bucket full, is admitted: it
    is the call of the wrapped endpoint once the one token is taken.  A
    second call less than a second later, nothing but the wrapped
    endpoint having run in between and the wrapped endpoint leaving the
    bucket alone, is refused: it returns a nil response and [ErrLimited]
    in the world it was made in, whatever the wrapped endpoint is, so
    that endpoint is not called and no time passes.  A second call a
    second later or more is admitted again. *)
Theorem Sum_endpoint_rate_limited (W : Type) (time_Now : W -> Z)
  (bucket : nat -> W -> ratelimit.Bucket)
  (set_bucket : nat -> ratelimit.Bucket -> W -> W)
  (K : kit.Kit (addendpoint.Endpoint W))
  (LoggingMiddleware InstrumentingMiddleware :
     string -> addendpoint.Middleware W)
  (svc : addservice.Service W) (zipkinTracer : bool) :
  let lim := kit.NewLimiter 0 (kit.Every kit.Second) 1 in
  let limited :=
    ratelimit.NewErroringLimiter time_Now bucket set_bucket lim
      (addendpoint.MakeSumEndpoint svc) in
  let traced :=
    kit.TraceServer K "Sum"
      (kit.Gobreaker K (kit.NewCircuitBreaker 0 (kit.mkSettings "" 0))
         limited) in
  let taken (w : W) :=
    set_bucket 0%nat
      {| ratelimit.credit := 0; ratelimit.last := time_Now w |} w in
  let refused (w : W) :=
    (Go.Ret (addendpoint.untyped_nil, Some Go.ErrLimited), w) in
  addendpoint.SumEndpoint
    (addendpoint.New
       (ratelimit.with_limiter time_Now bucket set_bucket K)
       LoggingMiddleware InstrumentingMiddleware svc zipkinTracer)
  = InstrumentingMiddleware "Sum"
      (LoggingMiddleware "Sum"
         (if zipkinTracer then kit.TraceEndpoint K "Sum" traced else traced))
  /\ (forall request w1,
        bucket 0%nat w1 = ratelimit.full lim ->
        limited request w1
        = addendpoint.MakeSumEndpoint svc request (taken w1))
  /\ (forall request request' w1 w2,
        ratelimit.buckets_kept bucket set_bucket ->
        ratelimit.leaves_bucket bucket 0 (addendpoint.MakeSumEndpoint svc) ->
        bucket 0%nat w1 = ratelimit.full lim ->
        bucket 0%nat w2 = bucket 0%nat (snd (limited request w1)) ->
        time_Now w2 < time_Now w1 + kit.Second ->
        limited request' w2 = refused w2
        /\ forall next,
             ratelimit.NewErroringLimiter time_Now bucket set_bucket lim
               next request' w2
             = refused w2)
  /\ (forall request request' w1 w2,
        ratelimit.buckets_kept bucket set_bucket ->
        ratelimit.leaves_bucket bucket 0 (addendpoint.MakeSumEndpoint svc) ->
        bucket 0%nat w1 = ratelimit.full lim ->
        bucket 0%nat w2 = bucket 0%nat (snd (limited request w1)) ->
        time_Now w1 + kit.Second <= time_Now w2 ->
        limited request' w2
        = addendpoint.MakeSumEndpoint svc request' (taken w2)).
Proof.
  cbv zeta.
  assert (Hleft : forall request w1 w2,
    ratelimit.buckets_kept bucket set_bucket ->
    ratelimit.leaves_bucket bucket 0 (addendpoint.MakeSumEndpoint svc) ->
    bucket 0%nat w1
    = ratelimit.full (kit.NewLimiter 0 (kit.Every kit.Second) 1) ->
    bucket 0%nat w2
    = bucket 0%nat
        (snd (ratelimit.NewErroringLimiter time_Now bucket set_bucket
                (kit.NewLimiter 0 (kit.Every kit.Second) 1)
                (addendpoint.MakeSumEndpoint svc) request w1)) ->
    bucket 0%nat w2
    = {| ratelimit.credit := 0; ratelimit.last := time_Now w1 |}).
  { intros request w1 w2 Hkept Hleaves Hfull Hw2.
    rewrite Hw2,
      (@limited_first_call W time_Now bucket set_bucket _ request w1 Hfull).
    rewrite Hleaves. apply Hkept. }
  split; [|split; [|split]].
  - destruct zipkinTracer; reflexivity.
  - intros request w1 Hfull. apply limited_first_call. exact Hfull.
  - intros request request' w1 w2 Hkept Hleaves Hfull Hw2 Hsoon.
    pose proof (Hleft request w1 w2 Hkept Hleaves Hfull Hw2) as Hb.
    assert (Hlate : (time_Now w1 + kit.Second <=? time_Now w2) = false)
      by (apply Z.leb_gt; exact Hsoon).
    split; [|intros next];
      rewrite (@limited_next_call W time_Now bucket set_bucket _ request'
                 (time_Now w1) w2 Hb), Hlate; reflexivity.
  - intros request request' w1 w2 Hkept Hleaves Hfull Hw2 Hlater.
    pose proof (Hleft request w1 w2 Hkept Hleaves Hfull Hw2) as Hb.
    assert (Hlate : (time_Now w1 + kit.Second <=? time_Now w2) = true)
      by (apply Z.leb_le; exact Hlater).
    rewrite (@limited_next_call W time_Now bucket set_bucket _ request'
               (time_Now w1) w2 Hb), Hlate. reflexivity.
Qed.

Lemma Sum_endpoint_rate_limited_witness :
  let limited :=
    ratelimit.NewErroringLimiter sample.at_time sample.timed_bucket
      sample.timed_set_bucket (kit.NewLimiter 0 (kit.Every kit.Second) 1)
      (addendpoint.MakeSumEndpoint
         (addservice.NewBasicService 64 sample.idle)) in
  let request :=
    addendpoint.OfSumRequest
      {| addendpoint.SumRequest.A := 1; addendpoint.SumRequest.B := 2 |} in
  let w2 := sample.later 999999999 (snd (limited request sample.started)) in
  let w3 := sample.later 1000000000 (snd (limited request sample.started)) in
  fst (limited request sample.started)
  = Go.Ret (addendpoint.OfSumResponse
              {| addendpoint.SumResponse.V := 3;
                 addendpoint.SumResponse.Err := None |}, None)
  /\ limited request w2
     = (Go.Ret (addendpoint.untyped_nil, Some Go.ErrLimited), w2)
  /\ limited request w3
     = addendpoint.MakeSumEndpoint
         (addservice.NewBasicService 64 sample.idle) request
         (sample.timed_set_bucket 0
            {| ratelimit.credit := 0;
               ratelimit.last := sample.at_time w3 |} w3).
Proof.
  cbv zeta.
  pose proof (@Sum_endpoint_rate_limited sample.Timed sample.at_time
                sample.timed_bucket sample.timed_set_bucket
                sample.timed_plain (fun _ e => e) (fun _ e => e)
                (addservice.NewBasicService 64 sample.idle) false)
    as [_ [Hfirst [Hsoon Hlater]]].
  assert (Hkept : ratelimit.buckets_kept sample.timed_bucket
                    sample.timed_set_bucket).
  { intros a b w. unfold sample.timed_bucket, sample.timed_set_bucket.
    cbn [sample.buckets]. rewrite Nat.eqb_refl. reflexivity. }
  assert (Hleaves : ratelimit.leaves_bucket sample.timed_bucket 0
                      (addendpoint.MakeSumEndpoint
                         (addservice.NewBasicService 64 sample.idle))).
  { intros request w. destruct request; reflexivity. }
  set (request :=
         addendpoint.OfSumRequest
           {| addendpoint.SumRequest.A := 1;
              addendpoint.SumRequest.B := 2 |}).
  set (w1 := snd (ratelimit.NewErroringLimiter sample.at_time
                    sample.timed_bucket sample.timed_set_bucket
                    (kit.NewLimiter 0 (kit.Every kit.Second) 1)
                    (addendpoint.MakeSumEndpoint
                       (addservice.NewBasicService 64 sample.idle))
                    request sample.started)).
  split; [|split].
  - rewrite Hfirst; reflexivity.
  - assert (Hlt : sample.at_time (sample.later 999999999 w1)
                  < sample.at_time sample.started + kit.Second)
      by (vm_compute; reflexivity).
    exact (proj1 (Hsoon request request sample.started
                    (sample.later 999999999 w1) Hkept Hleaves eq_refl
                    eq_refl Hlt)).
  - assert (Hle : sample.at_time sample.started + kit.Second
                  <= sample.at_time (sample.later 1000000000 w1))
      by (vm_compute; discriminate).
    exact (Hlater request request sample.started
             (sample.later 1000000000 w1) Hkept Hleaves eq_refl eq_refl Hle).
Defined.
